(** * Hoevelaken auto-rooster: model builder, preprocessing and validator

    A shallow embedding of the scheduling pipeline of the repository:

    - [src/app/preprocessing.py]      ([preprocess_data]),
    - [src/app/solver_standardized.py] ([auto_rooster_standardized]),
    - [src/app/validate.py]            ([validate_auto_rooster]),
    - [src/web/app.py]                 ([generate_schedule]).

    Conventions of the embedding.

    - A calendar date is a [Z]: the number of days since Monday
      0001-01-01 (Python's [date.toordinal () - 1]), so that the weekday
      of [d] is [d mod 7] with 0 = Monday.  Timestamps normalised to
      midnight and [datetime.date] values are both such day numbers.
    - A clock time is a record of hour, minute and second, compared as
      Python compares [datetime.time] values (lexicographically).
    - A pandas table is the list of its rows, a row is a record.
    - The CP-SAT model is the list of the constraints the builder adds;
      the solver itself is opaque and appears only through the status and
      the valuation it hands back.
    - Python exceptions are values of [exn]; a call that may raise has a
      result in [py A].
    - A float is an IEEE double ([PrimFloat.float]); the durations go
      through the same divisions, products and rounding as in pandas.
    - pandas is taken at version 2 or later, where a [Timestamp] and a
      [datetime.date] never compare equal; line 104 of validate.py
      compares one with the other ([timestamp_ne_date]). *)

From Stdlib Require Import ZArith List String Ascii Bool Lia Sorted.
From Stdlib Require Floats Uint63.
Import ListNotations.
Open Scope string_scope.
Open Scope list_scope.
Open Scope Z_scope.

Set Implicit Arguments.

(* ===================================================================== *)
(** ** Python-level helpers *)
(* ===================================================================== *)

Module Py.

(** The exceptions that the modelled code can raise. *)
Inductive exn : Type :=
| IndexError (msg : string)
| KeyError (msg : string)
| ValueError (msg : string)
| TypeError (msg : string).

(** [str(e)] *)
Definition exn_str (e : exn) : string :=
  match e with
  | IndexError m | KeyError m | ValueError m | TypeError m => m
  end.

Definition py (A : Type) : Type := (exn + A)%type.

Definition ret {A} (a : A) : py A := inr a.
Definition raise {A} (e : exn) : py A := inl e.

Definition bind {A B} (c : py A) (k : A -> py B) : py B :=
  match c with
  | inl e => inl e
  | inr a => k a
  end.

(** A [for] loop whose body may raise and which extends one list. *)
Fixpoint for_each {A B} (body : A -> py (list B)) (l : list A) : py (list B) :=
  match l with
  | [] => ret []
  | a :: r =>
      bind (body a) (fun xs =>
      bind (for_each body r) (fun ys => ret (xs ++ ys)))
  end.

(** [series.iloc[0]] *)
Definition iloc0 {A} (l : list A) : py A :=
  match l with
  | [] => raise (IndexError "single positional indexer is out-of-bounds")
  | a :: _ => ret a
  end.

(** [min(l)] on a list of integers. *)
Definition py_min (l : list Z) : py Z :=
  match l with
  | [] => raise (ValueError "min() arg is an empty sequence")
  | a :: r => ret (fold_left Z.min r a)
  end.

(** [range(a, b)] *)
Definition range (a b : Z) : list Z :=
  map (fun i => a + Z.of_nat i) (seq 0 (Z.to_nat (b - a))).

(** [c.lower()] on one ASCII character. *)
Definition lower_ascii (c : ascii) : ascii :=
  let n := nat_of_ascii c in
  if (andb (Nat.leb 65 n) (Nat.leb n 90)) then ascii_of_nat (n + 32) else c.

(** [s.lower()], on ASCII strings. *)
Fixpoint lower (s : string) : string :=
  match s with
  | EmptyString => EmptyString
  | String c r => String (lower_ascii c) (lower r)
  end.

(** The characters [str.strip()] removes. *)
Definition is_space (c : ascii) : bool :=
  let n := nat_of_ascii c in
  orb (Nat.eqb n 32) (andb (Nat.leb 9 n) (Nat.leb n 13)).

Fixpoint lstrip (s : string) : string :=
  match s with
  | EmptyString => EmptyString
  | String c r => if is_space c then lstrip r else s
  end.

Fixpoint rstrip (s : string) : string :=
  match s with
  | EmptyString => EmptyString
  | String c r =>
      match rstrip r with
      | EmptyString => if is_space c then EmptyString else String c EmptyString
      | r' => String c r'
      end
  end.

(** [s.strip()] *)
Definition strip (s : string) : string := rstrip (lstrip s).

(** [sorted(set(l))] / [sorted(series.unique())]: insertion into a
    strictly increasing list, for the order given by [cmp]. *)
Section USort.
Variable A : Type.
Variable cmp : A -> A -> comparison.

Fixpoint uinsert (x : A) (l : list A) : list A :=
  match l with
  | [] => [x]
  | y :: r =>
      match cmp x y with
      | Lt => x :: l
      | Eq => l
      | Gt => y :: uinsert x r
      end
  end.

Definition usort (l : list A) : list A := fold_right uinsert [] l.
End USort.

(** [x in l] for strings and integers. *)
Definition in_str (x : string) (l : list string) : bool :=
  existsb (String.eqb x) l.
Definition in_Z (x : Z) (l : list Z) : bool := existsb (Z.eqb x) l.
Definition in_nat (x : nat) (l : list nat) : bool := existsb (Nat.eqb x) l.

(** [sum(l)] *)
Definition zsum (l : list Z) : Z := fold_right Z.add 0 l.

(** [series.unique()]: first occurrences, in order. *)
Fixpoint unique_str (l : list string) : list string :=
  match l with
  | [] => []
  | a :: r => a :: filter (fun b => negb (String.eqb a b)) (unique_str r)
  end.

End Py.

Import Py.

Declare Scope py_scope.
Notation "x <- c ;; k" := (bind c (fun x => k))
  (at level 61, c at next level, right associativity) : py_scope.
Open Scope py_scope.

(* ===================================================================== *)
(** ** Dates and clock times *)
(* ===================================================================== *)

Definition date := Z.

(** [d.weekday()], 0 = Monday. *)
Definition weekday (d : date) : Z := d mod 7.

Record time : Type := mkTime { hour : Z; minute : Z; second : Z }.

(** The times [datetime.time] can hold (microseconds are always 0 here:
    the formats read are [%H:%M:%S] and [%H:%M]). *)
Definition valid_time (t : time) : Prop :=
  0 <= hour t < 24 /\ 0 <= minute t < 60 /\ 0 <= second t < 60.

(** Comparison of [datetime.time] values: lexicographic on the fields. *)
Definition time_compare (a b : time) : comparison :=
  match hour a ?= hour b with
  | Eq => match minute a ?= minute b with
          | Eq => second a ?= second b
          | c => c
          end
  | c => c
  end.

Definition time_leb (a b : time) : bool :=
  match time_compare a b with Gt => false | _ => true end.
Definition time_geb (a b : time) : bool := time_leb b a.
Definition time_ltb (a b : time) : bool :=
  match time_compare a b with Lt => true | _ => false end.

(** [pd.to_datetime(t.astype(str))]: the time of day on today's date;
    differences of two of them are differences of seconds since midnight. *)
Definition seconds_of (t : time) : Z := hour t * 3600 + minute t * 60 + second t.

(** [(pd.to_datetime(end) - pd.to_datetime(start)).total_seconds()] *)
Definition seconds_between (start_t end_t : time) : Z :=
  seconds_of end_t - seconds_of start_t.

(* ===================================================================== *)
(** ** Data model *)
(* ===================================================================== *)

(** The value of a weekday cell after [convert_day_value]: 1 or 0.5
    (a cell converted to 0 produces no shift). *)
Inductive Required : Type := Required_1 | Required_05.

(** A row of the weekly template ([df_rooster_template]) once its columns
    are named; [t_cells] holds the cells Maandag .. Zondag in that order. *)
Record TemplateRow : Type := mkTemplateRow {
  t_Shifts : string;
  t_actie : string;
  t_Begintijd : time;
  t_Eindtijd : time;
  t_Deskundigheid : Z;
  t_cells : list string
}.

(** An entry of [shift_requirements]. *)
Record Requirement : Type := mkRequirement {
  rq_shift_name : string;
  rq_day_of_week : Z;
  rq_start_time : time;
  rq_end_time : time;
  rq_qualification : list Z;
  rq_duration : PrimFloat.float;                (* [Duur], in hours *)
  rq_required : Required
}.

(** A row of the [shifts] table. *)
Record Shift : Type := mkShift {
  shift_id : nat;
  shift_name : string;
  shift_date : date;
  week : Z;
  global_week : Z;
  day_of_week : Z;
  absolute_day : Z;
  start_time : time;
  end_time : time;
  duration_min : Z;
  qualification : list Z;
  is_night : bool;
  required : Required
}.

(** A row of the normalised [workers] table (the columns the embedded
    code reads). *)
Record Worker : Type := mkWorker {
  medewerker_id : string;
  medewerker_naam : string;
  max_days_per_week : Z;
  contract_minutes : Z;
  leeftijd : Z;
  deskundigheid : list Z;
  nachten : string;
  voorkeur_nacht : string;
  patroon : string      (* [str(cell)]; the cell is the list made at line 299
                           of preprocessing.py: "[]" for an empty cell *)
}.

(** A row of the unavailability sheet as delivered. *)
Record OnbRaw : Type := mkOnbRaw {
  raw_Medewerker_id : string;
  raw_Datum_beschikbaarheid : date;
  raw_Beschikbaarheid : option string;          (* [None]: the cell is empty (NaN) *)
  raw_tijd_vanaf : option time;                 (* [None]: no parsable time *)
  raw_tijd_tm : option time
}.

(** A row of [data['onb']]. *)
Record Onb : Type := mkOnb {
  Medewerker_id : string;
  Datum : option date;                          (* [None]: NaT *)
  Beschikbaarheid : string;
  Beschikbaarheid_tijd_vanaf : option time;
  Beschikbaarheid_tijd_tm : option time
}.

(** A row of the constant schedule ([df_vastrooster]). *)
Record VastRow : Type := mkVastRow {
  v_medewerker_id : string;
  v_dag : string;
  v_weekvolgnr : Z;
  v_dienst : string
}.

(** A row of the sheet of previously worked shifts as delivered. *)
Record PrevRaw : Type := mkPrevRaw {
  raw_Mw_id : string;
  raw_Datum_dienst : date;
  raw_Dienst : string;
  raw_Dienst_starttijd : time;
  raw_Dienst_eindtijd : time
}.

(** A row of [data['prev_assignments']]. *)
Record Prev : Type := mkPrev {
  p_shift_id : nat;
  p_employee_id : option string;                (* [None]: [pd.NA] *)
  p_shift_date : date;
  p_shift_name : string;
  p_start_time : time;
  p_end_time : time;
  p_is_night : bool;
  p_duration_min : Z;
  p_day_of_week : Z;
  p_absolute_day : Z;
  p_week : Z;
  p_global_week : Z
}.

(** The dictionary [preprocess_data] returns.  The helper entries
    ([emp_ids], [dur_min], [shifts_by_week], [weeks], [night_shifts],
    [night_shifts_by_week]) are functions of [shifts] and [workers] and
    are defined below as such. *)
Record Data : Type := mkData {
  shifts : list Shift;
  workers : list Worker;
  onb : list Onb;
  prev_assignments : list Prev
}.

(* ===================================================================== *)
(** ** Preprocessing: the shift calendar *)
(* ===================================================================== *)

(** [convert_day_value] (preprocessing.py, 28-34); [None] is the value 0. *)
Definition convert_day_value (x : string) : option Required :=
  if String.eqb (lower (strip x)) "ja" then Some Required_1
  else if String.eqb (lower (strip x)) "facultatief" then Some Required_05
  else None.

(** [float(z)] for an integer below 2^63 in absolute value. *)
Definition float_of_Z (z : Z) : PrimFloat.float :=
  if z <? 0 then PrimFloat.opp (PrimFloat.of_uint63 (Uint63.of_Z (- z)))
  else PrimFloat.of_uint63 (Uint63.of_Z z).

(** [x.round()] for a float from 0 to 2^52: the nearest integer, a tie
    going to the even one. *)
Definition float_round (x : PrimFloat.float) : PrimFloat.float :=
  let big := float_of_Z (2 ^ 52) in
  PrimFloat.sub (PrimFloat.add x big) big.

(** [int(x)] for a float that is an integer. *)
Definition Z_of_float (x : PrimFloat.float) : Z :=
  match FloatOps.Prim2SF x with
  | SpecFloat.S754_finite false m e => Z.shiftl (Z.pos m) e
  | SpecFloat.S754_finite true m e => - Z.shiftl (Z.pos m) e
  | _ => 0
  end.

(** Lines 49-55 on a difference of [s] seconds: hours as a float, a
    negative value wrapped by 24. *)
Definition hours_of_seconds (s : Z) : PrimFloat.float :=
  let h := PrimFloat.div (float_of_Z s) (float_of_Z 3600) in
  if PrimFloat.ltb h (float_of_Z 0) then PrimFloat.add h (float_of_Z 24) else h.

(** [Duur] (lines 49-55), in hours. *)
Definition Duur (begin_t end_t : time) : PrimFloat.float :=
  hours_of_seconds (seconds_between begin_t end_t).

(** Line 168: [(duration * 60).round().astype(int)]. *)
Definition minutes_of_hours (h : PrimFloat.float) : Z :=
  Z_of_float (float_round (PrimFloat.mul h (float_of_Z 60))).

(** Lines 23 and 63-84: one requirement per planned row and weekday whose
    cell is "Ja" or "Facultatief". *)
Definition shift_requirements (template : list TemplateRow) : list Requirement :=
  flat_map
    (fun row =>
       flat_map
         (fun cell : Z * string =>
            match convert_day_value (snd cell) with
            | Some r =>
                [ mkRequirement (t_Shifts row) (fst cell) (t_Begintijd row)
                    (t_Eindtijd row) [t_Deskundigheid row]
                    (Duur (t_Begintijd row) (t_Eindtijd row)) r ]
            | None => []
            end)
         (combine [0; 1; 2; 3; 4; 5; 6] (t_cells row)))
    (filter (fun row => String.eqb (lower (t_actie row)) "plannen") template).

(** One element of [all_shift_instances] (lines 152-162) with the columns
    added at lines 165-187; the id is filled in by [reset_index]. *)
Definition shift_instance (start_date global_start_date : date) (wk : Z)
    (row : Requirement) : Shift :=
  let d := start_date + (wk * 7 + rq_day_of_week row) in
  mkShift 0 (rq_shift_name row) d (wk + 1)
    ((d - global_start_date) / 7 + 1)
    (rq_day_of_week row) (wk * 7 + rq_day_of_week row)
    (rq_start_time row) (rq_end_time row)
    (minutes_of_hours (rq_duration row))
    (rq_qualification row)
    (seconds_between (rq_start_time row) (rq_end_time row) <? 0)
    (rq_required row).

Definition set_shift_id (i : nat) (s : Shift) : Shift :=
  mkShift i (shift_name s) (shift_date s) (week s) (global_week s)
    (day_of_week s) (absolute_day s) (start_time s) (end_time s)
    (duration_min s) (qualification s) (is_night s) (required s).

(** [df.reset_index(drop=True); df['shift_id'] = df.index] *)
Definition reset_index (l : list Shift) : list Shift :=
  map (fun p : nat * Shift => set_shift_id (fst p) (snd p))
      (combine (seq 0 (List.length l)) l).

Definition all_shift_instances (template : list TemplateRow)
    (start_date global_start_date : date) (num_weeks : Z) : list Shift :=
  reset_index
    (flat_map
       (fun wk => map (shift_instance start_date global_start_date wk)
                      (shift_requirements template))
       (range 0 num_weeks)).

Definition is_constant_name (n : string) : bool := in_str n ["KOK"; "FM"].

(** Lines 194-198: the constant shift catalogue. *)
Definition shifts_constant_of (all : list Shift) : list Shift :=
  reset_index (filter (fun s => is_constant_name (shift_name s)) all).

(** Lines 200-202: the shifts that are planned. *)
Definition shifts_of (all : list Shift) : list Shift :=
  reset_index (filter (fun s => negb (is_constant_name (shift_name s))) all).

(* ===================================================================== *)
(** ** Preprocessing: previous assignments *)
(* ===================================================================== *)

(** Line 113: a previous shift is a night when it starts at 22:00 or
    later, or before 06:00. *)
Definition prev_is_night (t : time) : bool :=
  orb (22 <=? hour t) (hour t <? 6).

(** Lines 119-124: the times are read with [%H:%M], so the difference
    is a whole number of minutes. *)
Definition prev_duration_min (start_t end_t : time) : Z :=
  let m := seconds_between start_t end_t / 60 in
  if m <? 0 then m + 24 * 60 else m.

Fixpoint insert_by_date (p : Prev) (l : list Prev) : list Prev :=
  match l with
  | [] => [p]
  | q :: r =>
      if p_shift_date p <=? p_shift_date q then p :: l
      else q :: insert_by_date p r
  end.

(** [df.sort_values("shift_date")].  Rows of equal date keep their order
    here, as in a stable sort; pandas' default sort does not promise
    that order (numpy's quicksort keeps it for tables of at most 16
    rows).  No function below reads the position of a row of the
    previous table: the table is read through filters on the worker, the
    night flag and the shift id, and through the set of its dates. *)
Definition sort_values_shift_date (l : list Prev) : list Prev :=
  fold_right insert_by_date [] l.

Definition zmin_list (a : Z) (l : list Z) : Z := fold_left Z.min l a.
Definition zmax_list (a : Z) (l : list Z) : Z := fold_left Z.max l a.

(** Lines 112-137 on one row; [i] is the position before sorting. *)
Definition canonical_prev (first_day global_start_date : date)
    (p : nat * PrevRaw) : Prev :=
  let r := snd p in
  let d := raw_Datum_dienst r in
  mkPrev (fst p) (Some (raw_Mw_id r)) d (raw_Dienst r)
    (raw_Dienst_starttijd r) (raw_Dienst_eindtijd r)
    (prev_is_night (raw_Dienst_starttijd r))
    (prev_duration_min (raw_Dienst_starttijd r) (raw_Dienst_eindtijd r))
    (weekday d) (d - first_day) ((d - first_day) / 7)
    ((d - global_start_date) / 7).

(** The outcome of the branch at lines 87-148. *)
Record Horizon : Type := mkHorizon {
  h_prev : list Prev;
  h_start_date : date;
  h_global_start_date : date
}.

(** Lines 87-148.  [today] is [dt.datetime.now().date()]. *)
Definition preprocess_prev (raw : list PrevRaw) (today : date) : Horizon :=
  match raw with
  | [] =>
      let start_date := today + (7 - weekday today) mod 7 in
      mkHorizon [] start_date start_date
  | r0 :: rest =>
      let dates := map raw_Datum_dienst rest in
      let first_day := zmin_list (raw_Datum_dienst r0) dates in
      let global_start_date := first_day - weekday first_day in
      let df :=
        sort_values_shift_date
          (map (canonical_prev first_day global_start_date)
               (combine (seq 0 (List.length raw)) raw)) in
      mkHorizon df (zmax_list (raw_Datum_dienst r0) dates + 1) global_start_date
  end.

(** Lines 205-213: without history, the planned shifts that fall in the
    four weeks before the start date, with no employee. *)
Definition shift_as_prev (s : Shift) : Prev :=
  mkPrev (shift_id s) None (shift_date s) (shift_name s) (start_time s)
    (end_time s) (is_night s) (duration_min s) (day_of_week s)
    (absolute_day s) (week s) (global_week s - 4).

Definition pseudo_history (sh : list Shift) (start_date : date) : list Prev :=
  map shift_as_prev
    (filter (fun s => start_date - 28 <=? shift_date s)
       (filter (fun s => shift_date s <? start_date) sh)).

(* ===================================================================== *)
(** ** Preprocessing: the constant schedule and the unavailability table *)
(* ===================================================================== *)

(** [day_map_const] (line 339); [None] is the NaN that [.map] leaves for
    a name that is not a key. *)
Definition day_map_const (dag : string) : option Z :=
  if String.eqb dag "maandag" then Some 0
  else if String.eqb dag "dinsdag" then Some 1
  else if String.eqb dag "woensdag" then Some 2
  else if String.eqb dag "donderdag" then Some 3
  else if String.eqb dag "vrijdag" then Some 4
  else if String.eqb dag "zaterdag" then Some 5
  else if String.eqb dag "zondag" then Some 6
  else None.

(** Line 342: the target date of a constant-schedule row. *)
Definition vast_shift_date (start_date : date) (r : VastRow) : option date :=
  match day_map_const (v_dag r) with
  | Some dow => Some (start_date + ((v_weekvolgnr r - 1) * 7 + dow))
  | None => None
  end.

(** [find_shift_id] (lines 345-347): the first catalogue shift with the
    row's shift name and weekday. *)
Definition find_shift_id (shifts_constant : list Shift) (r : VastRow) : option nat :=
  match day_map_const (v_dag r) with
  | Some dow =>
      match filter (fun s => andb (String.eqb (shift_name s) (v_dienst r))
                                  (day_of_week s =? dow)) shifts_constant with
      | m :: _ => Some (shift_id m)
      | [] => None
      end
  | None => None
  end.

(** A row of [df_const_unavail] (lines 351-356). *)
Record ConstUnavail : Type := mkConstUnavail {
  cu_Medewerker_id : string;
  cu_Datum_beschikbaarheid : option date;
  cu_shift_id : option nat
}.

Definition const_unavail (shifts_constant : list Shift) (start_date : date)
    (vast : list VastRow) : list ConstUnavail :=
  map (fun r => mkConstUnavail (v_medewerker_id r) (vast_shift_date start_date r)
                  (find_shift_id shifts_constant r)) vast.

(** The unavailability table between lines 358 and 370: the delivered
    rows followed by those of the constant schedule.  A date is [None]
    when it is NaT. *)
Record OnbRow : Type := mkOnbRow {
  or_Medewerker_id : string;
  or_Datum_beschikbaarheid : option date;
  or_Beschikbaarheid : option string;
  or_tijd_vanaf : option time;
  or_tijd_tm : option time
}.

Definition onb_of_raw (r : OnbRaw) : OnbRow :=
  mkOnbRow (raw_Medewerker_id r) (Some (raw_Datum_beschikbaarheid r))
    (raw_Beschikbaarheid r) (raw_tijd_vanaf r) (raw_tijd_tm r).

(** Lines 353-356: the entry a constant-schedule row becomes. *)
Definition onb_of_const (c : ConstUnavail) : OnbRow :=
  mkOnbRow (cu_Medewerker_id c) (cu_Datum_beschikbaarheid c)
    (Some "Niet beschikbaar (constant schedule)")
    (Some (mkTime 0 0 0)) (Some (mkTime 23 59 0)).

(** Lines 361-363: the minutes to subtract for [emp]. *)
Definition hours_to_subtract (shifts_constant : list Shift)
    (cu : list ConstUnavail) (emp : string) : Z :=
  let shift_ids :=
    flat_map (fun c => match cu_shift_id c with Some i => [i] | None => [] end)
      (filter (fun c => String.eqb (cu_Medewerker_id c) emp) cu) in
  zsum (map duration_min
          (filter (fun s => in_nat (shift_id s) shift_ids) shifts_constant)).

Definition set_contract_minutes (m : Z) (w : Worker) : Worker :=
  mkWorker (medewerker_id w) (medewerker_naam w) (max_days_per_week w) m
    (leeftijd w) (deskundigheid w) (nachten w) (voorkeur_nacht w) (patroon w).

(** Line 364 for one employee. *)
Definition subtract_for (shifts_constant : list Shift) (cu : list ConstUnavail)
    (ws : list Worker) (emp : string) : list Worker :=
  map (fun w =>
         if String.eqb (medewerker_id w) emp
         then set_contract_minutes
                (contract_minutes w - hours_to_subtract shifts_constant cu emp) w
         else w) ws.

(** Lines 361-366: the loop over the employees of the constant schedule. *)
Definition subtract_constant (shifts_constant : list Shift)
    (cu : list ConstUnavail) (ws : list Worker) : list Worker :=
  fold_left (subtract_for shifts_constant cu)
    (unique_str (map cu_Medewerker_id cu)) ws.

(** Lines 370-385: [Datum], the placeholder for a missing kind, and the
    two time columns ([ensure_time] keeps a time and turns anything that
    does not parse into [None]). *)
Definition normalise_onb (r : OnbRow) : Onb :=
  mkOnb (or_Medewerker_id r) (or_Datum_beschikbaarheid r)
    (match or_Beschikbaarheid r with Some k => k | None => "Onbekend" end)
    (or_tijd_vanaf r) (or_tijd_tm r).

(** [preprocess_data] (preprocessing.py, 6-429) from the normalised worker
    table on: the calendar, the history, the constant schedule and the
    unavailability table. *)
Definition preprocess_data (df_werknemers : list Worker)
    (df_rooster_template : list TemplateRow) (df_onb : list OnbRaw)
    (prev : list PrevRaw) (df_vastrooster : list VastRow)
    (num_weeks : Z) (today : date) : Data :=
  let h := preprocess_prev prev today in
  let all := all_shift_instances df_rooster_template (h_start_date h)
               (h_global_start_date h) num_weeks in
  let shifts_constant := shifts_constant_of all in
  let sh := shifts_of all in
  let prev_assignments :=
    match h_prev h with
    | [] => pseudo_history sh (h_start_date h)
    | _ => h_prev h
    end in
  let cu := const_unavail shifts_constant (h_start_date h) df_vastrooster in
  mkData sh
    (subtract_constant shifts_constant cu df_werknemers)
    (map normalise_onb (map onb_of_raw df_onb ++ map onb_of_const cu))
    prev_assignments.

(* ===================================================================== *)
(** ** The helper structures of the returned dictionary *)
(* ===================================================================== *)

Section Helpers.
Variable d : Data.

(** Line 323. *)
Definition emp_ids : list string := map medewerker_id (workers d).

(** Line 390: [dur_min[s]]; a repeated id keeps its last duration. *)
Definition dur_min (s : nat) : py Z :=
  match rev (filter (fun r => Nat.eqb (shift_id r) s) (shifts d)) with
  | r :: _ => ret (duration_min r)
  | [] => raise (KeyError "dur_min")
  end.

(** Lines 393-399: [shifts_by_week.get(w, [])]. *)
Definition shifts_by_week (w : Z) : list nat :=
  map shift_id (filter (fun r => week r =? w) (shifts d)).

(** Line 404. *)
Definition weeks : list Z := usort Z.compare (map week (shifts d)).

(** Line 406. *)
Definition night_shifts : list nat :=
  map shift_id (filter is_night (shifts d)).

(** Lines 407-408: [night_shifts_by_week.get(w, [])]. *)
Definition night_shifts_by_week (w : Z) : list nat :=
  map shift_id (filter (fun r => andb (week r =? w) (is_night r)) (shifts d)).

End Helpers.

(* ===================================================================== *)
(** ** The CP-SAT model as data *)
(* ===================================================================== *)

(** The Boolean variables of the model that the hard constraints mention:
    [x[(s, emp)]], [u[s]] and [n_emp_date[(emp, d)]]. *)
Inductive var : Type :=
| X (s : nat) (emp : string)
| U (s : nat)
| N_emp_date (emp : string) (d : date).

(** A literal: a variable or its [.Not()]. *)
Inductive lit : Type :=
| Lit (v : var)
| Not (v : var).

Inductive cmp : Type := Le | Ge | EqC.

(** A linear expression: weighted variables plus a constant. *)
Record linexpr : Type := mkLin { terms : list (Z * var); offset : Z }.

(** [model.Add(lhs op rhs).OnlyEnforceIf(lits)] (no literal: always
    enforced) and [model.AddAtMostOne(vars)]. *)
Inductive constraint : Type :=
| Add (lhs : linexpr) (op : cmp) (rhs : Z) (only_enforce_if : list lit)
| AddAtMostOne (vs : list var).

(** [sum(vs)] *)
Definition sum_of (vs : list var) : linexpr :=
  mkLin (map (fun v => (1, v)) vs) 0.

(** [model.Add(v == 0)] *)
Definition fix_zero (v : var) : constraint := Add (sum_of [v]) EqC 0 [].

(** What the solver hands back: a value for every Boolean variable. *)
Definition valuation : Type := var -> bool.

Definition value (v : valuation) (x : var) : Z := Z.b2z (v x).

Definition eval (v : valuation) (e : linexpr) : Z :=
  zsum (map (fun t : Z * var => fst t * value v (snd t)) (terms e)) + offset e.

Definition lit_holds (v : valuation) (l : lit) : bool :=
  match l with
  | Lit x => v x
  | Not x => negb (v x)
  end.

Definition cmp_holds (op : cmp) (a b : Z) : bool :=
  match op with
  | Le => a <=? b
  | Ge => b <=? a
  | EqC => a =? b
  end.

(** Whether a valuation satisfies a constraint. *)
Definition holdsb (v : valuation) (c : constraint) : bool :=
  match c with
  | Add lhs op rhs lits =>
      implb (forallb (lit_holds v) lits) (cmp_holds op (eval v lhs) rhs)
  | AddAtMostOne vs => zsum (map (value v) vs) <=? 1
  end.

Definition holds (v : valuation) (c : constraint) : Prop := holdsb v c = true.

(** A valuation is a solution of a model when it satisfies every
    constraint of it. *)
Definition solution (v : valuation) (cs : list constraint) : Prop :=
  Forall (holds v) cs.

Definition solutionb (v : valuation) (cs : list constraint) : bool :=
  forallb (holdsb v) cs.

(* ===================================================================== *)
(** ** The model builder: indexes (solver_standardized.py, 56-107) *)
(* ===================================================================== *)

Fixpoint unique_Z (l : list Z) : list Z :=
  match l with
  | [] => []
  | a :: r => a :: filter (fun b => negb (a =? b)) (unique_Z r)
  end.

Section Indexes.
Variable d : Data.

(** Line 56. *)
Definition dates_list : list date := usort Z.compare (map shift_date (shifts d)).

(** Lines 60-64: [shifts_by_date.get(day, [])]. *)
Definition shifts_by_date (day : date) : list nat :=
  map shift_id (filter (fun r => shift_date r =? day) (shifts d)).

(** The keys of [shifts_by_date], in insertion order. *)
Definition shifts_by_date_keys : list date := unique_Z (map shift_date (shifts d)).

(** Lines 67-71: [night_shifts_by_date.get(day, [])]. *)
Definition night_shifts_by_date (day : date) : list nat :=
  map shift_id
    (filter (fun r => shift_date r =? day) (filter is_night (shifts d))).

(** [sorted(night_shifts_by_date.keys())] *)
Definition curr_night_dates : list date :=
  usort Z.compare (map shift_date (filter is_night (shifts d))).

(** [shifts.loc[shifts['shift_id'] == s, col].iloc[0]] *)
Definition shift_loc {A} (s : nat) (col : Shift -> A) : py A :=
  r <- iloc0 (filter (fun r => Nat.eqb (shift_id r) s) (shifts d)) ;;
  ret (col r).

(** [workers.loc[workers['medewerker_id'] == emp, col].iloc[0]] *)
Definition worker_loc {A} (emp : string) (col : Worker -> A) : py A :=
  w <- iloc0 (filter (fun w => String.eqb (medewerker_id w) emp) (workers d)) ;;
  ret (col w).

End Indexes.

(** The tail of a descending list of dates that continues [last] day by
    day (lines 99-106). *)
Fixpoint take_consecutive_desc (last : date) (l : list date) : list date :=
  match l with
  | [] => []
  | x :: r =>
      if last - x =? 1 then x :: take_consecutive_desc x r else []
  end.

Definition opt_str_eqb (o : option string) (emp : string) : bool :=
  match o with
  | Some e => String.eqb e emp
  | None => false
  end.

(** [get_last_consecutive_block_dates] (lines 89-107). *)
Definition get_last_consecutive_block_dates (prev : list Prev) (emp : string)
    (night : bool) : list date :=
  let df := filter (fun p => opt_str_eqb (p_employee_id p) emp) prev in
  let df := if night then filter p_is_night df else df in
  match rev (usort Z.compare (map p_shift_date df)) with
  | [] => []
  | last :: r => rev (last :: take_consecutive_desc last r)
  end.

(* ===================================================================== *)
(** ** The model builder: hard constraints (solver_standardized.py, 111-346) *)
(* ===================================================================== *)

Section ModelBuilder.
Variable d : Data.

Definition xs_of (emp : string) (ids : list nat) : list var :=
  map (fun s => X s emp) ids.

(** Lines 118-130: [n_emp_date[(emp, day)]] is 1 exactly when the
    employee works a night shift of that date. *)
Definition night_indicator_constraints : list constraint :=
  flat_map
    (fun emp =>
       flat_map
         (fun day =>
            let b := N_emp_date emp day in
            match night_shifts_by_date d day with
            | [] => [fix_zero b]
            | night_ids =>
                [ Add (sum_of (xs_of emp night_ids)) Ge 1 [Lit b];
                  Add (sum_of (xs_of emp night_ids)) EqC 0 [Not b] ]
            end)
         (dates_list d))
    (emp_ids d).

(** 1) Coverage (lines 134-136). *)
Definition coverage_constraints : list constraint :=
  map (fun s =>
         Add (mkLin (map (fun emp => (1, X s emp)) (emp_ids d) ++ [(1, U s)]) 0)
             EqC 1 [])
      (map shift_id (shifts d)).

(** 2) At most one shift per employee per calendar day (lines 138-142). *)
Definition one_shift_per_day_constraints : list constraint :=
  flat_map
    (fun emp =>
       flat_map
         (fun day =>
            match shifts_by_date d day with
            | [] => []
            | s_list => [AddAtMostOne (xs_of emp s_list)]
            end)
         (shifts_by_date_keys d))
    (emp_ids d).

(** 3) After a night shift no day or evening shift the next day
    (lines 144-161). *)
Definition after_night_constraints : py (list constraint) :=
  for_each
    (fun emp =>
       for_each
         (fun day =>
            let next_d := day + 1 in
            match shifts_by_date d next_d with
            | [] => ret []
            | next_ids =>
                let night_ids_today := night_shifts_by_date d day in
                non_night <-
                  for_each (fun s => n <- shift_loc d s is_night ;;
                                     ret (if n then [] else [s])) next_ids ;;
                match night_ids_today, non_night with
                | [], _ | _, [] => ret []
                | _, _ =>
                    ret [ Add (sum_of (xs_of emp night_ids_today
                                         ++ xs_of emp non_night))
                              Le (Z.of_nat (List.length night_ids_today)) [] ]
                end
            end)
         (dates_list d))
    (emp_ids d).

(** 4) Maximum number of work days per week (lines 163-169). *)
Definition max_days_constraints : py (list constraint) :=
  for_each
    (fun emp =>
       max_days <- worker_loc d emp max_days_per_week ;;
       ret (flat_map
              (fun w =>
                 match shifts_by_week d w with
                 | [] => []
                 | s_list => [Add (sum_of (xs_of emp s_list)) Le max_days []]
                 end)
              (weeks d)))
    (emp_ids d).

(** 5) Contract minutes over the horizon (lines 171-175). *)
Definition contract_constraints : py (list constraint) :=
  for_each
    (fun emp =>
       cap_minutes <- worker_loc d emp contract_minutes ;;
       ts <- for_each (fun s => m <- dur_min d s ;; ret [(m, X s emp)])
               (map shift_id (shifts d)) ;;
       ret [ Add (mkLin ts 0) Le
               (cap_minutes * Z.of_nat (List.length (weeks d))) [] ])
    (emp_ids d).

(** The overlap test of lines 199-203. *)
Definition overlap (shift_start shift_end : time) (start_unb end_unb : option time)
    : bool :=
  match start_unb, end_unb with
  | Some a, Some b => negb (orb (time_leb shift_end a) (time_geb shift_start b))
  | _, _ => true
  end.

(** 6) Unavailable times, one row of [onb] (lines 179-205). *)
Definition unavailability_row (r : Onb) : py (list constraint) :=
  let emp := Medewerker_id r in
  if negb (in_str emp (emp_ids d)) then ret []
  else
    let besch := lower (Beschikbaarheid r) in
    if String.eqb besch "beschikbaar" then ret []
    else
      for_each
        (fun s =>
           shift_start <- shift_loc d s start_time ;;
           shift_end <- shift_loc d s end_time ;;
           ret (if overlap shift_start shift_end
                     (Beschikbaarheid_tijd_vanaf r) (Beschikbaarheid_tijd_tm r)
                then [fix_zero (X s emp)] else []))
        (match Datum r with
         | Some date_unb => shifts_by_date d date_unb
         | None => []                        (* NaT is the date of no shift *)
         end).

Definition unavailability_constraints : py (list constraint) :=
  for_each unavailability_row (onb d).

(** Line 209. *)
Definition max_consec_of (emp : string) : Z :=
  if in_str emp ["602859-1"] then 7 else 5.

(** 7.1) Maximum number of consecutive nights (lines 207-227). *)
Definition consecutive_nights_constraints : list constraint :=
  flat_map
    (fun emp =>
       let max_consec := max_consec_of emp in
       let prev_night_dates :=
         get_last_consecutive_block_dates (prev_assignments d) emp true in
       let combined := usort Z.compare (prev_night_dates ++ curr_night_dates d) in
       flat_map
         (fun i =>
            let window := firstn (Z.to_nat (max_consec + 1))
                            (skipn (Z.to_nat i) combined) in
            match window with
            | [] => []
            | w0 :: _ =>
                if last window w0 - w0 =? max_consec then
                  match filter (fun x => in_Z x (curr_night_dates d)) window with
                  | [] => []
                  | window_curr_dates =>
                      [ Add (sum_of (xs_of emp
                               (flat_map (night_shifts_by_date d) window_curr_dates)))
                            Le max_consec [] ]
                  end
                else []
            end)
         (range 0 (Z.of_nat (List.length combined) - max_consec)))
    (emp_ids d).

(** [(dates_list[idx-2], dates_list[idx-1], dates_list[idx])] for
    [idx] in [range(2, len(dates_list))]. *)
Fixpoint triples (l : list date) : list (date * date * date) :=
  match l with
  | d0 :: r =>
      match r with
      | d1 :: d2 :: _ => (d0, d1, d2) :: triples r
      | _ => []
      end
  | [] => []
  end.

(** 7.2) Rest after three or more consecutive nights (lines 229-276). *)
Definition rest_after_nights_constraints : list constraint :=
  flat_map
    (fun emp =>
       let prev_nights :=
         get_last_consecutive_block_dates (prev_assignments d) emp true in
       (if 3 <=? Z.of_nat (List.length prev_nights) then
          let dprev := last prev_nights 0 in
          flat_map
            (fun k =>
               let block_d := dprev + k in
               if in_Z block_d (dates_list d)
               then map (fun s => fix_zero (X s emp)) (shifts_by_date d block_d)
               else [])
            [1; 2]
        else [])
       ++
       flat_map
         (fun t : date * date * date =>
            let '(d0, d1, d2) := t in
            let d2p1 := d2 + 1 in
            if negb (in_Z d2p1 (dates_list d)) then []
            else
              let cond := [ Lit (N_emp_date emp d0); Lit (N_emp_date emp d1);
                            Lit (N_emp_date emp d2); Not (N_emp_date emp d2p1) ] in
              let blocked_days :=
                filter (fun bd => in_Z bd (dates_list d)) [d2 + 1; d2 + 2] in
              map (fun bs => Add (sum_of [X bs emp]) EqC 0 cond)
                  (flat_map (shifts_by_date d) blocked_days))
         (triples (dates_list d)))
    (emp_ids d).

(** 7.3) At most 35 nights per 13 weeks (lines 278-303). *)
Definition night_cap_constraints : py (list constraint) :=
  for_each
    (fun emp =>
       let prev_night_shift_ids :=
         map p_shift_id
           (filter (fun p => andb (opt_str_eqb (p_employee_id p) emp) (p_is_night p))
              (prev_assignments d)) in
       match weeks d with
       | [] => raise (ValueError "min() arg is an empty sequence")
       | w0 :: wr =>
           let min_week := zmin_list w0 wr in
           let max_week := zmax_list w0 wr in
           ret (flat_map
                  (fun start_week =>
                     let window_weeks := range start_week (start_week + 13) in
                     match flat_map (night_shifts_by_week d) window_weeks with
                     | [] => []
                     | window_shifts =>
                         let prev_count :=
                           List.length
                             (filter
                                (fun s_prev =>
                                   match filter (fun p => Nat.eqb (p_shift_id p) s_prev)
                                           (prev_assignments d) with
                                   | p :: _ => in_Z (p_week p) window_weeks
                                   | [] => false
                                   end)
                                prev_night_shift_ids) in
                         [ Add (mkLin (terms (sum_of (xs_of emp window_shifts)))
                                  (Z.of_nat prev_count)) Le 35 [] ]
                     end)
                  (range min_week (max_week - 12 + 1)))
       end)
    (emp_ids d).

(** Line 309: everyone whose [nachten] is not 'niet'. *)
Definition CAO_7_4_exempt : list string :=
  map medewerker_id
    (filter (fun w => negb (String.eqb (nachten w) "niet")) (workers d)).

(** 7.4) No night shifts from the age of 55 (lines 305-318). *)
Definition age_constraints : py (list constraint) :=
  for_each
    (fun emp =>
       if in_str emp CAO_7_4_exempt then ret []
       else
         age <- worker_loc d emp leeftijd ;;
         ret (if 55 <=? age
              then map (fun s => fix_zero (X s emp)) (night_shifts d)
              else []))
    (emp_ids d).

(** 8) Qualification (lines 320-335). *)
Definition qualification_constraints : py (list constraint) :=
  for_each
    (fun shift_row =>
       req_level <- py_min (qualification shift_row) ;;
       for_each
         (fun emp =>
            emp_level <- worker_loc d emp deskundigheid ;;
            lvl <- py_min emp_level ;;
            ret (if req_level <? lvl
                 then [fix_zero (X (shift_id shift_row) emp)] else []))
         (emp_ids d))
    (shifts d).

(** 9) The [nachten] column (lines 337-346). *)
Definition night_policy_constraints : py (list constraint) :=
  for_each
    (fun emp =>
       night_emp <- worker_loc d emp nachten ;;
       ret (if String.eqb night_emp "Niet"
            then map (fun s => fix_zero (X s emp)) (night_shifts d)
            else if String.eqb night_emp "uitsluitend"
            then map (fun s => fix_zero (X s emp))
                   (filter (fun s => negb (in_nat s (night_shifts d)))
                      (map shift_id (shifts d)))
            else []))
    (emp_ids d).

(** The hard constraints of sections 1 to 9, in the order they are
    added.  The rest of the model does not restrict the assignment of a
    worker outside the following two cases.  Section 10 adds rules for
    seven literal worker ids ('2097', '2653', '3888', '601011',
    '603722-1', '602859-1', '602056').  The objective section (lines
    531-868) adds the penalty variables and the constraints that define
    them, which a choice of the penalty variables satisfies; only for an
    employee whose last previous shift is on the day before the first
    date of the horizon do lines 672-684 fix the isolation variable of
    that first date to 0, which requires the employee, when working on
    the first date, to work on the second as well. *)
Definition hard_constraints : py (list constraint) :=
  c3 <- after_night_constraints ;;
  c4 <- max_days_constraints ;;
  c5 <- contract_constraints ;;
  c6 <- unavailability_constraints ;;
  c73 <- night_cap_constraints ;;
  c74 <- age_constraints ;;
  c8 <- qualification_constraints ;;
  c9 <- night_policy_constraints ;;
  ret (night_indicator_constraints ++ coverage_constraints
       ++ one_shift_per_day_constraints ++ c3 ++ c4 ++ c5 ++ c6
       ++ consecutive_nights_constraints ++ rest_after_nights_constraints
       ++ c73 ++ c74 ++ c8 ++ c9).

End ModelBuilder.

(* ===================================================================== *)
(** ** The solver driver and the extraction of the assignment table
       (solver_standardized.py, 511-528 and 870-987) *)
(* ===================================================================== *)

(** [cp_model] solver statuses. *)
Inductive status : Type := UNKNOWN | MODEL_INVALID | FEASIBLE | INFEASIBLE | OPTIMAL.

(** Line 882: [status in (cp_model.OPTIMAL, cp_model.FEASIBLE)]. *)
Definition is_success (st : status) : bool :=
  match st with
  | OPTIMAL | FEASIBLE => true
  | _ => false
  end.

(** A row of [assignments_df]. *)
Record AssignRow : Type := mkAssignRow {
  a_shift_id : nat;
  a_shift_name : string;
  a_start_time : time;
  a_end_time : time;
  a_shift_date : date;
  a_is_night : bool;
  a_week : Z;
  a_global_week : Z;
  a_day_of_week : Z;
  a_absolute_day : Z;
  a_duration_min : Z;
  a_employee_id : option string;
  a_employee_name : option string;
  a_qualification : list Z;
  a_deskundigheid : option (list Z);
  a_shift_filled : bool
}.

(** The dictionary returned on success, without the objective value (a
    float) and without [all_assignments_df] (the history followed by
    [assignments_df]). *)
Record Result : Type := mkResult {
  assignments_df : list AssignRow;
  uncovered_shifts : list nat;
  solver_status : status
}.

Definition is_digit (c : ascii) : bool :=
  let n := nat_of_ascii c in andb (Nat.leb 48 n) (Nat.leb n 57).

Fixpoint all_digits (s : string) : bool :=
  match s with
  | EmptyString => true
  | String c r => andb (is_digit c) (all_digits r)
  end.

Fixpoint digits_value (acc : Z) (s : string) : Z :=
  match s with
  | EmptyString => acc
  | String c r => digits_value (10 * acc + Z.of_nat (nat_of_ascii c - 48)) r
  end.

(** [int(s)] on a decimal literal with an optional sign; [None] is the
    ValueError. *)
Definition parse_int (s : string) : option Z :=
  match strip s with
  | EmptyString => None
  | String c r =>
      if Ascii.eqb c "-" then
        (if andb (all_digits r) (negb (String.eqb r "")) then Some (- digits_value 0 r) else None)
      else if Ascii.eqb c "+" then
        (if andb (all_digits r) (negb (String.eqb r "")) then Some (digits_value 0 r) else None)
      else if all_digits (String c r) then Some (digits_value 0 (String c r))
      else None
  end.

(** [s.split(sep)[0]] *)
Fixpoint before_char (sep : ascii) (s : string) : string :=
  match s with
  | EmptyString => EmptyString
  | String c r => if Ascii.eqb c sep then EmptyString else String c (before_char sep r)
  end.

Fixpoint after_char (sep : ascii) (s : string) : option string :=
  match s with
  | EmptyString => None
  | String c r => if Ascii.eqb c sep then Some r else after_char sep r
  end.

(** Whether [float(s)] accepts [s], for plain decimal literals: an
    optional sign, digits, and an optional fractional part. *)
Definition is_decimal_literal (s : string) : bool :=
  let body :=
    match strip s with
    | String c r => if orb (Ascii.eqb c "-") (Ascii.eqb c "+") then r else String c r
    | EmptyString => EmptyString
    end in
  let int_part := before_char "." body in
  match after_char "." body with
  | None => andb (all_digits int_part) (negb (String.eqb int_part ""))
  | Some frac =>
      andb (andb (all_digits int_part) (all_digits frac))
           (negb (andb (String.eqb int_part "") (String.eqb frac "")))
  end.

Section Driver.
Variable d : Data.

(** 11.1 (lines 513-528): a pattern that is present is converted with
    [int(float(patroon))]; no constraint is added. *)
Definition pattern_check (emp : string) : py (list constraint) :=
  p <- worker_loc d emp patroon ;;
  _ <- worker_loc d emp nachten ;;
  let patroon := lower (strip p) in
  if orb (String.eqb patroon "") (String.eqb patroon "nan") then ret []
  else if is_decimal_literal patroon then ret []
  else raise (ValueError "could not convert string to float").

(** Lines 888-929 for one row of [shifts]. *)
Definition extract_row (v : valuation) (r : Shift) : py AssignRow :=
  let sid := shift_id r in
  match find (fun emp => v (X sid emp)) (emp_ids d) with
  | Some emp =>
      naam <- worker_loc d emp medewerker_naam ;;
      desk <- worker_loc d emp deskundigheid ;;
      ret (mkAssignRow sid (shift_name r) (start_time r) (end_time r)
             (shift_date r) (is_night r) (week r) (global_week r)
             (day_of_week r) (absolute_day r) (duration_min r)
             (Some emp) (Some naam) (qualification r) (Some desk) true)
  | None =>
      ret (mkAssignRow sid (shift_name r) (start_time r) (end_time r)
             (shift_date r) (is_night r) (week r) (global_week r)
             (day_of_week r) (absolute_day r) (duration_min r)
             None None (qualification r) None false)
  end.

(** Lines 883-929: the table and the list of uncovered shift ids. *)
Definition extract_assignments (v : valuation) : py (list AssignRow) :=
  for_each (fun r => row <- extract_row v r ;; ret [row]) (shifts d).

Definition uncovered_of (rows : list AssignRow) : list nat :=
  map a_shift_id (filter (fun row => negb (a_shift_filled row)) rows).

(** [auto_rooster_standardized(data)].  The CP-SAT solver is opaque: [st]
    is the status [solver.Solve(model)] returns and [v] gives
    [solver.Value] on the variables.  The result is [None] when the
    function returns [None].  Section 10 and the objective section only
    add to the model (see [hard_constraints]); the time limit has no
    part in the result beyond the status. *)
Definition auto_rooster_standardized (st : status) (v : valuation)
    : py (option Result) :=
  _ <- match weeks d with
       | [] => raise (IndexError "list index out of range")       (* line 47 *)
       | _ => ret tt
       end ;;
  _ <- hard_constraints d ;;
  _ <- for_each pattern_check (emp_ids d) ;;
  if is_success st then
    rows <- extract_assignments v ;;
    ret (Some (mkResult rows (uncovered_of rows) st))
  else ret None.

End Driver.

(* ===================================================================== *)
(** ** The validator (validate.py) *)
(* ===================================================================== *)

(** The messages appended to [errors], by kind and with the values that
    are formatted into them. *)
Inductive Violation : Type :=
| MultipleEmployees (sid : nat) (emps : list string)
| MultipleShiftsOnDay (emp : string) (n : nat) (day : date) (sids : list nat)
| DayAfterNight (emp : string) (next_day night_date : date)
| MaxWorkDays (emp : string) (wk : Z) (worked_days : nat) (max_days : Z)
| ContractHours (emp : string) (total_minutes allowed_total : Z) (num_weeks : nat)
| FullyUnavailableDay (emp : string) (day : option date) (sid : nat)
| UnavailableTime (emp : string) (day : option date) (sid : nat)
    (s_start s_end start_unb end_unb : time)
| ConsecutiveNights (emp : string) (max_consec : Z) (window : list date)
| RestAfterNights (emp : string) (sids : list nat) (d0 d1 d2 : date)
| NightCap (emp : string) (n : nat) (start_week : Z)
| AgeNight (emp : string) (age : Z) (sids : list nat).

Fixpoint insert_Z (x : Z) (l : list Z) : list Z :=
  match l with
  | [] => [x]
  | y :: r => if x <=? y then x :: l else y :: insert_Z x r
  end.

(** [sorted(l)], keeping repetitions. *)
Definition sort_Z (l : list Z) : list Z := fold_right insert_Z [] l.

Definition pair_compare (a b : string * Z) : comparison :=
  match String.compare (fst a) (fst b) with
  | Eq => Z.compare (snd a) (snd b)
  | c => c
  end.

Definition emp_of (row : AssignRow) : string :=
  match a_employee_id row with
  | Some e => e
  | None => ""
  end.

Section Validator.
Variable data : Data.
(** [assignments_df] after [dropna(subset=['employee_id'])] (line 22). *)
Variable rows : list AssignRow.

(** [assignments_df.groupby("employee_id")]: the keys in sorted order,
    each with its rows. *)
Definition by_employee : list (string * list AssignRow) :=
  map (fun emp => (emp, filter (fun r => String.eqb (emp_of r) emp) rows))
      (usort String.compare (map emp_of rows)).

(** Lines 28-45. *)
Definition COA_7_1_exempt : py (list string) :=
  for_each
    (fun w =>
       let mid := medewerker_id w in
       voorkeur <- worker_loc data mid voorkeur_nacht ;;
       let max_consec :=
         if String.eqb voorkeur "uitsluitend" then
           match parse_int (before_char "," (patroon w)) with
           | Some n => n
           | None => 5
           end
         else 5 in
       ret (if max_consec =? 5 then [] else [mid]))
    (workers data).

(** Line 46. *)
Definition CAO_7_4_exempt_validator : list string :=
  map medewerker_id
    (filter (fun w => negb (String.eqb (voorkeur_nacht w) "niet")) (workers data)).

(** 1) lines 48-51. *)
Definition check_coverage : list Violation :=
  flat_map
    (fun sid =>
       let group := filter (fun r => Nat.eqb (a_shift_id r) sid) rows in
       if Nat.ltb 1 (List.length group)
       then [MultipleEmployees sid (map emp_of group)] else [])
    (usort Nat.compare (map a_shift_id rows)).

(** 2) lines 53-56. *)
Definition check_one_shift_per_day : list Violation :=
  flat_map
    (fun k : string * Z =>
       let group := filter (fun r => andb (String.eqb (emp_of r) (fst k))
                                          (a_shift_date r =? snd k)) rows in
       if Nat.ltb 1 (List.length group)
       then [MultipleShiftsOnDay (fst k) (List.length group) (snd k)
               (map a_shift_id group)]
       else [])
    (usort pair_compare (map (fun r => (emp_of r, a_shift_date r)) rows)).

(** 3) lines 58-66. *)
Definition check_after_night : list Violation :=
  flat_map
    (fun g : string * list AssignRow =>
       flat_map
         (fun ns =>
            let next_day := a_shift_date ns + 1 in
            match filter (fun r => negb (a_is_night r))
                    (filter (fun r => a_shift_date r =? next_day) (snd g)) with
            | [] => []
            | _ => [DayAfterNight (fst g) next_day (a_shift_date ns)]
            end)
         (filter a_is_night (snd g)))
    by_employee.

(** 4) lines 68-74. *)
Definition check_max_days : py (list Violation) :=
  for_each
    (fun g : string * list AssignRow =>
       max_days <- worker_loc data (fst g) max_days_per_week ;;
       ret (flat_map
              (fun wk =>
                 let week_group := filter (fun r => a_week r =? wk) (snd g) in
                 let worked_days :=
                   List.length (unique_Z (map a_shift_date week_group)) in
                 if max_days <? Z.of_nat worked_days
                 then [MaxWorkDays (fst g) wk worked_days max_days] else [])
              (usort Z.compare (map a_week (snd g)))))
    by_employee.

(** 5) lines 76-86. *)
Definition check_contract : py (list Violation) :=
  let num_weeks := List.length (unique_Z (map a_week rows)) in
  for_each
    (fun g : string * list AssignRow =>
       cap_minutes <- worker_loc data (fst g) contract_minutes ;;
       let total_minutes := zsum (map a_duration_min (snd g)) in
       let allowed_total := cap_minutes * Z.of_nat num_weeks in
       ret (if allowed_total <? total_minutes
            then [ContractHours (fst g) total_minutes allowed_total num_weeks]
            else []))
    by_employee.

(** [sr['shift_date'] != date_unb] (line 104).  The left side is a
    pandas [Timestamp] (the column is datetime64 since line 51 of the
    solver), the right side a [datetime.date] (preprocessing.py, line
    370, [.dt.date]) or NaT: from pandas 2.0 on these never compare
    equal, whatever the day. *)
Definition timestamp_ne_date (ts : date) (datum : option date) : bool := true.

(** 6) lines 88-116, one row of [onb]. *)
Definition check_unavailability_row (r : Onb) : list Violation :=
  let emp := Medewerker_id r in
  if negb (in_str emp (map medewerker_id (workers data))) then []
  else if String.eqb (lower (Beschikbaarheid r)) "beschikbaar" then []
  else
    flat_map
      (fun sr =>
         if timestamp_ne_date (a_shift_date sr) (Datum r) then []
         else
           match Beschikbaarheid_tijd_vanaf r, Beschikbaarheid_tijd_tm r with
           | Some start_unb, Some end_unb =>
               if negb (orb (time_leb (a_end_time sr) start_unb)
                            (time_geb (a_start_time sr) end_unb))
               then [UnavailableTime emp (Datum r) (a_shift_id sr)
                       (a_start_time sr) (a_end_time sr) start_unb end_unb]
               else []
           | _, _ => [FullyUnavailableDay emp (Datum r) (a_shift_id sr)]
           end)
      (filter (fun sr => String.eqb (emp_of sr) emp) rows).

Definition check_unavailability : list Violation :=
  flat_map check_unavailability_row (onb data).

(** 7.1) lines 118-126. *)
Definition check_consecutive_nights (exempt : list string) : list Violation :=
  flat_map
    (fun g : string * list AssignRow =>
       let dates := sort_Z (map a_shift_date (filter a_is_night (snd g))) in
       let max_consec := if in_str (fst g) exempt then 7 else 5 in
       flat_map
         (fun i =>
            let window := firstn (Z.to_nat (max_consec + 1))
                            (skipn (Z.to_nat i) dates) in
            match window with
            | [] => []
            | w0 :: _ =>
                if last window w0 - w0 =? max_consec
                then [ConsecutiveNights (fst g) max_consec window] else []
            end)
         (range 0 (Z.of_nat (List.length dates) - max_consec)))
    by_employee.

(** 7.2) lines 128-144; the triples are [night_dates[i:i+3]] for [i] in
    [range(len(night_dates) - 2)]. *)
Definition check_rest_after_nights : list Violation :=
  flat_map
    (fun g : string * list AssignRow =>
       let night_dates := sort_Z (map a_shift_date (filter a_is_night (snd g))) in
       flat_map
         (fun t : date * date * date =>
            let '(d0, d1, d2) := t in
            if andb (d1 =? d0 + 1) (d2 =? d1 + 1) then
              let next_day := d2 + 1 in
              if in_Z next_day night_dates then []
              else
                match filter (fun r => in_Z (a_shift_date r) [next_day; next_day + 1])
                        (snd g) with
                | [] => []
                | next_shifts =>
                    [RestAfterNights (fst g) (map a_shift_id next_shifts) d0 d1 d2]
                end
            else [])
         (triples night_dates))
    by_employee.

(** 7.3) lines 146-152. *)
Definition check_night_cap : py (list Violation) :=
  for_each
    (fun g : string * list AssignRow =>
       let emp_nights := filter a_is_night (snd g) in
       match map week (shifts data) with
       | [] => raise (TypeError "'float' object cannot be interpreted as an integer")
       | w0 :: wr =>
           ret (flat_map
                  (fun start_week =>
                     let window :=
                       filter (fun r => andb (start_week <=? a_week r)
                                             (a_week r <? start_week + 13))
                         emp_nights in
                     if Nat.ltb 35 (List.length window)
                     then [NightCap (fst g) (List.length window) start_week]
                     else [])
                  (range (zmin_list w0 wr) (zmax_list w0 wr - 12)))
       end)
    by_employee.

(** 7.4) lines 154-160. *)
Definition check_age : py (list Violation) :=
  for_each
    (fun g : string * list AssignRow =>
       if in_str (fst g) CAO_7_4_exempt_validator then ret []
       else
         age <- worker_loc data (fst g) leeftijd ;;
         ret (if andb (55 <? age) (existsb a_is_night (snd g))
              then [AgeNight (fst g) age
                      (map a_shift_id (filter a_is_night (snd g)))]
              else []))
    by_employee.

(** The list [errors] when the end of the function is reached. *)
Definition validation_errors : py (list Violation) :=
  exempt <- COA_7_1_exempt ;;
  e4 <- check_max_days ;;
  e5 <- check_contract ;;
  e73 <- check_night_cap ;;
  e74 <- check_age ;;
  ret (check_coverage ++ check_one_shift_per_day ++ check_after_night
       ++ e4 ++ e5 ++ check_unavailability
       ++ check_consecutive_nights exempt ++ check_rest_after_nights
       ++ e73 ++ e74).

End Validator.

(** Line 22. *)
Definition dropna_employee_id (rows : list AssignRow) : list AssignRow :=
  filter (fun r => match a_employee_id r with Some _ => true | None => false end) rows.

(** [validate_auto_rooster(data, result)].  The function builds and
    prints [errors] and ends without a [return] statement (lines
    162-167): its value is Python's [None]. *)
Definition validate_auto_rooster (data : Data) (result : Result)
    : py (option (list Violation)) :=
  _ <- validation_errors data (dropna_employee_id (assignments_df result)) ;;
  ret None.

(* ===================================================================== *)
(** ** The request handler (web/app.py, 102-138) *)
(* ===================================================================== *)

(** The statistics of a successful run (lines 122-130); the two dates
    are [None] (NaT) for an empty table. *)
Record Stats : Type := mkStats {
  stat_start_date : option date;
  stat_end_date : option date;
  total_shifts : nat;
  num_employees : nat;
  shifts_filled : nat;
  shifts_unfilled : Z
}.

(** The JSON bodies the handler can answer with. *)
Inductive Body : Type :=
| BodySuccess (stats : Stats)                       (* status: success *)
| BodyFailed (validation_errors : list Violation)   (* status: failed *)
| BodyError (error : string).                       (* error and trace *)

Record Response : Type := mkResponse { body : Body; code : Z }.

(** [result["assignments_df"]] *)
Definition subscript_assignments_df (result : option Result) : py (list AssignRow) :=
  match result with
  | Some r => ret (assignments_df r)
  | None => raise (TypeError "'NoneType' object is not subscriptable")
  end.

(** [if errors:] on the value of [validate_auto_rooster]. *)
Definition truthy (errors : option (list Violation)) : bool :=
  match errors with
  | Some (_ :: _) => true
  | _ => false
  end.

Definition stats_of (data : Data) (rows : list AssignRow) : Stats :=
  let filled := List.length (filter a_shift_filled rows) in
  mkStats
    (match map a_shift_date rows with
     | [] => None
     | d0 :: dr => Some (zmin_list d0 dr)
     end)
    (match map a_shift_date rows with
     | [] => None
     | d0 :: dr => Some (zmax_list d0 dr)
     end)
    (List.length (shifts data))
    (List.length (unique_str (map emp_of (dropna_employee_id rows))))
    filled
    (Z.of_nat (List.length (shifts data)) - Z.of_nat filled).

Section Handler.
(** [auto_rooster], as imported from the [app] package: the solver entry
    point applied to the preprocessed data. *)
Variable auto_rooster : Data -> py (option Result).

(** Lines 104-133 from the preprocessed [data] on. *)
Definition schedule_body (data : Data) : py Response :=
  result <- auto_rooster data ;;
  rows <- subscript_assignments_df result ;;
  errors <- match result with
            | Some r => validate_auto_rooster data r
            | None => ret None
            end ;;
  if truthy errors then
    ret (mkResponse (BodyFailed (match errors with Some l => l | None => [] end)) 400)
  else ret (mkResponse (BodySuccess (stats_of data rows)) 200).

(** [generate_schedule]: any exception becomes a 500 answer carrying
    [str(e)] (lines 135-138). *)
Definition generate_schedule (data : Data) : Response :=
  match schedule_body data with
  | inr resp => resp
  | inl e => mkResponse (BodyError (exn_str e)) 500
  end.

End Handler.

(* ===================================================================== *)
(** ** Properties the specification words, stated on the tables *)
(* ===================================================================== *)

(** "end time less than or equal to start time (the shift crosses
    midnight)". *)
Definition end_le_start (start_t end_t : time) : Prop := time_leb end_t start_t = true.

(** The time a shift takes, in seconds from the midnight that starts its
    date: from its start to its end, the end being on the next day when
    it is before the start. *)
Definition shift_interval (s_start s_end : time) : Z * Z :=
  (seconds_of s_start,
   if time_ltb s_end s_start then seconds_of s_end + 24 * 3600
   else seconds_of s_end).

(** "whose time interval overlaps the given window (the whole day when
    no times are given)": the shift's interval and the window from
    [from] to [to] on the shift's date share a moment. *)
Definition window_conflict (s_start s_end : time) (from to : option time) : Prop :=
  match from, to with
  | Some a, Some b =>
      Z.max (fst (shift_interval s_start s_end)) (seconds_of a)
      < Z.min (snd (shift_interval s_start s_end)) (seconds_of b)
  | _, _ => True
  end.

(** Both times of a window, when given, are times of the clock. *)
Definition valid_window (from to : option time) : Prop :=
  match from, to with
  | Some a, Some b => valid_time a /\ valid_time b
  | _, _ => True
  end.

(** The dates on which [emp] works a night: the tail block of the
    previous roster together with the nights assigned in the horizon. *)
Definition worked_night_dates (d : Data) (rows : list AssignRow) (emp : string)
    : list date :=
  get_last_consecutive_block_dates (prev_assignments d) emp true
  ++ map a_shift_date
       (filter (fun r => andb (a_is_night r) (opt_str_eqb (a_employee_id r) emp)) rows).

(** The number of dates among [first, first + n) on which [emp] works a
    night. *)
Definition nights_in_window (d : Data) (rows : list AssignRow) (emp : string)
    (first : date) (n : Z) : nat :=
  List.length
    (filter (fun day => in_Z day (worked_night_dates d rows emp))
            (range first (first + n))).

(** The number of night shifts assigned to [emp] in the weeks
    [w .. w + 12]. *)
Definition nights_in_weeks (rows : list AssignRow) (emp : string) (w : Z) : nat :=
  List.length
    (filter (fun r => andb (andb (a_is_night r) (opt_str_eqb (a_employee_id r) emp))
                           (andb (w <=? a_week r) (a_week r <=? w + 12)))
            rows).

(** Whether [emp] is assigned any shift on [day]. *)
Definition works_on (rows : list AssignRow) (emp : string) (day : date) : bool :=
  existsb (fun r => andb (opt_str_eqb (a_employee_id r) emp) (a_shift_date r =? day)) rows.

(** Whether [emp] is assigned a night shift on [day]. *)
Definition works_night_on (rows : list AssignRow) (emp : string) (day : date) : bool :=
  existsb (fun r => andb (andb (a_is_night r) (opt_str_eqb (a_employee_id r) emp))
                         (a_shift_date r =? day)) rows.

(** The duration of the catalogue shift a constant-schedule row matches
    (0 when it matches none). *)
Definition matched_duration (shifts_constant : list Shift) (r : VastRow) : Z :=
  match find_shift_id shifts_constant r with
  | Some i =>
      match filter (fun s => Nat.eqb (shift_id s) i) shifts_constant with
      | s :: _ => duration_min s
      | [] => 0
      end
  | None => 0
  end.

(** The deduction "counting repeated rows each time": one term per row
    of the worker. *)
Definition rowwise_deduction (shifts_constant : list Shift) (vast : list VastRow)
    (emp : string) : Z :=
  zsum (map (matched_duration shifts_constant)
          (filter (fun r => String.eqb (v_medewerker_id r) emp) vast)).

(** The deduction over the catalogue: one term per catalogue shift that
    at least one row of the worker matches. *)
Definition matched_deduction (shifts_constant : list Shift) (vast : list VastRow)
    (emp : string) : Z :=
  zsum (map duration_min
          (filter
             (fun s =>
                existsb
                  (fun r =>
                     match find_shift_id shifts_constant r with
                     | Some i => Nat.eqb (shift_id s) i
                     | None => false
                     end)
                  (filter (fun r => String.eqb (v_medewerker_id r) emp) vast))
             shifts_constant)).

(** The row of a worker after line 364 has run for the worker's id. *)
Definition deducted (shifts_constant : list Shift) (cu : list ConstUnavail)
    (w : Worker) : Worker :=
  set_contract_minutes
    (contract_minutes w - hours_to_subtract shifts_constant cu (medewerker_id w)) w.

(* ===================================================================== *)
(** ** Scenarios *)
(* ===================================================================== *)

Module Scenario.

(** A Monday. *)
Definition monday : date := 739200.

Definition night_row (cells : list string) : TemplateRow :=
  mkTemplateRow "N" "plannen" (mkTime 23 0 0) (mkTime 7 0 0) 3 cells.

Definition day_row (cells : list string) : TemplateRow :=
  mkTemplateRow "D" "plannen" (mkTime 7 0 0) (mkTime 15 0 0) 3 cells.

Definition every_day : list string := ["Ja"; "Ja"; "Ja"; "Ja"; "Ja"; "Ja"; "Ja"].

(** A worker of 40 with a 40-hour contract and no special wishes; the
    pattern cell is empty, which preprocessing turns into the empty
    list. *)
Definition worker_1001 : Worker :=
  mkWorker "1001" "A" 5 2400 40 [3] "" "" "[]".

(** *** Nights on Monday to Wednesday, nothing on Thursday, a day shift
    on Friday; one week, no history. *)
Definition gap_data : Data :=
  preprocess_data [worker_1001]
    [ night_row ["Ja"; "Ja"; "Ja"; "Nee"; "Nee"; "Nee"; "Nee"];
      day_row ["Nee"; "Nee"; "Nee"; "Nee"; "Ja"; "Nee"; "Nee"] ]
    [] [] [] 1 monday.

(** Worker 1001 takes all four shifts. *)
Definition gap_solution : valuation :=
  fun x =>
    match x with
    | X _ emp => String.eqb emp "1001"
    | U _ => false
    | N_emp_date emp day => andb (String.eqb emp "1001") (day <? monday + 3)
    end.

(** *** A night every day for one week; worker 1001 worked the night of
    the Sunday before. *)
Definition tail_data : Data :=
  preprocess_data [worker_1001] [night_row every_day] []
    [mkPrevRaw "1001" (monday - 1) "N" (mkTime 23 0 0) (mkTime 7 0 0)]
    [] 1 monday.

(** Worker 1001 takes the nights of Monday to Friday (so works on the
    first and on the second date of the horizon). *)
Definition tail_solution : valuation :=
  fun x =>
    match x with
    | X s emp => andb (String.eqb emp "1001") (Nat.ltb s 5)
    | U s => negb (Nat.ltb s 5)
    | N_emp_date emp day => andb (String.eqb emp "1001") (day <? monday + 5)
    end.

(** *** A night every day for eight weeks, no history. *)
Definition eight_weeks_data : Data :=
  preprocess_data [worker_1001] [night_row every_day] [] [] [] 8 monday.

(** Worker 1001 takes the nights of Monday to Friday of every week. *)
Definition eight_weeks_solution : valuation :=
  fun x =>
    match x with
    | X s emp => andb (String.eqb emp "1001") (Nat.ltb (Nat.modulo s 7) 5)
    | U s => negb (Nat.ltb (Nat.modulo s 7) 5)
    | N_emp_date emp day =>
        andb (String.eqb emp "1001") ((day - monday) mod 7 <? 5)
    end.

(** *** One night shift on Monday and a worker of exactly 55 whose night
    policy is 'niet' in both columns. *)
Definition worker_55 : Worker :=
  mkWorker "1002" "B" 5 2400 55 [3] "niet" "niet" "[]".

Definition age_data : Data :=
  preprocess_data [worker_55]
    [night_row ["Ja"; "Nee"; "Nee"; "Nee"; "Nee"; "Nee"; "Nee"]]
    [] [] [] 1 monday.

(** The table in which worker 1002 has the night shift. *)
Definition age_rows : list AssignRow :=
  [ mkAssignRow 0 "N" (mkTime 23 0 0) (mkTime 7 0 0) monday true 1 1 0 0 480
      (Some "1002") (Some "B") [3] (Some [3]) true ].

Definition age_assignment : valuation :=
  fun x =>
    match x with
    | X _ emp => String.eqb emp "1002"
    | _ => false
    end.

(** *** A kitchen shift every Monday, and a constant schedule that gives
    it to worker 1001 in week 1 and in week 2. *)
Definition kok_row : TemplateRow :=
  mkTemplateRow "KOK" "plannen" (mkTime 8 0 0) (mkTime 16 0 0) 3
    ["Ja"; "Nee"; "Nee"; "Nee"; "Nee"; "Nee"; "Nee"].

Definition kok_vast : list VastRow :=
  [ mkVastRow "1001" "maandag" 1 "KOK"; mkVastRow "1001" "maandag" 2 "KOK" ].

Definition kok_data : Data :=
  preprocess_data [worker_1001] [kok_row; night_row every_day] [] [] kok_vast 2 monday.

Definition kok_catalogue : list Shift :=
  shifts_constant_of
    (all_shift_instances [kok_row; night_row every_day] monday monday 2).

(** *** A previous shift from 21:00 to 05:00, and a template row that
    starts and ends at 08:00. *)
Definition prev_21_05 : PrevRaw :=
  mkPrevRaw "1001" (monday - 1) "A" (mkTime 21 0 0) (mkTime 5 0 0).

Definition round_the_clock : TemplateRow :=
  mkTemplateRow "D" "plannen" (mkTime 8 0 0) (mkTime 8 0 0) 3
    ["Ja"; "Nee"; "Nee"; "Nee"; "Nee"; "Nee"; "Nee"].

(** Every shift uncovered. *)
Definition all_uncovered : valuation :=
  fun x =>
    match x with
    | U _ => true
    | _ => false
    end.

(** *** A day shift on Monday and on Tuesday, and a delivered row that
    reports worker 1001 sick on that Monday from 09:00 to 12:00. *)
Definition sick_raw : OnbRaw :=
  mkOnbRaw "1001" monday (Some "Ziek") (Some (mkTime 9 0 0)) (Some (mkTime 12 0 0)).

Definition sick_data : Data :=
  preprocess_data [worker_1001]
    [day_row ["Ja"; "Ja"; "Nee"; "Nee"; "Nee"; "Nee"; "Nee"]]
    [sick_raw] [] [] 1 monday.

Definition sick_entry : Onb :=
  mkOnb "1001" (Some monday) "Ziek" (Some (mkTime 9 0 0)) (Some (mkTime 12 0 0)).

(** The day shift of that Monday. *)
Definition sick_monday : Shift :=
  mkShift 0 "D" monday 1 1 0 0 (mkTime 7 0 0) (mkTime 15 0 0) 480 [3]
    false Required_1.

(** Worker 1001 takes the shift of Tuesday; that of Monday is uncovered. *)
Definition sick_solution : valuation :=
  fun x =>
    match x with
    | X s emp => andb (String.eqb emp "1001") (Nat.eqb s 1)
    | U s => Nat.eqb s 0
    | N_emp_date _ _ => false
    end.

(** Worker 1001 takes the shift of Monday, and the table that says so. *)
Definition sick_assignment : valuation :=
  fun x =>
    match x with
    | X s emp => andb (String.eqb emp "1001") (Nat.eqb s 0)
    | U s => Nat.eqb s 1
    | N_emp_date _ _ => false
    end.

Definition sick_rows : list AssignRow :=
  [ mkAssignRow 0 "D" (mkTime 7 0 0) (mkTime 15 0 0) monday false 1 1 0 0 480
      (Some "1001") (Some "A") [3] (Some [3]) true;
    mkAssignRow 1 "D" (mkTime 7 0 0) (mkTime 15 0 0) (monday + 1) false 1 1 1 1 480
      None None [3] None false ].

(** *** A night shift on Monday, and a delivered row without a kind that
    makes worker 1001 unavailable on that Monday from 18:00 to 23:59. *)
Definition evening_raw : OnbRaw :=
  mkOnbRaw "1001" monday None (Some (mkTime 18 0 0)) (Some (mkTime 23 59 0)).

Definition evening_data : Data :=
  preprocess_data [worker_1001]
    [night_row ["Ja"; "Nee"; "Nee"; "Nee"; "Nee"; "Nee"; "Nee"]]
    [evening_raw] [] [] 1 monday.

Definition evening_entry : Onb :=
  mkOnb "1001" (Some monday) "Onbekend"
    (Some (mkTime 18 0 0)) (Some (mkTime 23 59 0)).

(** The night shift of that Monday. *)
Definition evening_night : Shift :=
  mkShift 0 "N" monday 1 1 0 0 (mkTime 23 0 0) (mkTime 7 0 0) 480 [3]
    true Required_1.

(** Worker 1001 takes the night of that Monday. *)
Definition evening_solution : valuation :=
  fun x =>
    match x with
    | X _ emp => String.eqb emp "1001"
    | U _ => false
    | N_emp_date emp day => andb (String.eqb emp "1001") (day =? monday)
    end.

Definition evening_rows : list AssignRow :=
  [ mkAssignRow 0 "N" (mkTime 23 0 0) (mkTime 7 0 0) monday true 1 1 0 0 480
      (Some "1001") (Some "A") [3] (Some [3]) true ].

End Scenario.

(* ===================================================================== *)
(** ** Further scenarios *)
(* ===================================================================== *)

Module Cases.
Import Scenario.

(** A worker of 30 with qualification 4 and night policy 'Niet'. *)
Definition worker_1003 : Worker :=
  mkWorker "1003" "C" 5 2400 30 [4] "Niet" "" "[]".

(** A worker of 30 who works nights only. *)
Definition worker_1004 : Worker :=
  mkWorker "1004" "D" 5 2400 30 [3] "uitsluitend" "" "[]".

(** *** A night shift and a day shift every day for one week, four
    workers, no history. *)
Definition mixed_data : Data :=
  preprocess_data [worker_1001; worker_55; worker_1003; worker_1004]
    [night_row every_day; day_row every_day] [] [] [] 1 monday.

(** Worker 1001 takes the night of Monday (id 0) and the day shift of
    Wednesday (id 9), worker 1004 the night of Thursday (id 3);
    everything else is uncovered. *)
Definition mixed_solution : valuation :=
  fun x =>
    match x with
    | X s emp =>
        orb (andb (String.eqb emp "1001") (orb (Nat.eqb s 0) (Nat.eqb s 9)))
            (andb (String.eqb emp "1004") (Nat.eqb s 3))
    | U s => negb (orb (Nat.eqb s 0) (orb (Nat.eqb s 9) (Nat.eqb s 3)))
    | N_emp_date emp day =>
        orb (andb (String.eqb emp "1001") (day =? monday))
            (andb (String.eqb emp "1004") (day =? monday + 3))
    end.

(** The model built for a data set, and the shift at a position of its
    shift table. *)
Definition model_of (d : Data) : list constraint :=
  match hard_constraints d with
  | inr cs => cs
  | inl _ => []
  end.

Definition shift_at (d : Data) (i : nat) : Shift :=
  nth i (shifts d)
    (mkShift 0 "" 0 0 0 0 0 (mkTime 0 0 0) (mkTime 0 0 0) 0 [] false Required_1).

Definition mixed_model : list constraint := model_of mixed_data.

Definition mixed_shift : nat -> Shift := shift_at mixed_data.

(** The roster extracted from [mixed_solution]. *)
Definition mixed_rows : list AssignRow :=
  match extract_assignments mixed_data mixed_solution with
  | inr rows => rows
  | inl _ => []
  end.

(** *** A night every day for one week; worker 1001 worked the nights of
    the Friday, Saturday and Sunday before. *)
Definition rested_data : Data :=
  preprocess_data [worker_1001] [night_row every_day] []
    [ mkPrevRaw "1001" (monday - 3) "N" (mkTime 23 0 0) (mkTime 7 0 0);
      mkPrevRaw "1001" (monday - 2) "N" (mkTime 23 0 0) (mkTime 7 0 0);
      mkPrevRaw "1001" (monday - 1) "N" (mkTime 23 0 0) (mkTime 7 0 0) ]
    [] 1 monday.

(** *** A night every day for one week and nobody to work it. *)
Definition nobody_data : Data :=
  preprocess_data [] [night_row every_day] [] [] [] 1 monday.

Definition nobody_result : Result :=
  match auto_rooster_standardized nobody_data OPTIMAL all_uncovered with
  | inr (Some res) => res
  | _ => mkResult [] [] UNKNOWN
  end.


(** *** A night every day for thirteen weeks, no history; worker 1001
    takes the nights of Monday to Friday of the first seven weeks. *)
Definition thirteen_weeks_data : Data :=
  preprocess_data [worker_1001] [night_row every_day] [] [] [] 13 monday.

Definition thirteen_weeks_solution : valuation :=
  fun x =>
    match x with
    | X s emp =>
        andb (String.eqb emp "1001")
             (andb (Nat.ltb (Nat.modulo s 7) 5) (Nat.ltb s 49))
    | U s => negb (andb (Nat.ltb (Nat.modulo s 7) 5) (Nat.ltb s 49))
    | N_emp_date emp day =>
        andb (String.eqb emp "1001")
             (andb ((day - monday) mod 7 <? 5) (day - monday <? 49))
    end.

(** *** A template with kitchen shifts only: every instance goes to the
    constant catalogue. *)
Definition kitchen_only_data : Data :=
  preprocess_data [worker_1001] [kok_row] [] [] [] 1 monday.

(** *** A kitchen shift on Monday and on Tuesday, and a constant schedule
    that gives worker 1001 both of them in week 1. *)
Definition kok_two_days : TemplateRow :=
  mkTemplateRow "KOK" "plannen" (mkTime 8 0 0) (mkTime 16 0 0) 3
    ["Ja"; "Ja"; "Nee"; "Nee"; "Nee"; "Nee"; "Nee"].

Definition two_days_vast : list VastRow :=
  [ mkVastRow "1001" "maandag" 1 "KOK"; mkVastRow "1001" "dinsdag" 1 "KOK" ].

Definition two_days_data : Data :=
  preprocess_data [worker_1001] [kok_two_days; night_row every_day] [] []
    two_days_vast 1 monday.

Definition two_days_catalogue : list Shift :=
  shifts_constant_of
    (all_shift_instances [kok_two_days; night_row every_day] monday monday 1).

(** *** A sheet of previous shifts that is not in the order of the
    dates: a Wednesday, the Thursday of the week before, and a Sunday. *)
Definition history_raw : list PrevRaw :=
  [ mkPrevRaw "1001" (monday - 5) "D" (mkTime 7 0 0) (mkTime 15 0 0);
    mkPrevRaw "1001" (monday - 11) "N" (mkTime 23 0 0) (mkTime 7 0 0);
    mkPrevRaw "1002" (monday - 1) "D" (mkTime 7 0 0) (mkTime 15 0 0) ].

End Cases.

(* ===================================================================== *)
(** ** Further code: upload names (web/app.py, 15-19) *)
(* ===================================================================== *)

(** [c in s] for a single character. *)
Fixpoint contains_char (c : ascii) (s : string) : bool :=
  match s with
  | EmptyString => false
  | String a r => orb (Ascii.eqb a c) (contains_char c r)
  end.

(** [s.rsplit(c, 1)] when [c] occurs in [s]: what is before the last
    occurrence and what is after it; [None] when [c] does not occur (the
    list then has the one element [s]). *)
Fixpoint rsplit1 (c : ascii) (s : string) : option (string * string) :=
  match s with
  | EmptyString => None
  | String a r =>
      match rsplit1 c r with
      | Some (h, t) => Some (String a h, t)
      | None => if Ascii.eqb a c then Some (EmptyString, r) else None
      end
  end.

(** Line 15. *)
Definition ALLOWED_EXT : list string := ["csv"; "xlsx"].

(** [allowed_file] (lines 18-19); the subscript [[1]] is only evaluated
    when the name holds a dot. *)
Definition allowed_file (filename : string) : bool :=
  andb (contains_char "." filename)
       (match rsplit1 "." filename with
        | Some (_, ext) => in_str (lower ext) ALLOWED_EXT
        | None => false
        end).

(* ===================================================================== *)
(** ** Further code: the worker table (preprocessing.py, 236-277) *)
(* ===================================================================== *)

(** The decimal digits of [x], most significant first: [[int(c) for c in
    str(int(x))]] for [x >= 10]. *)
Fixpoint digits_from (fuel : nat) (x : Z) (acc : list Z) : list Z :=
  match fuel with
  | O => x :: acc
  | S f => if x <? 10 then x :: acc else digits_from f (x / 10) (x mod 10 :: acc)
  end.

(** Lines 237-245: the list made of one cell of the column
    [deskundigheid]. *)
Definition deskundigheid_list (x : Z) : list Z :=
  if x <? 10 then [x] else digits_from (Z.to_nat x) x [].

(** Line 252: the rows that are deleted. *)
Definition has_5_or_6 (l : list Z) : bool := orb (in_Z 5 l) (in_Z 6 l).

(** Line 255. *)
Definition ensure_3 (l : list Z) : list Z :=
  if andb (in_Z 7 l) (negb (in_Z 3 l)) then l ++ [3] else l.

(** Lines 221 and 236-255 on the columns [medewerker_id], [wensen] and
    [deskundigheid]: the ids that stay in the pool, each with its list
    of levels. *)
Definition qualified_pool (rows : list (string * string * Z))
    : list (string * list Z) :=
  map (fun p : string * list Z => (fst p, ensure_3 (snd p)))
    (filter (fun p : string * list Z => negb (has_5_or_6 (snd p)))
       (map (fun r : string * string * Z =>
               let '(mid, wensen, desk) := r in (mid, deskundigheid_list desk))
          (filter (fun r : string * string * Z =>
                     let '(mid, wensen, desk) := r in
                     negb (String.eqb wensen "niet plannen"))
             rows))).

(** A calendar date as year, month and day. *)
Record ymd : Type := mkYmd { year : Z; month : Z; day : Z }.

(** [(a.month, a.day) < (b.month, b.day)] *)
Definition month_day_ltb (a b : ymd) : bool :=
  orb (month a <? month b) (andb (month a =? month b) (day a <? day b)).

(** Lines 273-277: the age on [current_date]. *)
Definition leeftijd_on (current_date geboortedatum : ymd) : Z :=
  year current_date - year geboortedatum
  - (if month_day_ltb current_date geboortedatum then 1 else 0).

(** The order of calendar dates, and the date [k] years after [d]. *)
Definition ymd_le (a b : ymd) : Prop :=
  year a < year b
  \/ (year a = year b
      /\ (month a < month b \/ (month a = month b /\ day a <= day b))).

Definition ymd_lt (a b : ymd) : Prop :=
  year a < year b
  \/ (year a = year b
      /\ (month a < month b \/ (month a = month b /\ day a < day b))).

Definition add_years (d : ymd) (k : Z) : ymd :=
  mkYmd (year d + k) (month d) (day d).

(* ===================================================================== *)
(** ** Further code: personal wishes (solver_standardized.py, 349-384
    and 499-509) *)
(* ===================================================================== *)

Section PersonalRules.
Variable d : Data.

(** A rule that applies when the worker is in the pool and then fixes
    the worker's variable to 0 on the shifts [forbidden] selects. *)
Definition forbid (emp : string) (forbidden : Shift -> bool) : list constraint :=
  if in_str emp (emp_ids d)
  then map (fun r => fix_zero (X (shift_id r) emp)) (filter forbidden (shifts d))
  else [].

(** 10.1) worker 2097 works nights only (lines 349-354). *)
Definition rule_2097 : list constraint :=
  forbid "2097" (fun r => negb (in_nat (shift_id r) (night_shifts d))).

(** 10.2) worker 2653 works weekends only (lines 356-363). *)
Definition rule_2653 : list constraint :=
  forbid "2653" (fun r => negb (in_Z (day_of_week r) [5; 6])).

(** 10.3) worker 3888 works on Fridays in shifts whose name holds an 'A',
    and in weekends (lines 365-373). *)
Definition rule_3888 : list constraint :=
  forbid "3888"
    (fun r => negb (orb (andb (day_of_week r =? 4) (contains_char "A" (shift_name r)))
                        (in_Z (day_of_week r) [5; 6]))).

(** 10.4) worker 601011 does not work on Mondays, Tuesdays and
    Wednesdays (lines 375-382). *)
Definition rule_601011 : list constraint :=
  forbid "601011" (fun r => in_Z (day_of_week r) [0; 1; 2]).

(** 10.8) worker 602056 has at most three shifts a week, all of them
    with an 'A' or an 'N' in the name (lines 499-509). *)
Definition rule_602056 : py (list constraint) :=
  if in_str "602056" (emp_ids d) then
    for_each
      (fun w =>
         match shifts_by_week d w with
         | [] => ret []
         | s_list =>
             fixes <-
               for_each
                 (fun s =>
                    name <- shift_loc d s shift_name ;;
                    ret (if andb (negb (contains_char "A" name))
                                 (negb (contains_char "N" name))
                         then [fix_zero (X s "602056")] else []))
                 s_list ;;
             ret (Add (sum_of (xs_of "602056" s_list)) Le 3 [] :: fixes)
         end)
      (weeks d)
  else ret [].

(** The constraints of sections 10.1 to 10.4 and 10.8, in the order they
    are added. *)
Definition personal_rules : py (list constraint) :=
  r8 <- rule_602056 ;;
  ret (rule_2097 ++ rule_2653 ++ rule_3888 ++ rule_601011 ++ r8).

End PersonalRules.

Module Wishes.
Import Scenario.

(** *** A night every day for one week; worker 2653 (weekends only)
    takes the night of Saturday (id 5), worker 602056 the nights of
    Monday and Tuesday. *)
Definition wishes_data : Data :=
  preprocess_data
    [ mkWorker "2653" "E" 5 2400 30 [3] "" "" "[]";
      mkWorker "602056" "F" 5 2400 30 [3] "" "" "[]" ]
    [night_row every_day] [] [] [] 1 monday.

Definition wishes_solution : valuation :=
  fun x =>
    match x with
    | X s emp =>
        orb (andb (String.eqb emp "2653") (Nat.eqb s 5))
            (andb (String.eqb emp "602056") (Nat.ltb s 2))
    | U s => negb (orb (Nat.eqb s 5) (Nat.ltb s 2))
    | N_emp_date emp day => false
    end.

Definition wishes_model : list constraint :=
  match personal_rules wishes_data with
  | inr cs => cs
  | inl _ => []
  end.

End Wishes.

(* ===================================================================== *)
(** * Verification *)
(* ===================================================================== *)

Unset Implicit Arguments.

(* ===================================================================== *)
(** ** Loops that may raise *)
(* ===================================================================== *)

Lemma bind_inr {A B} (c : py A) (k : A -> py B) (b : B) :
  bind c k = inr b -> exists a, c = inr a /\ k a = inr b.
Proof.
  destruct c as [e | a]; simpl; intros H; [discriminate | eauto].
Qed.

Ltac inv_bind H :=
  let a := fresh "a" in
  let Ha := fresh "Ha" in
  apply bind_inr in H; destruct H as [a [Ha H]].

Lemma for_each_inr_incl {A B} (body : A -> py (list B)) (l : list A) (ys : list B) :
  for_each body l = inr ys ->
  forall a, In a l -> exists xs, body a = inr xs /\ incl xs ys.
Proof.
  revert ys. induction l as [| a0 r IH]; intros ys H a Hin; [contradiction |].
  simpl in H. inv_bind H. inv_bind H. injection H as <-.
  destruct Hin as [<- | Hin].
  - exists a1. split; [assumption | apply incl_appl, incl_refl].
  - destruct (IH _ Ha0 _ Hin) as [xs [Hb Hi]].
    exists xs. split; [assumption | apply incl_appr; assumption].
Qed.

Lemma for_each_total {A B} (body : A -> py (list B)) (l : list A) :
  (forall a, In a l -> exists xs, body a = inr xs) ->
  exists ys, for_each body l = inr ys.
Proof.
  induction l as [| a0 r IH]; intros H.
  - exists []. reflexivity.
  - destruct (H a0 (or_introl eq_refl)) as [xs Hx].
    destruct IH as [ys Hy]; [intros a Ha; apply H; right; assumption |].
    exists (xs ++ ys). simpl. rewrite Hx. simpl. rewrite Hy. reflexivity.
Qed.

(** A loop that appends exactly one element per iteration. *)
Lemma for_each_rows {A B} (g : A -> py B) (l : list A) (ys : list B) :
  for_each (fun a => y <- g a ;; ret [y]) l = inr ys ->
  Forall2 (fun a y => g a = inr y) l ys.
Proof.
  revert ys. induction l as [| a0 r IH]; intros ys H.
  - injection H as <-. constructor.
  - simpl in H. inv_bind H. inv_bind H. inv_bind Ha. injection H as <-.
    injection Ha as <-. simpl. constructor; [assumption | apply IH; assumption].
Qed.

(* ===================================================================== *)
(** ** Valuations and sums *)
(* ===================================================================== *)

Lemma value_range (v : valuation) (x : var) : 0 <= value v x <= 1.
Proof. unfold value. destruct (v x); simpl; lia. Qed.

Lemma value_true (v : valuation) (x : var) : value v x = 1 <-> v x = true.
Proof. unfold value. destruct (v x); simpl; split; intros; try lia; congruence. Qed.

Lemma value_false (v : valuation) (x : var) : value v x = 0 <-> v x = false.
Proof. unfold value. destruct (v x); simpl; split; intros; try lia; congruence. Qed.

Lemma solutionb_spec (v : valuation) (cs : list constraint) :
  solutionb v cs = true <-> solution v cs.
Proof.
  unfold solutionb, solution, holds. rewrite forallb_forall, Forall_forall. tauto.
Qed.

Lemma solution_in (v : valuation) (cs : list constraint) (c : constraint) :
  solution v cs -> In c cs -> holdsb v c = true.
Proof. unfold solution. rewrite Forall_forall. intros H Hin. apply H. assumption. Qed.

Lemma zsum_app (l1 l2 : list Z) : zsum (l1 ++ l2) = zsum l1 + zsum l2.
Proof. induction l1 as [| a r IH]; simpl; [reflexivity | rewrite IH; lia]. Qed.

Lemma zsum_nonneg (l : list Z) : (forall z, In z l -> 0 <= z) -> 0 <= zsum l.
Proof.
  induction l as [| a r IH]; simpl; intros H; [lia |].
  assert (0 <= a) by (apply H; left; reflexivity).
  assert (0 <= zsum r) by (apply IH; intros; apply H; right; assumption). lia.
Qed.

Section Sums.
Variable A : Type.
Variable f : A -> Z.
Hypothesis f_nonneg : forall a, 0 <= f a.

Lemma zsum_map_nonneg (l : list A) : 0 <= zsum (map f l).
Proof.
  apply zsum_nonneg. intros z Hz. apply in_map_iff in Hz.
  destruct Hz as [a [<- _]]. apply f_nonneg.
Qed.

Lemma zsum_map_ge_one (l : list A) (a : A) : In a l -> f a <= zsum (map f l).
Proof.
  induction l as [| b r IH]; intros Hin; [contradiction |]. simpl.
  destruct Hin as [-> | Hin].
  - pose proof (zsum_map_nonneg r). lia.
  - specialize (IH Hin). pose proof (f_nonneg b). lia.
Qed.

Lemma zsum_map_ge_two (l : list A) (a b : A) :
  In a l -> In b l -> a <> b -> f a + f b <= zsum (map f l).
Proof.
  induction l as [| c r IH]; intros Ha Hb Hne; [contradiction |]. simpl.
  destruct Ha as [-> | Ha]; destruct Hb as [-> | Hb].
  - contradiction.
  - pose proof (zsum_map_ge_one r b Hb). lia.
  - pose proof (zsum_map_ge_one r a Ha). lia.
  - specialize (IH Ha Hb Hne). pose proof (f_nonneg c). lia.
Qed.

Lemma zsum_map_zero (l : list A) : (forall a, In a l -> f a = 0) -> zsum (map f l) = 0.
Proof.
  induction l as [| b r IH]; intros H; [reflexivity |]. simpl.
  rewrite (H b (or_introl eq_refl)), IH; [reflexivity |].
  intros a Ha. apply H. right. assumption.
Qed.
End Sums.

(* ===================================================================== *)
(** ** Preprocessed tables are well formed *)
(* ===================================================================== *)

Lemma map_fst_combine_seq {A} (l : list A) (n : nat) :
  map fst (combine (seq n (List.length l)) l) = seq n (List.length l).
Proof.
  revert n. induction l as [| a r IH]; intros n; [reflexivity |].
  simpl. f_equal. apply IH.
Qed.

Lemma reset_index_ids (l : list Shift) :
  map shift_id (reset_index l) = seq 0 (List.length l).
Proof.
  unfold reset_index. rewrite map_map.
  transitivity (map fst (combine (seq 0 (List.length l)) l)).
  - apply map_ext. intros p. reflexivity.
  - apply map_fst_combine_seq.
Qed.

(** The shift ids of a preprocessed table are [0 .. M-1], hence distinct. *)
Lemma preprocessed_ids_distinct (ws : list Worker) (template : list TemplateRow)
    (df_onb : list OnbRaw) (prev : list PrevRaw) (vast : list VastRow)
    (n : Z) (today : date) :
  NoDup (map shift_id (shifts (preprocess_data ws template df_onb prev vast n today))).
Proof.
  unfold preprocess_data. cbn [shifts]. unfold shifts_of.
  rewrite reset_index_ids. apply seq_NoDup.
Qed.

Lemma worker_loc_found {A} (d : Data) (emp : string) (col : Worker -> A) :
  In emp (emp_ids d) -> exists a, worker_loc d emp col = inr a.
Proof.
  unfold emp_ids, worker_loc. intros H. apply in_map_iff in H.
  destruct H as [w [Hid Hw]].
  destruct (filter (fun w0 => String.eqb (medewerker_id w0) emp) (workers d)) as [| w1 r] eqn:E.
  - exfalso. assert (Hin : In w (filter (fun w0 => String.eqb (medewerker_id w0) emp) (workers d))).
    { apply filter_In. split; [assumption | apply String.eqb_eq; assumption]. }
    rewrite E in Hin. contradiction.
  - exists (col w1). reflexivity.
Qed.

(** The extraction never raises. *)
Lemma extract_assignments_total (d : Data) (v : valuation) :
  exists rows, extract_assignments d v = inr rows.
Proof.
  unfold extract_assignments. apply for_each_total. intros r _.
  unfold extract_row. destruct (find _ _) as [emp |] eqn:Hf.
  - apply find_some in Hf. destruct Hf as [Hin _].
    destruct (worker_loc_found d emp medewerker_naam Hin) as [naam ->].
    destruct (worker_loc_found d emp deskundigheid Hin) as [desk ->].
    simpl. eexists. reflexivity.
  - simpl. eexists. reflexivity.
Qed.


(* ===================================================================== *)
(** ** The parts of the model *)
(* ===================================================================== *)

(** What a successfully built model contains. *)
Record model_parts (d : Data) (cs : list constraint) : Prop := mkParts {
  part_indicator : incl (night_indicator_constraints d) cs;
  part_coverage : incl (coverage_constraints d) cs;
  part_one_shift : incl (one_shift_per_day_constraints d) cs;
  part_unavailability :
    exists c6, unavailability_constraints d = inr c6 /\ incl c6 cs;
  part_consecutive : incl (consecutive_nights_constraints d) cs;
  part_rest : incl (rest_after_nights_constraints d) cs;
  part_age : exists c74, age_constraints d = inr c74 /\ incl c74 cs
}.

Lemma hard_constraints_parts (d : Data) (cs : list constraint) :
  hard_constraints d = inr cs -> model_parts d cs.
Proof.
  unfold hard_constraints. intros H.
  apply bind_inr in H. destruct H as [c3 [H3 H]].
  apply bind_inr in H. destruct H as [c4 [H4 H]].
  apply bind_inr in H. destruct H as [c5 [H5 H]].
  apply bind_inr in H. destruct H as [c6 [H6 H]].
  apply bind_inr in H. destruct H as [c73 [H73 H]].
  apply bind_inr in H. destruct H as [c74 [H74 H]].
  apply bind_inr in H. destruct H as [c8 [H8 H]].
  apply bind_inr in H. destruct H as [c9 [H9 H]].
  injection H as <-.
  constructor.
  - apply incl_appl, incl_refl.
  - apply incl_appr, incl_appl, incl_refl.
  - do 2 apply incl_appr. apply incl_appl, incl_refl.
  - exists c6. split; [assumption |].
    do 6 apply incl_appr. apply incl_appl, incl_refl.
  - do 7 apply incl_appr. apply incl_appl, incl_refl.
  - do 8 apply incl_appr. apply incl_appl, incl_refl.
  - exists c74. split; [assumption |].
    do 10 apply incl_appr. apply incl_appl, incl_refl.
Qed.

Lemma eval_weighted_ones (v : valuation) (vs : list var) (k : Z) :
  eval v (mkLin (map (fun x => (1, x)) vs) k) = zsum (map (value v) vs) + k.
Proof.
  unfold eval. simpl. f_equal. rewrite map_map. f_equal.
  apply map_ext. intros x. simpl. destruct (value v x); reflexivity.
Qed.

Lemma fix_zero_holds (v : valuation) (x : var) :
  holdsb v (fix_zero x) = true -> v x = false.
Proof.
  unfold fix_zero, sum_of, holdsb, eval, value. simpl.
  destruct (v x); simpl; [discriminate | reflexivity].
Qed.

(* ===================================================================== *)
(** ** Coverage and the assignment table *)
(* ===================================================================== *)

Lemma coverage_sum (d : Data) (v : valuation) (cs : list constraint) (s : Shift) :
  hard_constraints d = inr cs -> solution v cs -> In s (shifts d) ->
  zsum (map (fun emp => value v (X (shift_id s) emp)) (emp_ids d))
  + value v (U (shift_id s)) = 1.
Proof.
  intros Hcs Hsol Hs.
  pose proof (part_coverage d cs (hard_constraints_parts d cs Hcs)) as Hincl.
  assert (Hin : In (Add (mkLin (map (fun emp => (1, X (shift_id s) emp)) (emp_ids d)
                                  ++ [(1, U (shift_id s))]) 0) EqC 1 [])
                   (coverage_constraints d)).
  { unfold coverage_constraints. apply in_map_iff. exists (shift_id s).
    split; [reflexivity | apply in_map; assumption]. }
  pose proof (solution_in v cs _ Hsol (Hincl _ Hin)) as Hh.
  cbn [holdsb forallb implb cmp_holds] in Hh. apply Z.eqb_eq in Hh.
  rewrite <- Hh. unfold eval. cbn [terms offset].
  rewrite map_app, zsum_app, map_map. cbn [map fst snd zsum fold_right].
  rewrite (map_ext (fun x : string => 1 * value v (X (shift_id s) x))
                   (fun emp => value v (X (shift_id s) emp)))
    by (intros a; apply Z.mul_1_l).
  lia.
Qed.

Lemma extract_row_id (d : Data) (v : valuation) (r : Shift) (row : AssignRow) :
  extract_row d v r = inr row -> a_shift_id row = shift_id r.
Proof.
  unfold extract_row. destruct (find _ _) as [emp |]; intros H.
  - apply bind_inr in H. destruct H as [naam [_ H]].
    apply bind_inr in H. destruct H as [desk [_ H]].
    injection H as <-. reflexivity.
  - injection H as <-. reflexivity.
Qed.

Lemma extract_row_cases (d : Data) (v : valuation) (r : Shift) (row : AssignRow) :
  extract_row d v r = inr row ->
  (exists emp, a_employee_id row = Some emp /\ a_shift_filled row = true
               /\ In emp (emp_ids d) /\ v (X (shift_id r) emp) = true)
  \/ (a_employee_id row = None /\ a_shift_filled row = false
      /\ forall emp, In emp (emp_ids d) -> v (X (shift_id r) emp) = false).
Proof.
  unfold extract_row. destruct (find _ _) as [emp |] eqn:Hf; intros H.
  - apply bind_inr in H. destruct H as [naam [_ H]].
    apply bind_inr in H. destruct H as [desk [_ H]].
    injection H as <-. left. exists emp. simpl.
    apply find_some in Hf. tauto.
  - injection H as <-. right. simpl. repeat split.
    intros emp Hin. apply (find_none _ _ Hf emp Hin).
Qed.


Lemma auto_rooster_success (d : Data) (st : status) (v : valuation) (res : Result) :
  auto_rooster_standardized d st v = inr (Some res) ->
  is_success st = true /\
  exists rows, extract_assignments d v = inr rows
               /\ res = mkResult rows (uncovered_of rows) st.
Proof.
  unfold auto_rooster_standardized. intros H.
  apply bind_inr in H. destruct H as [u0 [_ H]].
  apply bind_inr in H. destruct H as [cs0 [_ H]].
  apply bind_inr in H. destruct H as [p0 [_ H]].
  destruct (is_success st); [| discriminate].
  apply bind_inr in H. destruct H as [rows [Hrows H]].
  injection H as <-. split; [reflexivity |]. exists rows. split; [assumption | reflexivity].
Qed.






(* ===================================================================== *)
(** ** Clock times *)
(* ===================================================================== *)

Lemma time_compare_antisym (a b : time) :
  time_compare a b = CompOpp (time_compare b a).
Proof.
  unfold time_compare.
  rewrite (Z.compare_antisym (hour b) (hour a)).
  rewrite (Z.compare_antisym (minute b) (minute a)).
  rewrite (Z.compare_antisym (second b) (second a)).
  destruct (hour b ?= hour a); simpl; try reflexivity.
  destruct (minute b ?= minute a); simpl; reflexivity.
Qed.

Lemma time_leb_false_ltb (a b : time) : time_leb a b = false <-> time_ltb b a = true.
Proof.
  unfold time_leb, time_ltb. rewrite (time_compare_antisym a b).
  destruct (time_compare b a); simpl; split; intros H; congruence.
Qed.

Lemma seconds_lt_compare (a b : time) :
  valid_time a -> valid_time b ->
  (seconds_of a < seconds_of b <-> time_compare a b = Lt).
Proof.
  unfold valid_time, seconds_of, time_compare.
  intros [Ha1 [Ha2 Ha3]] [Hb1 [Hb2 Hb3]].
  destruct (Z.compare_spec (hour a) (hour b)) as [E | L | G].
  - destruct (Z.compare_spec (minute a) (minute b)) as [E' | L' | G'].
    + destruct (Z.compare_spec (second a) (second b)); split; intros; try congruence; lia.
    + split; [reflexivity | lia].
    + split; [lia | discriminate].
  - split; [reflexivity | lia].
  - split; [lia | discriminate].
Qed.

(** For a shift that ends on its own date the overlap test of the code
    finds every window that shares a moment with the shift. *)
Lemma overlap_of_conflict (s_start s_end : time) (from to : option time) :
  valid_time s_start -> valid_time s_end -> valid_window from to ->
  time_ltb s_end s_start = false ->
  window_conflict s_start s_end from to ->
  overlap s_start s_end from to = true.
Proof.
  unfold overlap, window_conflict, shift_interval, valid_window.
  intros Vs Ve Vw Hn Hc.
  destruct from as [a |]; destruct to as [b |]; try reflexivity.
  destruct Vw as [Va Vb]. rewrite Hn in Hc. cbn [fst snd] in Hc.
  rewrite negb_true_iff, orb_false_iff. unfold time_geb.
  rewrite !time_leb_false_ltb. unfold time_ltb.
  rewrite (proj1 (seconds_lt_compare a s_end Va Ve)) by lia.
  rewrite (proj1 (seconds_lt_compare s_start b Vs Vb)) by lia.
  split; reflexivity.
Qed.

(* ===================================================================== *)
(** ** Lookups by id *)
(* ===================================================================== *)

Lemma in_str_spec (x : string) (l : list string) : in_str x l = true <-> In x l.
Proof.
  unfold in_str. rewrite existsb_exists. split.
  - intros [y [Hy He]]. apply String.eqb_eq in He. subst. assumption.
  - intros H. exists x. split; [assumption | apply String.eqb_refl].
Qed.

Lemma in_Z_spec (x : Z) (l : list Z) : in_Z x l = true <-> In x l.
Proof.
  unfold in_Z. rewrite existsb_exists. split.
  - intros [y [Hy He]]. apply Z.eqb_eq in He. subst. assumption.
  - intros H. exists x. split; [assumption | apply Z.eqb_refl].
Qed.

Lemma in_nat_spec (x : nat) (l : list nat) : in_nat x l = true <-> In x l.
Proof.
  unfold in_nat. rewrite existsb_exists. split.
  - intros [y [Hy He]]. apply Nat.eqb_eq in He. subst. assumption.
  - intros H. exists x. split; [assumption | apply Nat.eqb_refl].
Qed.

Lemma filter_shift_id_unique (l : list Shift) (s : Shift) :
  NoDup (map shift_id l) -> In s l ->
  filter (fun r => Nat.eqb (shift_id r) (shift_id s)) l = [s].
Proof.
  induction l as [| a r IH]; intros Hnd Hin; [contradiction |].
  simpl in Hnd. inversion Hnd as [| ? ? Hnotin Hnd']; subst. simpl.
  destruct Hin as [-> | Hin].
  - rewrite Nat.eqb_refl. f_equal.
    clear IH Hnd Hnd'. induction r as [| b r IH]; [reflexivity |]. simpl.
    destruct (Nat.eqb_spec (shift_id b) (shift_id s)) as [E | E].
    + exfalso. apply Hnotin. left. assumption.
    + apply IH. intros Hc. apply Hnotin. right. assumption.
  - destruct (Nat.eqb_spec (shift_id a) (shift_id s)) as [E | E].
    + exfalso. apply Hnotin. rewrite E. apply in_map. assumption.
    + apply IH; assumption.
Qed.

Lemma shift_loc_unique {A} (d : Data) (s : Shift) (col : Shift -> A) :
  NoDup (map shift_id (shifts d)) -> In s (shifts d) ->
  shift_loc d (shift_id s) col = inr (col s).
Proof.
  intros Hnd Hin. unfold shift_loc.
  rewrite (filter_shift_id_unique _ _ Hnd Hin). reflexivity.
Qed.

Lemma shifts_by_date_in (d : Data) (s : Shift) :
  In s (shifts d) -> In (shift_id s) (shifts_by_date d (shift_date s)).
Proof.
  intros Hin. unfold shifts_by_date. apply in_map. apply filter_In.
  split; [assumption | apply Z.eqb_refl].
Qed.

(* ===================================================================== *)
(** ** Unavailability *)
(* ===================================================================== *)

(** A row that is not 'beschikbaar' fixes [x] to 0 on every shift of its
    date that passes the overlap test. *)
Lemma unavailability_row_blocks (d : Data) (r : Onb) (s : Shift) (xs : list constraint) :
  NoDup (map shift_id (shifts d)) ->
  In (Medewerker_id r) (emp_ids d) ->
  Datum r = Some (shift_date s) ->
  lower (Beschikbaarheid r) <> "beschikbaar" ->
  In s (shifts d) ->
  overlap (start_time s) (end_time s)
    (Beschikbaarheid_tijd_vanaf r) (Beschikbaarheid_tijd_tm r) = true ->
  unavailability_row d r = inr xs ->
  In (fix_zero (X (shift_id s) (Medewerker_id r))) xs.
Proof.
  intros Hnd Hemp Hdate Hkind Hs Hov Hrow.
  unfold unavailability_row in Hrow.
  rewrite (proj2 (in_str_spec _ _) Hemp) in Hrow. cbn [negb] in Hrow.
  destruct (String.eqb_spec (lower (Beschikbaarheid r)) "beschikbaar") as [E | _];
    [contradiction |].
  rewrite Hdate in Hrow.
  destruct (for_each_inr_incl _ _ _ Hrow (shift_id s) (shifts_by_date_in d s Hs))
    as [ys [Hbody Hincl]].
  rewrite (shift_loc_unique d s start_time Hnd Hs) in Hbody.
  rewrite (shift_loc_unique d s end_time Hnd Hs) in Hbody.
  cbn [bind ret] in Hbody.
  rewrite Hov in Hbody.
  injection Hbody as <-. apply Hincl. left. reflexivity.
Qed.

(** The validator's check 6 appends nothing: the comparison of line 104
    sends every row of the table to [continue]. *)
Lemma check_unavailability_silent (d : Data) (rows : list AssignRow) :
  check_unavailability d rows = [].
Proof.
  unfold check_unavailability.
  induction (onb d) as [| r rest IH]; [reflexivity |].
  cbn [flat_map]. rewrite IH, app_nil_r. unfold check_unavailability_row.
  destruct (negb _); [reflexivity |].
  destruct (String.eqb _ _); [reflexivity |].
  induction (filter _ rows) as [| sr srs IHs]; [reflexivity | exact IHs].
Qed.

(** C10.  Preprocessing replaces a missing kind by 'Onbekend', which is
    not the exempting kind, and a row whose lower-cased kind is
    'beschikbaar' adds no constraint and no error.  For a row of any
    other kind whose worker is in the pool, every solution of the hard
    constraints has [x[s, worker] = 0] on every shift [s] of the row's
    date that ends on that date and shares a moment with the window.
    The exclusion stops there.  A night shift from 23:00 to 07:00 shares
    the hour before midnight with a window from 18:00 to 23:59 of its
    date, but the test of lines 199-203 compares the clock times only
    (07:00 is not after 18:00): section 6 adds no constraint for the
    row, and the roster that gives the worker that night satisfies the
    hard constraints.  And the validator's check 6 never reports: it
    compares the [Timestamp] of the shift with the [datetime.date] of
    the row, which differ always; on a table that gives the worker a
    day shift inside the window of a row, a table that the model's
    constraint excludes, the validator reports nothing. *)
Theorem unavailability_exclusion_partial :
  (forall raw : OnbRow,
      or_Beschikbaarheid raw = None ->
      Beschikbaarheid (normalise_onb raw) = "Onbekend"
      /\ lower (Beschikbaarheid (normalise_onb raw)) <> "beschikbaar")
  /\ (forall (d : Data) (r : Onb),
         lower (Beschikbaarheid r) = "beschikbaar" ->
         unavailability_row d r = inr []
         /\ forall rows, check_unavailability_row d rows r = [])
  /\ (forall (d : Data) (r : Onb) (s : Shift) (cs : list constraint) (v : valuation),
         NoDup (map shift_id (shifts d)) ->
         In r (onb d) ->
         In (Medewerker_id r) (emp_ids d) ->
         lower (Beschikbaarheid r) <> "beschikbaar" ->
         In s (shifts d) ->
         Datum r = Some (shift_date s) ->
         valid_time (start_time s) -> valid_time (end_time s) ->
         valid_window (Beschikbaarheid_tijd_vanaf r) (Beschikbaarheid_tijd_tm r) ->
         time_ltb (end_time s) (start_time s) = false ->
         window_conflict (start_time s) (end_time s)
           (Beschikbaarheid_tijd_vanaf r) (Beschikbaarheid_tijd_tm r) ->
         hard_constraints d = inr cs ->
         solution v cs ->
         v (X (shift_id s) (Medewerker_id r)) = false)
  /\ (onb Scenario.evening_data = [Scenario.evening_entry]
      /\ shifts Scenario.evening_data = [Scenario.evening_night]
      /\ emp_ids Scenario.evening_data = ["1001"]
      /\ lower (Beschikbaarheid Scenario.evening_entry) <> "beschikbaar"
      /\ Datum Scenario.evening_entry = Some (shift_date Scenario.evening_night)
      /\ window_conflict (start_time Scenario.evening_night)
           (end_time Scenario.evening_night)
           (Beschikbaarheid_tijd_vanaf Scenario.evening_entry)
           (Beschikbaarheid_tijd_tm Scenario.evening_entry)
      /\ overlap (start_time Scenario.evening_night) (end_time Scenario.evening_night)
           (Beschikbaarheid_tijd_vanaf Scenario.evening_entry)
           (Beschikbaarheid_tijd_tm Scenario.evening_entry) = false
      /\ unavailability_constraints Scenario.evening_data = inr []
      /\ personal_rules Scenario.evening_data = inr []
      /\ (exists cs, hard_constraints Scenario.evening_data = inr cs
                     /\ solution Scenario.evening_solution cs)
      /\ Scenario.evening_solution (X (shift_id Scenario.evening_night) "1001") = true
      /\ extract_assignments Scenario.evening_data Scenario.evening_solution
         = inr Scenario.evening_rows)
  /\ (forall (d : Data) (rows : list AssignRow), check_unavailability d rows = [])
  /\ (unavailability_constraints Scenario.sick_data = inr [fix_zero (X 0%nat "1001")]
      /\ holdsb Scenario.sick_assignment (fix_zero (X 0%nat "1001")) = false
      /\ extract_assignments Scenario.sick_data Scenario.sick_assignment
         = inr Scenario.sick_rows
      /\ validation_errors Scenario.sick_data (dropna_employee_id Scenario.sick_rows)
         = inr []).
Proof.
  split; [| split; [| split; [| split; [| split]]]].
  - intros raw H. unfold normalise_onb. cbn [Beschikbaarheid]. rewrite H.
    split; [reflexivity | vm_compute; discriminate].
  - intros d r H. split.
    + unfold unavailability_row. rewrite H. cbn [String.eqb].
      destruct (negb _); reflexivity.
    + intros rows. unfold check_unavailability_row. rewrite H.
      destruct (negb _); reflexivity.
  - intros d r s cs v Hnd Hr Hemp Hkind Hs Hdate Vs Ve Vw Hday Hconf Hcs Hsol.
    destruct (part_unavailability d cs (hard_constraints_parts d cs Hcs))
      as [c6 [Hc6 Hincl]].
    destruct (for_each_inr_incl _ _ _ Hc6 r Hr) as [xs [Hrow Hxs]].
    apply fix_zero_holds. apply (solution_in v cs _ Hsol).
    apply Hincl, Hxs.
    apply (unavailability_row_blocks d r s xs Hnd Hemp Hdate Hkind Hs); [| exact Hrow].
    apply overlap_of_conflict; assumption.
  - split; [vm_compute; reflexivity |].
    split; [vm_compute; reflexivity |].
    split; [vm_compute; reflexivity |].
    split; [vm_compute; discriminate |].
    split; [reflexivity |].
    split; [vm_compute; reflexivity |].
    split; [vm_compute; reflexivity |].
    split; [vm_compute; reflexivity |].
    split; [vm_compute; reflexivity |].
    split; [eexists; split;
            [vm_compute; reflexivity | apply solutionb_spec; vm_compute; reflexivity] |].
    split; vm_compute; reflexivity.
  - apply check_unavailability_silent.
  - repeat split; vm_compute; reflexivity.
Qed.

(** The model's exclusion at work: worker 1001 is reported sick on
    Monday from 09:00 to 12:00, the day shift of that Monday runs from
    07:00 to 15:00, and in the roster that gives the worker the shift of
    Tuesday the Monday shift is not the worker's. *)
Lemma unavailability_exclusion_partial_witness :
  NoDup (map shift_id (shifts Scenario.sick_data))
  /\ In Scenario.sick_entry (onb Scenario.sick_data)
  /\ In (Medewerker_id Scenario.sick_entry) (emp_ids Scenario.sick_data)
  /\ lower (Beschikbaarheid Scenario.sick_entry) <> "beschikbaar"
  /\ In Scenario.sick_monday (shifts Scenario.sick_data)
  /\ Datum Scenario.sick_entry = Some (shift_date Scenario.sick_monday)
  /\ time_ltb (end_time Scenario.sick_monday) (start_time Scenario.sick_monday) = false
  /\ window_conflict (start_time Scenario.sick_monday) (end_time Scenario.sick_monday)
       (Beschikbaarheid_tijd_vanaf Scenario.sick_entry)
       (Beschikbaarheid_tijd_tm Scenario.sick_entry)
  /\ hard_constraints Scenario.sick_data = inr (Cases.model_of Scenario.sick_data)
  /\ solution Scenario.sick_solution (Cases.model_of Scenario.sick_data)
  /\ Scenario.sick_solution (X 1%nat "1001") = true
  /\ Scenario.sick_solution (X 0%nat "1001") = false.
Proof.
  assert (H1 : NoDup (map shift_id (shifts Scenario.sick_data)))
    by apply preprocessed_ids_distinct.
  assert (H2 : In Scenario.sick_entry (onb Scenario.sick_data))
    by (vm_compute; left; reflexivity).
  assert (H3 : In (Medewerker_id Scenario.sick_entry) (emp_ids Scenario.sick_data))
    by (vm_compute; left; reflexivity).
  assert (H4 : lower (Beschikbaarheid Scenario.sick_entry) <> "beschikbaar")
    by (vm_compute; discriminate).
  assert (H5 : In Scenario.sick_monday (shifts Scenario.sick_data))
    by (vm_compute; left; reflexivity).
  assert (H6 : Datum Scenario.sick_entry = Some (shift_date Scenario.sick_monday))
    by reflexivity.
  assert (H7 : time_ltb (end_time Scenario.sick_monday)
                 (start_time Scenario.sick_monday) = false)
    by reflexivity.
  assert (H8 : window_conflict (start_time Scenario.sick_monday)
                 (end_time Scenario.sick_monday)
                 (Beschikbaarheid_tijd_vanaf Scenario.sick_entry)
                 (Beschikbaarheid_tijd_tm Scenario.sick_entry))
    by (vm_compute; reflexivity).
  assert (H9 : hard_constraints Scenario.sick_data
               = inr (Cases.model_of Scenario.sick_data))
    by (vm_compute; reflexivity).
  assert (H10 : solution Scenario.sick_solution (Cases.model_of Scenario.sick_data))
    by (apply solutionb_spec; vm_compute; reflexivity).
  assert (V1 : valid_time (start_time Scenario.sick_monday))
    by (unfold valid_time; simpl; lia).
  assert (V2 : valid_time (end_time Scenario.sick_monday))
    by (unfold valid_time; simpl; lia).
  assert (V3 : valid_window (Beschikbaarheid_tijd_vanaf Scenario.sick_entry)
                 (Beschikbaarheid_tijd_tm Scenario.sick_entry))
    by (unfold valid_window, valid_time; simpl; lia).
  repeat (split; [assumption |]).
  split; [reflexivity |].
  exact (proj1 (proj2 (proj2 unavailability_exclusion_partial))
           Scenario.sick_data Scenario.sick_entry Scenario.sick_monday
           (Cases.model_of Scenario.sick_data) Scenario.sick_solution
           H1 H2 H3 H4 H5 H6 V1 V2 V3 H7 H8 H9 H10).
Defined.

(* ===================================================================== *)
(** ** The night flag *)
(* ===================================================================== *)


(** A negative difference of the two timestamps means that the end is
    earlier on the clock than the start. *)
Lemma negative_difference_iff (start_t end_t : time) :
  valid_time start_t -> valid_time end_t ->
  ((seconds_between start_t end_t <? 0) = true <-> time_ltb end_t start_t = true).
Proof.
  intros Hs He. unfold seconds_between, time_ltb. rewrite Z.ltb_lt.
  pose proof (seconds_lt_compare end_t start_t He Hs) as [H1 H2].
  destruct (time_compare end_t start_t) eqn:E; split; intros H0.
  - assert (Hlt : seconds_of end_t < seconds_of start_t) by lia.
    apply H1 in Hlt. discriminate.
  - discriminate.
  - reflexivity.
  - specialize (H2 eq_refl). lia.
  - assert (Hlt : seconds_of end_t < seconds_of start_t) by lia.
    apply H1 in Hlt. discriminate.
  - discriminate.
Qed.

Lemma in_reset_index (l : list Shift) (s : Shift) :
  In s (reset_index l) -> exists i s0, In s0 l /\ s = set_shift_id i s0.
Proof.
  unfold reset_index. intros H. apply in_map_iff in H.
  destruct H as [[i s0] [<- Hin]]. apply in_combine_r in Hin.
  exists i, s0. split; [assumption | reflexivity].
Qed.

Lemma in_shift_requirements (template : list TemplateRow) (rq : Requirement) :
  In rq (shift_requirements template) ->
  exists row, In row template
              /\ rq_start_time rq = t_Begintijd row
              /\ rq_end_time rq = t_Eindtijd row.
Proof.
  unfold shift_requirements. intros H. apply in_flat_map in H.
  destruct H as [row [Hrow H]]. apply filter_In in Hrow. destruct Hrow as [Hrow _].
  apply in_flat_map in H. destruct H as [cell [_ H]].
  destruct (convert_day_value (snd cell)); [| contradiction].
  destruct H as [<- | []]. exists row. repeat split; assumption.
Qed.

(** Every planned shift is an instance of a template row, up to its id. *)
Lemma in_planned_shifts (template : list TemplateRow) (start_date gsd : date)
    (n : Z) (s : Shift) :
  In s (shifts_of (all_shift_instances template start_date gsd n)) ->
  exists row,
    In row template
    /\ start_time s = t_Begintijd row /\ end_time s = t_Eindtijd row
    /\ is_night s = (seconds_between (t_Begintijd row) (t_Eindtijd row) <? 0).
Proof.
  unfold shifts_of, all_shift_instances. intros H.
  apply in_reset_index in H. destruct H as [i [s0 [H ->]]].
  apply filter_In in H. destruct H as [H _].
  apply in_reset_index in H. destruct H as [j [s1 [H ->]]].
  apply in_flat_map in H. destruct H as [wk [_ H]].
  apply in_map_iff in H. destruct H as [rq [<- Hrq]].
  destruct (in_shift_requirements template rq Hrq) as [row [Hrow [Hb He]]].
  exists row. simpl. rewrite Hb, He. repeat split; try reflexivity. assumption.
Qed.

Lemma in_insert_by_date (p q : Prev) (l : list Prev) :
  In q (insert_by_date p l) -> q = p \/ In q l.
Proof.
  induction l as [| a r IH]; simpl; intros H.
  - destruct H as [<- | []]. left. reflexivity.
  - destruct (p_shift_date p <=? p_shift_date a).
    + destruct H as [<- | H]; [left; reflexivity | right; assumption].
    + destruct H as [<- | H]; [right; left; reflexivity |].
      destruct (IH H) as [-> | H']; [left; reflexivity | right; right; assumption].
Qed.

Lemma in_sort_values (q : Prev) (l : list Prev) :
  In q (sort_values_shift_date l) -> In q l.
Proof.
  induction l as [| a r IH]; simpl; intros H; [assumption |].
  apply in_insert_by_date in H. destruct H as [-> | H];
    [left; reflexivity | right; apply IH; assumption].
Qed.

Lemma in_canonical_prev (raw : list PrevRaw) (today : date) (p : Prev) :
  In p (h_prev (preprocess_prev raw today)) ->
  p_is_night p = prev_is_night (p_start_time p).
Proof.
  unfold preprocess_prev. destruct raw as [| r0 rest]; cbn [h_prev]; [contradiction |].
  intros H. apply in_sort_values in H. apply in_map_iff in H.
  destruct H as [ir [<- _]]. reflexivity.
Qed.

(** C8, as the code has it.  A shift of the horizon is a night shift
    exactly when its end time is strictly earlier than its start time; a
    canonicalised previous assignment is a night shift exactly when it
    starts at 22:00 or later, or before 06:00. *)
Theorem is_night_as_computed :
  forall (ws : list Worker) (template : list TemplateRow) (df_onb : list OnbRaw)
         (prev : list PrevRaw) (vast : list VastRow) (n : Z) (today : date),
    Forall (fun row => valid_time (t_Begintijd row) /\ valid_time (t_Eindtijd row))
           template ->
    Forall (fun s => is_night s = true <-> time_ltb (end_time s) (start_time s) = true)
           (shifts (preprocess_data ws template df_onb prev vast n today))
    /\ Forall (fun p => p_is_night p = true <->
                        (22 <= hour (p_start_time p) \/ hour (p_start_time p) < 6))
              (h_prev (preprocess_prev prev today)).
Proof.
  intros ws template df_onb prev vast n today Hvalid. split.
  - apply Forall_forall. intros s Hs. unfold preprocess_data in Hs. simpl in Hs.
    destruct (in_planned_shifts _ _ _ _ _ Hs) as [row [Hrow [Hb [He Hn]]]].
    rewrite Forall_forall in Hvalid. destruct (Hvalid row Hrow) as [Vb Ve].
    rewrite Hn, Hb, He. apply negative_difference_iff; assumption.
  - apply Forall_forall. intros p Hp.
    rewrite (in_canonical_prev prev today p Hp). unfold prev_is_night.
    rewrite orb_true_iff, Z.leb_le, Z.ltb_lt. tauto.
Qed.

(** C8 as stated fails: a previous shift from 21:00 to 05:00 ends before
    it starts and is not flagged, and a planned shift whose end time
    equals its start time is not flagged either. *)
Lemma is_night_counterexample :
  ~ (forall p, In p (h_prev (preprocess_prev [Scenario.prev_21_05] Scenario.monday)) ->
        (p_is_night p = true <-> end_le_start (p_start_time p) (p_end_time p)))
  /\ ~ (forall s,
          In s (shifts (preprocess_data [] [Scenario.round_the_clock] [] [] []
                          1 Scenario.monday)) ->
          (is_night s = true <-> end_le_start (start_time s) (end_time s))).
Proof.
  split.
  - intros H.
    assert (Hin : In (canonical_prev (Scenario.monday - 1) (Scenario.monday - 7)
                        (0%nat, Scenario.prev_21_05))
                     (h_prev (preprocess_prev [Scenario.prev_21_05] Scenario.monday)))
      by (vm_compute; left; reflexivity).
    apply H in Hin. destruct Hin as [_ Hin].
    assert (Hf : p_is_night (canonical_prev (Scenario.monday - 1) (Scenario.monday - 7)
                        (0%nat, Scenario.prev_21_05)) = true)
      by (apply Hin; vm_compute; reflexivity).
    vm_compute in Hf. discriminate.
  - intros H.
    assert (Hin : exists s,
               In s (shifts (preprocess_data [] [Scenario.round_the_clock] [] [] []
                               1 Scenario.monday))
               /\ is_night s = false
               /\ end_le_start (start_time s) (end_time s)).
    { eexists. split; [vm_compute; left; reflexivity |].
      split; vm_compute; reflexivity. }
    destruct Hin as [s [Hs [Hn Hle]]]. apply (H s Hs) in Hle. congruence.
Qed.

(** A template whose times are valid, for the hypothesis above. *)
Lemma is_night_as_computed_witness :
  Forall (fun row => valid_time (t_Begintijd row) /\ valid_time (t_Eindtijd row))
         [Scenario.night_row Scenario.every_day]
  /\ Forall (fun s => is_night s = true <-> time_ltb (end_time s) (start_time s) = true)
           (shifts Scenario.tail_data).
Proof.
  assert (Hv : Forall (fun row => valid_time (t_Begintijd row) /\ valid_time (t_Eindtijd row))
                      [Scenario.night_row Scenario.every_day]).
  { constructor; [| constructor]. unfold valid_time. simpl. lia. }
  split; [exact Hv |].
  exact (proj1 (is_night_as_computed [Scenario.worker_1001]
                  [Scenario.night_row Scenario.every_day] []
                  [mkPrevRaw "1001" (Scenario.monday - 1) "N" (mkTime 23 0 0) (mkTime 7 0 0)]
                  [] 1 Scenario.monday Hv)).
Defined.

(* ===================================================================== *)
(** ** The constant schedule *)
(* ===================================================================== *)

Lemma in_unique_str (x : string) (l : list string) : In x (unique_str l) <-> In x l.
Proof.
  induction l as [| a r IH]; simpl; [tauto |]. split.
  - intros [-> | H]; [left; reflexivity |].
    apply filter_In in H. right. apply IH. tauto.
  - intros [-> | H]; [left; reflexivity |].
    destruct (string_dec a x) as [E | E]; [left; assumption | right].
    apply filter_In. split; [apply IH; assumption |].
    apply negb_true_iff. apply String.eqb_neq. assumption.
Qed.

Lemma NoDup_unique_str (l : list string) : NoDup (unique_str l).
Proof.
  induction l as [| a r IH]; simpl; constructor.
  - intros H. apply filter_In in H. destruct H as [_ H].
    rewrite String.eqb_refl in H. discriminate.
  - apply NoDup_filter. assumption.
Qed.

Lemma set_contract_minutes_same (w : Worker) :
  set_contract_minutes (contract_minutes w - 0) w = w.
Proof. destruct w. unfold set_contract_minutes. simpl. f_equal. lia. Qed.

Section Deduction.
Variable shifts_constant : list Shift.
Variable cu : list ConstUnavail.

Lemma subtract_loop (l : list string) :
  NoDup l ->
  forall ws,
    fold_left (subtract_for shifts_constant cu) l ws
    = map (fun w => if in_str (medewerker_id w) l
                    then deducted shifts_constant cu w else w) ws.
Proof.
  induction l as [| a r IH]; intros Hnd ws.
  - simpl. symmetry. apply map_id.
  - inversion Hnd as [| ? ? Hnotin Hnd']; subst. simpl fold_left.
    rewrite (IH Hnd'). unfold subtract_for. rewrite map_map. apply map_ext.
    intros w. unfold deducted, in_str. simpl existsb.
    destruct (String.eqb_spec (medewerker_id w) a) as [E | E].
    + simpl. subst a.
      assert (Hf : existsb (String.eqb (medewerker_id w)) r = false).
      { apply not_true_is_false. intros Hc. apply Hnotin.
        apply (proj1 (in_str_spec _ _) Hc). }
      rewrite Hf. reflexivity.
    + simpl. reflexivity.
Qed.

Lemma hours_to_subtract_absent (emp : string) :
  ~ In emp (map cu_Medewerker_id cu) ->
  hours_to_subtract shifts_constant cu emp = 0.
Proof.
  intros Hn. unfold hours_to_subtract.
  assert (Hf : filter (fun c => String.eqb (cu_Medewerker_id c) emp) cu = []).
  { clear - Hn. induction cu as [| c r IH]; [reflexivity |]. simpl.
    destruct (String.eqb_spec (cu_Medewerker_id c) emp) as [E | E].
    - exfalso. apply Hn. left. assumption.
    - apply IH. intros Hc. apply Hn. right. assumption. }
  rewrite Hf. simpl.
  induction shifts_constant as [| s r IH]; [reflexivity | simpl; assumption].
Qed.

Lemma subtract_constant_map (ws : list Worker) :
  subtract_constant shifts_constant cu ws = map (deducted shifts_constant cu) ws.
Proof.
  unfold subtract_constant. rewrite (subtract_loop _ (NoDup_unique_str _)).
  apply map_ext. intros w.
  destruct (in_str (medewerker_id w) (unique_str (map cu_Medewerker_id cu))) eqn:E;
    [reflexivity |].
  unfold deducted. rewrite hours_to_subtract_absent.
  - symmetry. apply set_contract_minutes_same.
  - intros Hc. apply in_unique_str in Hc. apply in_str_spec in Hc. congruence.
Qed.

End Deduction.

Lemma matched_ids_spec (sc : list Shift) (start_date : date) (vast : list VastRow)
    (emp : string) (x : nat) :
  in_nat x
    (flat_map (fun c => match cu_shift_id c with Some i => [i] | None => [] end)
       (filter (fun c => String.eqb (cu_Medewerker_id c) emp)
          (const_unavail sc start_date vast)))
  = existsb (fun r => match find_shift_id sc r with
                      | Some i => Nat.eqb x i
                      | None => false
                      end)
      (filter (fun r => String.eqb (v_medewerker_id r) emp) vast).
Proof.
  unfold const_unavail, in_nat.
  induction vast as [| r rest IH]; [reflexivity |]. simpl.
  destruct (String.eqb (v_medewerker_id r) emp); [| assumption]. simpl.
  rewrite existsb_app, IH.
  destruct (find_shift_id sc r); simpl; [rewrite orb_false_r |]; reflexivity.
Qed.

Lemma hours_to_subtract_matched (sc : list Shift) (start_date : date)
    (vast : list VastRow) (emp : string) :
  hours_to_subtract sc (const_unavail sc start_date vast) emp
  = matched_deduction sc vast emp.
Proof.
  unfold hours_to_subtract, matched_deduction. do 2 f_equal.
  apply filter_ext. intros s. apply matched_ids_spec.
Qed.

(** C9, as the code has it.  Every row of the constant schedule becomes
    an unavailability entry for its worker on the computed target date,
    of kind 'Niet beschikbaar (constant schedule)' and from 00:00 to
    23:59; and a worker's contract minutes are reduced by the durations
    of the catalogue shifts that the worker's rows match, each matched
    catalogue shift being counted once. *)
Theorem constant_schedule_integration :
  forall (ws : list Worker) (template : list TemplateRow) (df_onb : list OnbRaw)
         (prev : list PrevRaw) (vast : list VastRow) (n : Z) (today : date),
    let h := preprocess_prev prev today in
    let catalogue :=
      shifts_constant_of
        (all_shift_instances template (h_start_date h) (h_global_start_date h) n) in
    let d := preprocess_data ws template df_onb prev vast n today in
    onb d
    = map normalise_onb (map onb_of_raw df_onb)
      ++ map (fun r =>
                mkOnb (v_medewerker_id r) (vast_shift_date (h_start_date h) r)
                  "Niet beschikbaar (constant schedule)"
                  (Some (mkTime 0 0 0)) (Some (mkTime 23 59 0)))
             vast
    /\ workers d
       = map (fun w =>
                set_contract_minutes
                  (contract_minutes w
                   - matched_deduction catalogue vast (medewerker_id w)) w)
             ws.
Proof.
  intros ws template df_onb prev vast n today h catalogue d. split.
  - unfold d, preprocess_data. cbn [onb]. rewrite map_app. f_equal.
    unfold const_unavail. rewrite !map_map. apply map_ext. intros r. reflexivity.
  - unfold d, preprocess_data. cbn [workers]. rewrite subtract_constant_map.
    apply map_ext. intros w. unfold deducted.
    rewrite hours_to_subtract_matched. reflexivity.
Qed.

Lemma in_nat_cons (x i : nat) (rest : list nat) :
  in_nat x (i :: rest) = orb (Nat.eqb x i) (in_nat x rest).
Proof. reflexivity. Qed.

(** Adding the id of one more catalogue shift to the matched ids adds
    the duration of that shift. *)
Lemma filter_add_id (sc : list Shift) (i : nat) (rest : list nat) :
  NoDup (map shift_id sc) -> In i (map shift_id sc) -> ~ In i rest ->
  zsum (map duration_min (filter (fun s => in_nat (shift_id s) (i :: rest)) sc))
  = match filter (fun s => Nat.eqb (shift_id s) i) sc with
    | s :: _ => duration_min s
    | [] => 0
    end
    + zsum (map duration_min (filter (fun s => in_nat (shift_id s) rest) sc)).
Proof.
  induction sc as [| a r IH]; intros Hnd Hin Hnot; [contradiction |].
  simpl in Hnd. inversion Hnd as [| ? ? Hna Hnd']; subst.
  cbn [filter]. rewrite in_nat_cons.
  destruct (Nat.eqb_spec (shift_id a) i) as [E | E].
  - cbn [orb map zsum fold_right]. change (fold_right Z.add 0) with zsum.
    assert (Hr : in_nat (shift_id a) rest = false).
    { apply not_true_is_false. intros Hc. apply in_nat_spec in Hc. subst. contradiction. }
    rewrite Hr. f_equal. do 2 f_equal. apply filter_ext_in. intros s Hs.
    rewrite in_nat_cons.
    destruct (Nat.eqb_spec (shift_id s) i) as [E' | E']; [| reflexivity].
    exfalso. apply Hna. rewrite E, <- E'. apply in_map. assumption.
  - cbn [orb].
    destruct Hin as [Hin | Hin]; [contradiction |].
    specialize (IH Hnd' Hin Hnot).
    destruct (in_nat (shift_id a) rest); cbn [map zsum fold_right];
      change (fold_right Z.add 0) with zsum; rewrite IH; lia.
Qed.

Lemma find_shift_id_in (sc : list Shift) (r : VastRow) (i : nat) :
  find_shift_id sc r = Some i -> In i (map shift_id sc).
Proof.
  unfold find_shift_id. destruct (day_map_const (v_dag r)) as [dow |]; [| discriminate].
  destruct (filter _ sc) as [| m rest] eqn:E; [discriminate |].
  intros H. injection H as <-. apply in_map.
  assert (Hm : In m (filter (fun s => andb (String.eqb (shift_name s) (v_dienst r))
                                           (day_of_week s =? dow)) sc))
    by (rewrite E; left; reflexivity).
  apply filter_In in Hm. tauto.
Qed.

(** When the rows of a worker match pairwise different catalogue
    shifts, the deduction is the sum over the rows. *)
Lemma matched_deduction_rowwise (sc : list Shift) (vast : list VastRow) (emp : string) :
  NoDup (map shift_id sc) ->
  NoDup (flat_map (fun r => match find_shift_id sc r with
                            | Some i => [i]
                            | None => []
                            end)
           (filter (fun r => String.eqb (v_medewerker_id r) emp) vast)) ->
  matched_deduction sc vast emp = rowwise_deduction sc vast emp.
Proof.
  intros Hsc. unfold matched_deduction, rowwise_deduction.
  induction (filter (fun r => String.eqb (v_medewerker_id r) emp) vast)
    as [| r rows IH]; intros Hnd.
  - cbn [existsb map zsum fold_right].
    replace (filter (fun _ : Shift => false) sc) with (@nil Shift); [reflexivity |].
    clear. induction sc as [| s sc' IHs]; [reflexivity | exact IHs].
  - cbn [map zsum fold_right]. change (fold_right Z.add 0) with zsum.
    cbn [flat_map] in Hnd. unfold matched_duration at 1.
    destruct (find_shift_id sc r) as [i |] eqn:Ef.
    + cbn [app] in Hnd. inversion Hnd as [| ? ? Hni Hnd']; subst.
      rewrite <- (IH Hnd').
      assert (Hin : In i (map shift_id sc)) by (apply (find_shift_id_in sc r i Ef)).
      set (ids := flat_map (fun r0 => match find_shift_id sc r0 with
                                      | Some j => [j]
                                      | None => []
                                      end) rows) in *.
      assert (Heq : forall l, (forall s, existsb
                        (fun r0 => match find_shift_id sc r0 with
                                   | Some j => Nat.eqb (shift_id s) j
                                   | None => false
                                   end) l
                      = in_nat (shift_id s)
                          (flat_map (fun r0 => match find_shift_id sc r0 with
                                               | Some j => [j]
                                               | None => []
                                               end) l))).
      { intros l s. unfold in_nat. induction l as [| r0 l' IHl]; [reflexivity |].
        cbn [existsb flat_map]. rewrite existsb_app, IHl.
        destruct (find_shift_id sc r0); cbn [existsb]; [rewrite orb_false_r |]; reflexivity. }
      rewrite (filter_ext _ _ (Heq (r :: rows))).
      rewrite (filter_ext _ _ (Heq rows)).
      cbn [flat_map]. rewrite Ef. cbn [app]. fold ids.
      apply (filter_add_id sc i ids Hsc Hin Hni).
    + cbn [app] in Hnd. rewrite <- (IH Hnd). cbn [existsb]. rewrite Ef.
      cbn [orb]. lia.
Qed.

(** C9 as stated fails: two rows that give worker 1001 the Monday
    kitchen shift, in week 1 and in week 2, match the same catalogue
    shift of 480 minutes; 480 minutes are deducted, not 960. *)
Lemma rowwise_deduction_counterexample :
  rowwise_deduction Scenario.kok_catalogue Scenario.kok_vast "1001" = 960
  /\ map contract_minutes (workers Scenario.kok_data)
     <> [contract_minutes Scenario.worker_1001
         - rowwise_deduction Scenario.kok_catalogue Scenario.kok_vast "1001"].
Proof.
  split; [vm_compute; reflexivity |].
  vm_compute. intros H. discriminate H.
Qed.

(* ===================================================================== *)
(** ** Sorted lists of dates *)
(* ===================================================================== *)

Lemma in_uinsert_Z (x y : Z) (l : list Z) :
  In y (uinsert Z.compare x l) <-> y = x \/ In y l.
Proof.
  induction l as [| a r IH]; simpl.
  - intuition congruence.
  - destruct (Z.compare_spec x a) as [E | L | G]; simpl.
    + intuition congruence.
    + intuition congruence.
    + rewrite IH. intuition congruence.
Qed.

Lemma in_usort_Z (x : Z) (l : list Z) : In x (usort Z.compare l) <-> In x l.
Proof.
  unfold usort. induction l as [| a r IH]; simpl; [tauto |].
  rewrite in_uinsert_Z, IH. intuition congruence.
Qed.

Lemma uinsert_Z_sorted (x : Z) (l : list Z) :
  StronglySorted Z.lt l -> StronglySorted Z.lt (uinsert Z.compare x l).
Proof.
  induction l as [| a r IH]; simpl; intros Hs.
  - constructor; constructor.
  - inversion Hs as [| ? ? Hr Hall]; subst.
    destruct (Z.compare_spec x a) as [E | L | G].
    + assumption.
    + constructor; [assumption |]. constructor; [assumption |].
      rewrite Forall_forall in *. intros y Hy. specialize (Hall y Hy). lia.
    + constructor; [apply IH; assumption |].
      rewrite Forall_forall in *. intros y Hy. apply in_uinsert_Z in Hy.
      destruct Hy as [-> | Hy]; [assumption | apply Hall; assumption].
Qed.

Lemma usort_Z_sorted (l : list Z) : StronglySorted Z.lt (usort Z.compare l).
Proof.
  unfold usort. induction l as [| a r IH]; simpl; [constructor |].
  apply uinsert_Z_sorted. assumption.
Qed.

(** Three consecutive dates of a strictly increasing list are three
    consecutive entries of it. *)
Lemma triples_consecutive (l : list Z) (x : Z) :
  StronglySorted Z.lt l ->
  In x l -> In (x + 1) l -> In (x + 2) l ->
  In (x, x + 1, x + 2) (triples l).
Proof.
  induction l as [| a r IH]; intros Hs H0 H1 H2; [contradiction |].
  inversion Hs as [| ? ? Hr Hall]; subst. rewrite Forall_forall in Hall.
  destruct H0 as [-> | H0].
  - destruct H1 as [E | H1]; [lia |]. destruct H2 as [E | H2]; [lia |].
    destruct r as [| b r']; [contradiction |].
    inversion Hr as [| ? ? Hr' Hallb]; subst. rewrite Forall_forall in Hallb.
    assert (Hb : b = x + 1).
    { destruct H1 as [E | H1]; [assumption |].
      specialize (Hallb _ H1). specialize (Hall b (or_introl eq_refl)). lia. }
    subst b.
    destruct H2 as [E | H2]; [lia |].
    destruct r' as [| c r'']; [contradiction |].
    assert (Hc : c = x + 2).
    { destruct H2 as [E | H2]; [assumption |].
      inversion Hr' as [| ? ? _ Hallc]; subst. rewrite Forall_forall in Hallc.
      specialize (Hallc _ H2). specialize (Hallb c (or_introl eq_refl)). lia. }
    subst c. simpl. left. reflexivity.
  - assert (H1' : In (x + 1) r).
    { destruct H1 as [E | H1]; [| assumption]. specialize (Hall _ H0). lia. }
    assert (H2' : In (x + 2) r).
    { destruct H2 as [E | H2]; [| assumption]. specialize (Hall _ H0). lia. }
    specialize (IH Hr H0 H1' H2').
    destruct r as [| b [| c r'']].
    + contradiction.
    + simpl in IH. contradiction.
    + right. exact IH.
Qed.

Lemma date_in_dates_list (d : Data) (s : Shift) :
  In s (shifts d) -> In (shift_date s) (dates_list d).
Proof.
  intros H. unfold dates_list. apply in_usort_Z. apply in_map. assumption.
Qed.

Lemma night_shifts_by_date_in (d : Data) (s : Shift) :
  In s (shifts d) -> is_night s = true ->
  In (shift_id s) (night_shifts_by_date d (shift_date s)).
Proof.
  intros Hin Hn. unfold night_shifts_by_date. apply in_map. apply filter_In.
  split; [apply filter_In; split; assumption | apply Z.eqb_refl].
Qed.

Lemma in_night_shifts_by_date (d : Data) (day : date) (i : nat) :
  In i (night_shifts_by_date d day) ->
  exists s, In s (shifts d) /\ is_night s = true /\ shift_date s = day
            /\ shift_id s = i.
Proof.
  unfold night_shifts_by_date. intros H. apply in_map_iff in H.
  destruct H as [s [Hid H]]. apply filter_In in H. destruct H as [H Hd].
  apply filter_In in H. destruct H as [H Hn]. apply Z.eqb_eq in Hd.
  exists s. repeat split; assumption.
Qed.

(* ===================================================================== *)
(** ** The night indicator *)
(* ===================================================================== *)

Lemma eval_sum_of (v : valuation) (vs : list var) :
  eval v (sum_of vs) = zsum (map (value v) vs).
Proof. unfold sum_of. rewrite eval_weighted_ones. lia. Qed.

Lemma zsum_values_zero (v : valuation) (vs : list var) :
  zsum (map (value v) vs) = 0 -> forall x, In x vs -> v x = false.
Proof.
  intros H x Hx. apply value_false.
  pose proof (zsum_map_ge_one _ (value v) (fun a => proj1 (value_range v a)) vs x Hx).
  pose proof (value_range v x). lia.
Qed.

Lemma zsum_values_pos (v : valuation) (vs : list var) :
  1 <= zsum (map (value v) vs) -> exists x, In x vs /\ v x = true.
Proof.
  induction vs as [| a r IH]; simpl; intros H; [lia |].
  destruct (v a) eqn:E.
  - exists a. split; [left; reflexivity | assumption].
  - assert (Ha : value v a = 0) by (apply value_false; assumption).
    destruct IH as [x [Hx Hv]]; [lia |].
    exists x. split; [right; assumption | assumption].
Qed.

(** In a solution, the indicator of a date of the horizon is 1 when the
    employee works a night shift of that date. *)
Lemma night_indicator_true (d : Data) (cs : list constraint) (v : valuation)
    (emp : string) (s : Shift) :
  hard_constraints d = inr cs -> solution v cs ->
  In emp (emp_ids d) -> In s (shifts d) -> is_night s = true ->
  v (X (shift_id s) emp) = true ->
  v (N_emp_date emp (shift_date s)) = true.
Proof.
  intros Hcs Hsol Hemp Hs Hn Hx.
  pose proof (part_indicator d cs (hard_constraints_parts d cs Hcs)) as Hincl.
  pose proof (night_shifts_by_date_in d s Hs Hn) as Hid.
  destruct (v (N_emp_date emp (shift_date s))) eqn:Hb; [reflexivity | exfalso].
  assert (Hc : In (Add (sum_of (xs_of emp (night_shifts_by_date d (shift_date s))))
                       EqC 0 [Not (N_emp_date emp (shift_date s))])
                  (night_indicator_constraints d)).
  { unfold night_indicator_constraints. apply in_flat_map. exists emp.
    split; [assumption |]. apply in_flat_map. exists (shift_date s).
    split; [apply date_in_dates_list; assumption |].
    destruct (night_shifts_by_date d (shift_date s)) as [| i r] eqn:E;
      [contradiction |]. right. left. reflexivity. }
  pose proof (solution_in v cs _ Hsol (Hincl _ Hc)) as Hh.
  cbn [holdsb forallb lit_holds implb cmp_holds andb] in Hh.
  rewrite Hb in Hh. cbn [negb implb andb] in Hh. apply Z.eqb_eq in Hh.
  rewrite eval_sum_of in Hh.
  assert (Hf : v (X (shift_id s) emp) = false).
  { apply (zsum_values_zero v _ Hh). unfold xs_of.
    apply in_map_iff. exists (shift_id s). split; [reflexivity | assumption]. }
  congruence.
Qed.

(** In a solution, the indicator of a date of the horizon is 0 when the
    employee works no night shift of that date. *)
Lemma night_indicator_false (d : Data) (cs : list constraint) (v : valuation)
    (emp : string) (day : date) :
  hard_constraints d = inr cs -> solution v cs ->
  In emp (emp_ids d) -> In day (dates_list d) ->
  (forall s, In s (shifts d) -> is_night s = true -> shift_date s = day ->
             v (X (shift_id s) emp) = false) ->
  v (N_emp_date emp day) = false.
Proof.
  intros Hcs Hsol Hemp Hday Hnone.
  pose proof (part_indicator d cs (hard_constraints_parts d cs Hcs)) as Hincl.
  destruct (night_shifts_by_date d day) as [| i r] eqn:E.
  - apply fix_zero_holds. apply (solution_in v cs _ Hsol). apply Hincl.
    unfold night_indicator_constraints. apply in_flat_map. exists emp.
    split; [assumption |]. apply in_flat_map. exists day.
    split; [assumption |]. rewrite E. left. reflexivity.
  - destruct (v (N_emp_date emp day)) eqn:Hb; [exfalso | reflexivity].
    assert (Hc : In (Add (sum_of (xs_of emp (night_shifts_by_date d day)))
                         Ge 1 [Lit (N_emp_date emp day)])
                    (night_indicator_constraints d)).
    { unfold night_indicator_constraints. apply in_flat_map. exists emp.
      split; [assumption |]. apply in_flat_map. exists day.
      split; [assumption |]. rewrite E. left. reflexivity. }
    pose proof (solution_in v cs _ Hsol (Hincl _ Hc)) as Hh.
    cbn [holdsb forallb lit_holds implb cmp_holds andb] in Hh.
    rewrite Hb in Hh. cbn [implb andb] in Hh. apply Z.leb_le in Hh.
    rewrite eval_sum_of in Hh.
    destruct (zsum_values_pos v _ Hh) as [x [Hx Hv]].
    unfold xs_of in Hx. apply in_map_iff in Hx. destruct Hx as [j [<- Hj]].
    destruct (in_night_shifts_by_date d day j Hj) as [s [Hs [Hn [Hd Hid]]]].
    subst j. rewrite (Hnone s Hs Hn Hd) in Hv. discriminate.
Qed.

(* ===================================================================== *)
(** ** The rest rule where it is enforced *)
(* ===================================================================== *)

(** X6.  After nights on three consecutive dates and none on the next date,
    the two dates that follow the block are free, provided the first of
    them is a date of the horizon. *)
Lemma rest_after_nights_in_horizon (d : Data) (cs : list constraint)
    (v : valuation) (emp : string) (day : date) (s0 s1 s2 : Shift) :
  hard_constraints d = inr cs -> solution v cs -> In emp (emp_ids d) ->
  In s0 (shifts d) -> is_night s0 = true -> shift_date s0 = day ->
  v (X (shift_id s0) emp) = true ->
  In s1 (shifts d) -> is_night s1 = true -> shift_date s1 = day + 1 ->
  v (X (shift_id s1) emp) = true ->
  In s2 (shifts d) -> is_night s2 = true -> shift_date s2 = day + 2 ->
  v (X (shift_id s2) emp) = true ->
  In (day + 2 + 1) (dates_list d) ->
  (forall s, In s (shifts d) -> is_night s = true -> shift_date s = day + 2 + 1 ->
             v (X (shift_id s) emp) = false) ->
  forall s, In s (shifts d) ->
            shift_date s = day + 2 + 1 \/ shift_date s = day + 2 + 2 ->
            v (X (shift_id s) emp) = false.
Proof.
  intros Hcs Hsol Hemp Hs0 Hn0 Hd0 Hx0 Hs1 Hn1 Hd1 Hx1 Hs2 Hn2 Hd2 Hx2 Hnext Hnone
         s Hs Hdate.
  pose proof (part_rest d cs (hard_constraints_parts d cs Hcs)) as Hincl.
  pose proof (night_indicator_true d cs v emp s0 Hcs Hsol Hemp Hs0 Hn0 Hx0) as B0.
  pose proof (night_indicator_true d cs v emp s1 Hcs Hsol Hemp Hs1 Hn1 Hx1) as B1.
  pose proof (night_indicator_true d cs v emp s2 Hcs Hsol Hemp Hs2 Hn2 Hx2) as B2.
  pose proof (night_indicator_false d cs v emp (day + 2 + 1) Hcs Hsol Hemp Hnext Hnone)
    as B3.
  rewrite Hd0 in B0. rewrite Hd1 in B1. rewrite Hd2 in B2.
  assert (Htri : In (day, day + 1, day + 2) (triples (dates_list d))).
  { apply triples_consecutive.
    - apply usort_Z_sorted.
    - rewrite <- Hd0. apply date_in_dates_list. assumption.
    - rewrite <- Hd1. apply date_in_dates_list. assumption.
    - rewrite <- Hd2. apply date_in_dates_list. assumption. }
  assert (Hc : In (Add (sum_of [X (shift_id s) emp]) EqC 0
                       [ Lit (N_emp_date emp day); Lit (N_emp_date emp (day + 1));
                         Lit (N_emp_date emp (day + 2));
                         Not (N_emp_date emp (day + 2 + 1)) ])
                  (rest_after_nights_constraints d)).
  { unfold rest_after_nights_constraints. apply in_flat_map. exists emp.
    split; [assumption |]. apply in_or_app. right.
    apply in_flat_map. exists (day, day + 1, day + 2). split; [assumption |].
    cbv beta iota zeta.
    rewrite (proj2 (in_Z_spec _ _) Hnext). cbn [negb].
    apply in_map_iff. exists (shift_id s). split; [reflexivity |].
    apply in_flat_map. exists (shift_date s). split.
    - apply filter_In. split.
      + destruct Hdate as [-> | ->]; [left; reflexivity | right; left; reflexivity].
      + apply in_Z_spec. apply date_in_dates_list. assumption.
    - apply shifts_by_date_in. assumption. }
  pose proof (solution_in v cs _ Hsol (Hincl _ Hc)) as Hh.
  cbn [holdsb forallb lit_holds] in Hh.
  rewrite B0, B1, B2, B3 in Hh. cbn [negb andb implb cmp_holds] in Hh.
  apply Z.eqb_eq in Hh. rewrite eval_sum_of in Hh.
  apply (zsum_values_zero v _ Hh). left. reflexivity.
Qed.

(** X7.  After a tail block of three or more nights in the previous roster,
    the two dates that follow its last night are free where they are
    dates of the horizon. *)
Lemma rest_after_prior_tail (d : Data) (cs : list constraint) (v : valuation)
    (emp : string) (k : Z) (s : Shift) :
  hard_constraints d = inr cs -> solution v cs -> In emp (emp_ids d) ->
  (3 <= List.length (get_last_consecutive_block_dates (prev_assignments d) emp true))%nat ->
  k = 1 \/ k = 2 ->
  In s (shifts d) ->
  shift_date s
  = last (get_last_consecutive_block_dates (prev_assignments d) emp true) 0 + k ->
  v (X (shift_id s) emp) = false.
Proof.
  intros Hcs Hsol Hemp Hlen Hk Hs Hdate.
  pose proof (part_rest d cs (hard_constraints_parts d cs Hcs)) as Hincl.
  apply fix_zero_holds. apply (solution_in v cs _ Hsol). apply Hincl.
  unfold rest_after_nights_constraints. apply in_flat_map. exists emp.
  split; [assumption |]. apply in_or_app. left.
  assert (Hle : (3 <=? Z.of_nat (List.length
                   (get_last_consecutive_block_dates (prev_assignments d) emp true)))
                = true) by (apply Z.leb_le; lia).
  rewrite Hle. apply in_flat_map. exists k. split.
  - destruct Hk as [-> | ->]; [left; reflexivity | right; left; reflexivity].
  - rewrite <- Hdate.
    rewrite (proj2 (in_Z_spec _ _) (date_in_dates_list d s Hs)).
    apply in_map_iff. exists (shift_id s). split; [reflexivity |].
    apply shifts_by_date_in. assumption.
Qed.

(* ===================================================================== *)
(** ** The model and the validator on the scenarios *)
(* ===================================================================== *)

(** C2.  Worker 1001 (cap 5) worked the night of the Sunday before the
    horizon, and the tail block the builder reads is that Sunday.  The
    constraints section 7.1 adds are the three listed: the one for the
    window from that Sunday to Friday bounds the five horizon nights by
    5 and leaves the Sunday night out.  The roster that gives the worker
    the nights of Monday to Friday satisfies them, and all hard
    constraints of sections 1 to 9 (the rules of section 10 are written
    for other worker ids, and [personal_rules] is empty).  With the tail
    night, the six consecutive dates from that Sunday hold six worked
    nights in the table extracted from the roster, and the validator,
    which looks at the horizon only, reports nothing on it. *)
Theorem consecutive_nights_tail_not_counted :
  exists (cs : list constraint) (rows : list AssignRow),
    max_consec_of "1001" = 5
    /\ get_last_consecutive_block_dates (prev_assignments Scenario.tail_data) "1001" true
       = [Scenario.monday - 1]
    /\ consecutive_nights_constraints Scenario.tail_data
       = [ Add (sum_of (xs_of "1001" [0; 1; 2; 3; 4]%nat)) Le 5 [];
           Add (sum_of (xs_of "1001" [0; 1; 2; 3; 4; 5]%nat)) Le 5 [];
           Add (sum_of (xs_of "1001" [1; 2; 3; 4; 5; 6]%nat)) Le 5 [] ]
    /\ map shift_date (shifts Scenario.tail_data)
       = map (fun k => Scenario.monday + k) [0; 1; 2; 3; 4; 5; 6]
    /\ hard_constraints Scenario.tail_data = inr cs
    /\ personal_rules Scenario.tail_data = inr []
    /\ solution Scenario.tail_solution cs
    /\ extract_assignments Scenario.tail_data Scenario.tail_solution = inr rows
    /\ nights_in_window Scenario.tail_data rows "1001" (Scenario.monday - 1) (5 + 1)
       = 6%nat
    /\ validation_errors Scenario.tail_data (dropna_employee_id rows) = inr [].
Proof.
  eexists. eexists.
  split; [reflexivity |].
  split; [vm_compute; reflexivity |].
  split; [vm_compute; reflexivity |].
  split; [vm_compute; reflexivity |].
  split; [vm_compute; reflexivity |].
  split; [vm_compute; reflexivity |].
  split; [apply solutionb_spec; vm_compute; reflexivity |].
  split; [vm_compute; reflexivity |].
  split; vm_compute; reflexivity.
Qed.

(** C3.  Nights are planned on Monday to Wednesday, nothing on Thursday
    and a day shift on Friday.  Thursday is not a date of the horizon,
    so section 7.2 adds no constraint at all for this data.  The roster
    in which worker 1001 works the three nights and the Friday shift,
    two days after the block's last night, satisfies the hard
    constraints of sections 1 to 9 (the rules of section 10 are written
    for other worker ids, and [personal_rules] is empty).  On the table
    extracted from that roster the validator's checks find a violation
    of the rest rule. *)
Theorem rest_after_nights_gap_day :
  exists (cs : list constraint) (rows : list AssignRow),
    dates_list Scenario.gap_data
    = [Scenario.monday; Scenario.monday + 1; Scenario.monday + 2; Scenario.monday + 4]
    /\ rest_after_nights_constraints Scenario.gap_data = []
    /\ hard_constraints Scenario.gap_data = inr cs
    /\ personal_rules Scenario.gap_data = inr []
    /\ solution Scenario.gap_solution cs
    /\ extract_assignments Scenario.gap_data Scenario.gap_solution = inr rows
    /\ works_night_on rows "1001" Scenario.monday = true
    /\ works_night_on rows "1001" (Scenario.monday + 1) = true
    /\ works_night_on rows "1001" (Scenario.monday + 2) = true
    /\ works_night_on rows "1001" (Scenario.monday + 3) = false
    /\ works_on rows "1001" (Scenario.monday + 2 + 2) = true
    /\ validation_errors Scenario.gap_data (dropna_employee_id rows)
       = inr [RestAfterNights "1001" [3%nat] Scenario.monday (Scenario.monday + 1)
                (Scenario.monday + 2)].
Proof.
  eexists. eexists.
  split; [vm_compute; reflexivity |].
  split; [vm_compute; reflexivity |].
  split; [vm_compute; reflexivity |].
  split; [vm_compute; reflexivity |].
  split; [apply solutionb_spec; vm_compute; reflexivity |].
  split; [vm_compute; reflexivity |].
  repeat split; vm_compute; reflexivity.
Qed.

(** C4.  With a horizon of eight weeks no 13-week window lies inside the
    horizon and section 7.3 adds no constraint.  The roster in which
    worker 1001 works the nights of Monday to Friday of every week, 40
    nights in the weeks 1 to 13, satisfies the hard constraints of
    sections 1 to 9 (the rules of section 10 are written for other
    worker ids, and [personal_rules] is empty).  On the table extracted
    from that roster the validator reports nothing. *)
Theorem night_cap_partial_window :
  exists (cs : list constraint) (rows : list AssignRow),
    weeks Scenario.eight_weeks_data = [1; 2; 3; 4; 5; 6; 7; 8]
    /\ night_cap_constraints Scenario.eight_weeks_data = inr []
    /\ hard_constraints Scenario.eight_weeks_data = inr cs
    /\ personal_rules Scenario.eight_weeks_data = inr []
    /\ solution Scenario.eight_weeks_solution cs
    /\ extract_assignments Scenario.eight_weeks_data Scenario.eight_weeks_solution
       = inr rows
    /\ nights_in_weeks rows "1001" 1 = 40%nat
    /\ validation_errors Scenario.eight_weeks_data (dropna_employee_id rows) = inr [].
Proof.
  eexists. eexists.
  split; [vm_compute; reflexivity |].
  split; [vm_compute; reflexivity |].
  split; [vm_compute; reflexivity |].
  split; [vm_compute; reflexivity |].
  split; [apply solutionb_spec; vm_compute; reflexivity |].
  split; [vm_compute; reflexivity |].
  split; vm_compute; reflexivity.
Qed.

(** C5.  [validate_auto_rooster] never returns a list: whatever the
    checks found, its value is [None].  So whenever the solver entry
    point returns a roster and the checks run through, the request
    handler answers with a success, 200, whatever the checks found.  On
    the table extracted from the roster of the gap scenario the checks
    find a violation of the rest rule, and the value of the function on
    that table is [None]. *)
Theorem validator_returns_no_list :
  (forall (data : Data) (result : Result),
      validate_auto_rooster data result = inr None
      \/ exists e, validate_auto_rooster data result = inl e)
  /\ (forall (auto_rooster : Data -> py (option Result)) (data : Data)
             (res : Result) (errs : list Violation),
         auto_rooster data = inr (Some res) ->
         validation_errors data (dropna_employee_id (assignments_df res)) = inr errs ->
         generate_schedule auto_rooster data
         = mkResponse (BodySuccess (stats_of data (assignments_df res))) 200)
  /\ exists rows : list AssignRow,
       extract_assignments Scenario.gap_data Scenario.gap_solution = inr rows
       /\ validation_errors Scenario.gap_data (dropna_employee_id rows)
          = inr [RestAfterNights "1001" [3%nat] Scenario.monday (Scenario.monday + 1)
                   (Scenario.monday + 2)]
       /\ validate_auto_rooster Scenario.gap_data
            (mkResult rows (uncovered_of rows) OPTIMAL) = inr None
       /\ generate_schedule
            (fun _ => inr (Some (mkResult rows (uncovered_of rows) OPTIMAL)))
            Scenario.gap_data
          = mkResponse (BodySuccess (stats_of Scenario.gap_data rows)) 200.
Proof.
  split; [| split].
  - intros data result. unfold validate_auto_rooster.
    destruct (validation_errors data (dropna_employee_id (assignments_df result)));
      simpl; [right; eexists; reflexivity | left; reflexivity].
  - intros auto_rooster data res errs Hrun Herrs.
    unfold generate_schedule, schedule_body. rewrite Hrun.
    cbn [bind subscript_assignments_df ret]. unfold validate_auto_rooster.
    rewrite Herrs. reflexivity.
  - eexists. split; [vm_compute; reflexivity |].
    repeat split; vm_compute; reflexivity.
Qed.

(** C6.  Worker 1002 is exactly 55 and has 'niet' in both night-policy
    columns.  The model forbids the worker the night shift; on the table
    that gives the worker that shift the validator's age check, and the
    validator as a whole, report nothing. *)
Theorem age_threshold_differs :
  age_constraints Scenario.age_data = inr [fix_zero (X 0%nat "1002")]
  /\ holdsb Scenario.age_assignment (fix_zero (X 0%nat "1002")) = false
  /\ extract_assignments Scenario.age_data Scenario.age_assignment
     = inr Scenario.age_rows
  /\ check_age Scenario.age_data Scenario.age_rows = inr []
  /\ validation_errors Scenario.age_data Scenario.age_rows = inr [].
Proof.
  repeat split; vm_compute; reflexivity.
Qed.

(** C7.  When the solver ends with a status other than OPTIMAL or
    FEASIBLE, the solver function returns [None] or raises, and the
    request handler answers 500 with the text of an exception; when the
    function returned [None] that text is the TypeError raised by
    subscripting [None]. *)
Theorem failure_surfaces_as_exception :
  forall (d : Data) (st : status) (v : valuation),
    is_success st = false ->
    (forall res, auto_rooster_standardized d st v <> inr (Some res))
    /\ (exists msg,
           generate_schedule (fun data => auto_rooster_standardized data st v) d
           = mkResponse (BodyError msg) 500)
    /\ (auto_rooster_standardized d st v = inr None ->
        generate_schedule (fun data => auto_rooster_standardized data st v) d
        = mkResponse (BodyError "'NoneType' object is not subscriptable") 500).
Proof.
  intros d st v Hst.
  assert (Hcases : auto_rooster_standardized d st v = inr None
                   \/ exists e, auto_rooster_standardized d st v = inl e).
  { unfold auto_rooster_standardized. rewrite Hst.
    destruct (weeks d); simpl; [right; eexists; reflexivity |].
    destruct (hard_constraints d); simpl; [right; eexists; reflexivity |].
    destruct (for_each (pattern_check d) (emp_ids d)); simpl;
      [right; eexists; reflexivity | left; reflexivity]. }
  split; [| split].
  - intros res Hc. destruct Hcases as [H | [e H]]; rewrite H in Hc; discriminate.
  - unfold generate_schedule, schedule_body.
    destruct Hcases as [H | [e H]]; rewrite H; simpl; eexists; reflexivity.
  - intros H. unfold generate_schedule, schedule_body. rewrite H. reflexivity.
Qed.

(** The week of nights with an empty pool and an infeasible outcome. *)
Lemma failure_surfaces_as_exception_witness :
  is_success INFEASIBLE = false
  /\ auto_rooster_standardized Cases.nobody_data INFEASIBLE Scenario.all_uncovered
     = inr None
  /\ generate_schedule
       (fun data => auto_rooster_standardized data INFEASIBLE Scenario.all_uncovered)
       Cases.nobody_data
     = mkResponse (BodyError "'NoneType' object is not subscriptable") 500.
Proof.
  split; [reflexivity |].
  assert (H : auto_rooster_standardized Cases.nobody_data INFEASIBLE
                Scenario.all_uncovered = inr None) by (vm_compute; reflexivity).
  split; [exact H |].
  exact (proj2 (proj2 (failure_surfaces_as_exception Cases.nobody_data INFEASIBLE
                         Scenario.all_uncovered eq_refl)) H).
Defined.

(* ===================================================================== *)
(** * Further properties *)
(* ===================================================================== *)

(* ===================================================================== *)
(** ** The sections of a built model *)
(* ===================================================================== *)

Lemma for_each_inr_in {A B} (body : A -> py (list B)) (l : list A) (ys : list B) :
  for_each body l = inr ys ->
  forall y, In y ys -> exists a xs, In a l /\ body a = inr xs /\ In y xs.
Proof.
  revert ys. induction l as [| a0 r IH]; intros ys H y Hin.
  - injection H as <-. contradiction.
  - simpl in H. apply bind_inr in H. destruct H as [xs0 [Hx H]].
    apply bind_inr in H. destruct H as [ys0 [Hy H]]. injection H as <-.
    apply in_app_or in Hin. destruct Hin as [Hin | Hin].
    + exists a0, xs0. split; [left; reflexivity | split; assumption].
    + destruct (IH _ Hy _ Hin) as [b [xs [Hb [He Hi]]]].
      exists b, xs. split; [right; assumption | split; assumption].
Qed.

(** The model is the concatenation of its thirteen sections. *)
Lemma hard_constraints_sections (d : Data) (cs : list constraint) :
  hard_constraints d = inr cs ->
  exists c3 c4 c5 c6 c73 c74 c8 c9,
    after_night_constraints d = inr c3
    /\ max_days_constraints d = inr c4
    /\ contract_constraints d = inr c5
    /\ unavailability_constraints d = inr c6
    /\ night_cap_constraints d = inr c73
    /\ age_constraints d = inr c74
    /\ qualification_constraints d = inr c8
    /\ night_policy_constraints d = inr c9
    /\ cs = night_indicator_constraints d ++ coverage_constraints d
            ++ one_shift_per_day_constraints d ++ c3 ++ c4 ++ c5 ++ c6
            ++ consecutive_nights_constraints d ++ rest_after_nights_constraints d
            ++ c73 ++ c74 ++ c8 ++ c9.
Proof.
  unfold hard_constraints. intros H.
  apply bind_inr in H. destruct H as [c3 [H3 H]].
  apply bind_inr in H. destruct H as [c4 [H4 H]].
  apply bind_inr in H. destruct H as [c5 [H5 H]].
  apply bind_inr in H. destruct H as [c6 [H6 H]].
  apply bind_inr in H. destruct H as [c73 [H73 H]].
  apply bind_inr in H. destruct H as [c74 [H74 H]].
  apply bind_inr in H. destruct H as [c8 [H8 H]].
  apply bind_inr in H. destruct H as [c9 [H9 H]].
  injection H as <-.
  exists c3, c4, c5, c6, c73, c74, c8, c9. repeat split; assumption.
Qed.

(** Membership in a list that computes. *)
Ltac in_list := vm_compute; repeat first [left; reflexivity | right].

(** Membership in a model from membership in one of its sections. *)
Ltac in_section :=
  repeat first [ assumption
               | apply in_or_app; left; assumption
               | apply in_or_app; right ].

Lemma in_unique_Z (x : Z) (l : list Z) : In x (unique_Z l) <-> In x l.
Proof.
  induction l as [| a r IH]; simpl; [tauto |]. split.
  - intros [-> | H]; [left; reflexivity |].
    apply filter_In in H. right. apply IH. tauto.
  - intros [-> | H]; [left; reflexivity |].
    destruct (Z.eq_dec a x) as [E | E]; [left; assumption | right].
    apply filter_In. split; [apply IH; assumption |].
    apply negb_true_iff. apply Z.eqb_neq. assumption.
Qed.

Lemma shift_id_injective (l : list Shift) (a b : Shift) :
  NoDup (map shift_id l) -> In a l -> In b l -> shift_id a = shift_id b -> a = b.
Proof.
  intros Hnd Ha Hb E.
  pose proof (filter_shift_id_unique l a Hnd Ha) as Fa.
  pose proof (filter_shift_id_unique l b Hnd Hb) as Fb.
  rewrite E in Fa. rewrite Fa in Fb. injection Fb as ->. reflexivity.
Qed.

Lemma filter_length_le {A} (f : A -> bool) (l : list A) :
  (List.length (filter f l) <= List.length l)%nat.
Proof.
  induction l as [| a r IH]; simpl; [lia |]. destruct (f a); simpl; lia.
Qed.

Lemma zsum_cons (a : Z) (l : list Z) : zsum (a :: l) = a + zsum l.
Proof. reflexivity. Qed.

Lemma in_xs_of (emp : string) (ids : list nat) (i : nat) :
  In i ids -> In (X i emp) (xs_of emp ids).
Proof.
  intros H. unfold xs_of. apply in_map_iff. exists i. split; [reflexivity | assumption].
Qed.

(** Among Boolean variables whose values sum to at most one, at most one
    is true. *)
Lemma zsum_values_two (v : valuation) (vs : list var) (a b : var) :
  zsum (map (value v) vs) <= 1 ->
  In a vs -> In b vs -> a <> b -> v a = true -> v b = false.
Proof.
  intros Hle Ha Hb Hne Hva.
  pose proof (zsum_map_ge_two _ (value v) (fun x => proj1 (value_range v x))
                vs a b Ha Hb Hne) as Hge.
  apply value_true in Hva. apply value_false.
  pose proof (value_range v b). lia.
Qed.

(* ===================================================================== *)
(** ** What the hard constraints mean for a solution *)
(* ===================================================================== *)

(** The at-most-one constraint of a worker and a date. *)
Lemma model_at_most_one (d : Data) (cs : list constraint) (v : valuation)
    (emp : string) (day : date) :
  hard_constraints d = inr cs -> solution v cs -> In emp (emp_ids d) ->
  zsum (map (value v) (xs_of emp (shifts_by_date d day))) <= 1.
Proof.
  intros Hcs Hsol Hemp.
  pose proof (part_one_shift d cs (hard_constraints_parts d cs Hcs)) as Hincl.
  destruct (shifts_by_date d day) as [| a l] eqn:E; [simpl; lia |].
  assert (Hc : In (AddAtMostOne (xs_of emp (shifts_by_date d day)))
                  (one_shift_per_day_constraints d)).
  { unfold one_shift_per_day_constraints. apply in_flat_map. exists emp.
    split; [assumption |]. apply in_flat_map. exists day. split.
    - unfold shifts_by_date_keys. apply in_unique_Z.
      assert (Ha : In a (shifts_by_date d day)) by (rewrite E; left; reflexivity).
      unfold shifts_by_date in Ha. apply in_map_iff in Ha.
      destruct Ha as [s [_ Hs]]. apply filter_In in Hs. destruct Hs as [Hs Hday].
      apply Z.eqb_eq in Hday. rewrite <- Hday. apply in_map. assumption.
    - rewrite E. left. reflexivity. }
  pose proof (solution_in v cs _ Hsol (Hincl _ Hc)) as Hh.
  cbn [holdsb] in Hh. apply Z.leb_le in Hh. rewrite E in Hh. exact Hh.
Qed.

(** X1.  Section 2.  In a solution no worker has two shifts of one date. *)
Theorem one_shift_per_date :
  forall (d : Data) (cs : list constraint) (v : valuation) (emp : string)
         (s1 s2 : Shift),
    hard_constraints d = inr cs ->
    solution v cs ->
    In emp (emp_ids d) ->
    In s1 (shifts d) -> In s2 (shifts d) ->
    shift_id s1 <> shift_id s2 ->
    shift_date s1 = shift_date s2 ->
    v (X (shift_id s1) emp) = true ->
    v (X (shift_id s2) emp) = false.
Proof.
  intros d cs v emp s1 s2 Hcs Hsol Hemp H1 H2 Hne Hdate Hv.
  pose proof (model_at_most_one d cs v emp (shift_date s1) Hcs Hsol Hemp) as Hh.
  apply (zsum_values_two v _ (X (shift_id s1) emp) (X (shift_id s2) emp) Hh).
  - apply in_xs_of. apply shifts_by_date_in. assumption.
  - apply in_xs_of. rewrite Hdate. apply shifts_by_date_in. assumption.
  - intros E. injection E as E. contradiction.
  - assumption.
Qed.

Lemma one_shift_per_date_witness :
  Cases.mixed_solution (X 0%nat "1001") = true
  /\ Cases.mixed_solution (X (shift_id (Cases.mixed_shift 7)) "1001") = false.
Proof.
  split; [reflexivity |].
  apply (one_shift_per_date Cases.mixed_data Cases.mixed_model Cases.mixed_solution
           "1001" (Cases.mixed_shift 0) (Cases.mixed_shift 7)).
  - vm_compute. reflexivity.
  - apply solutionb_spec. vm_compute. reflexivity.
  - in_list.
  - in_list.
  - in_list.
  - vm_compute. discriminate.
  - vm_compute. reflexivity.
  - vm_compute. reflexivity.
Defined.

(** X2.  Section 3.  When a date has exactly one night shift, the worker who
    takes it has no day or evening shift on the next date. *)
Theorem no_day_shift_after_single_night :
  forall (d : Data) (cs : list constraint) (v : valuation) (emp : string)
         (n s' : Shift),
    NoDup (map shift_id (shifts d)) ->
    hard_constraints d = inr cs ->
    solution v cs ->
    In emp (emp_ids d) ->
    In n (shifts d) -> is_night n = true ->
    night_shifts_by_date d (shift_date n) = [shift_id n] ->
    In s' (shifts d) -> is_night s' = false ->
    shift_date s' = shift_date n + 1 ->
    v (X (shift_id n) emp) = true ->
    v (X (shift_id s') emp) = false.
Proof.
  intros d cs v emp n s' Hnd Hcs Hsol Hemp Hn Hnight Hone Hs' Hday Hnext Hv.
  destruct (hard_constraints_sections d cs Hcs)
    as (c3 & c4 & c5 & c6 & c73 & c74 & c8 & c9
        & H3 & H4 & H5 & H6 & H73 & H74 & H8 & H9 & ->).
  destruct (for_each_inr_incl _ _ _ H3 emp Hemp) as [ce [He Hie]].
  destruct (for_each_inr_incl _ _ _ He (shift_date n) (date_in_dates_list d n Hn))
    as [cd [Hd Hid]].
  pose proof (shifts_by_date_in d s' Hs') as Hin. rewrite Hnext in Hin.
  cbv zeta in Hd. rewrite Hone in Hd.
  destruct (shifts_by_date d (shift_date n + 1)) as [| a l] eqn:E; [contradiction |].
  apply bind_inr in Hd. destruct Hd as [non_night [Hnn Hd]].
  destruct (for_each_inr_incl _ _ _ Hnn (shift_id s') Hin) as [xs [Hx Hix]].
  rewrite (shift_loc_unique d s' is_night Hnd Hs'), Hday in Hx.
  simpl in Hx. injection Hx as <-.
  assert (Hmem : In (shift_id s') non_night) by (apply Hix; left; reflexivity).
  destruct non_night as [| b r]; [contradiction |].
  injection Hd as <-.
  assert (Hc : holdsb v (Add (sum_of (xs_of emp [shift_id n] ++ xs_of emp (b :: r)))
                           Le (Z.of_nat (List.length [shift_id n])) []) = true).
  { assert (Hm3 : In (Add (sum_of (xs_of emp [shift_id n] ++ xs_of emp (b :: r)))
                           Le (Z.of_nat (List.length [shift_id n])) []) c3)
      by (apply Hie; apply Hid; left; reflexivity).
    apply (solution_in v _ _ Hsol). in_section. }
  cbn [holdsb forallb implb cmp_holds] in Hc. rewrite eval_sum_of in Hc.
  apply Z.leb_le in Hc. change (Z.of_nat (List.length [shift_id n])) with 1 in Hc.
  apply (zsum_values_two v _ (X (shift_id n) emp) (X (shift_id s') emp) Hc).
  - apply in_or_app. left. left. reflexivity.
  - apply in_or_app. right. apply in_xs_of. assumption.
  - intros Heq. injection Heq as Heq.
    pose proof (shift_id_injective _ n s' Hnd Hn Hs' Heq) as ->. congruence.
  - assumption.
Qed.

Lemma no_day_shift_after_single_night_witness :
  Cases.mixed_solution (X (shift_id (Cases.mixed_shift 8)) "1001") = false.
Proof.
  apply (no_day_shift_after_single_night Cases.mixed_data Cases.mixed_model
           Cases.mixed_solution "1001" (Cases.mixed_shift 0) (Cases.mixed_shift 8)).
  - apply preprocessed_ids_distinct.
  - vm_compute. reflexivity.
  - apply solutionb_spec. vm_compute. reflexivity.
  - in_list.
  - in_list.
  - reflexivity.
  - vm_compute. reflexivity.
  - in_list.
  - reflexivity.
  - vm_compute. reflexivity.
  - reflexivity.
Defined.

Lemma unique_Z_length (l : list Z) :
  (List.length (unique_Z l) <= List.length l)%nat.
Proof.
  induction l as [| a r IH]; simpl; [lia |].
  pose proof (filter_length_le (fun b => negb (a =? b)) (unique_Z r)). lia.
Qed.

(** The values of a worker's variables over a list of shifts sum to the
    number of those shifts the worker is assigned. *)
Lemma zsum_values_count (v : valuation) (emp : string) (l : list Shift) :
  zsum (map (value v) (xs_of emp (map shift_id l)))
  = Z.of_nat (List.length (filter (fun s => v (X (shift_id s) emp)) l)).
Proof.
  induction l as [| a r IH]; [reflexivity |].
  change (zsum (map (value v) (xs_of emp (map shift_id (a :: r)))))
    with (value v (X (shift_id a) emp)
          + zsum (map (value v) (xs_of emp (map shift_id r)))).
  rewrite IH. cbn [filter]. unfold value.
  destruct (v (X (shift_id a) emp)); cbn [Z.b2z List.length]; lia.
Qed.

(** The weekly constraint of a worker, as a count of assigned shifts. *)
Lemma model_week_cap (d : Data) (cs : list constraint) (v : valuation)
    (emp : string) (m w : Z) :
  hard_constraints d = inr cs -> solution v cs -> In emp (emp_ids d) ->
  worker_loc d emp max_days_per_week = inr m ->
  In w (weeks d) ->
  Z.of_nat (List.length (filter (fun s => v (X (shift_id s) emp))
                           (filter (fun r => week r =? w) (shifts d)))) <= m.
Proof.
  intros Hcs Hsol Hemp Hm Hw.
  destruct (hard_constraints_sections d cs Hcs)
    as (c3 & c4 & c5 & c6 & c73 & c74 & c8 & c9
        & H3 & H4 & H5 & H6 & H73 & H74 & H8 & H9 & ->).
  destruct (for_each_inr_incl _ _ _ H4 emp Hemp) as [ce [He Hie]].
  cbv beta in He. rewrite Hm in He. simpl in He. injection He as <-.
  rewrite <- zsum_values_count.
  assert (Hne : exists a l, shifts_by_week d w = a :: l).
  { unfold weeks in Hw. apply (proj1 (in_usort_Z _ _)) in Hw. apply in_map_iff in Hw.
    destruct Hw as [s [Hs Hin]].
    assert (Hm' : In (shift_id s) (shifts_by_week d w)).
    { unfold shifts_by_week. apply in_map. apply filter_In. split; [assumption |].
      apply Z.eqb_eq. assumption. }
    destruct (shifts_by_week d w) as [| a l]; [contradiction |]. eauto. }
  destruct Hne as [a [l Hl]].
  assert (Hc : holdsb v (Add (sum_of (xs_of emp (shifts_by_week d w))) Le m []) = true).
  { assert (Hm4 : In (Add (sum_of (xs_of emp (shifts_by_week d w))) Le m []) c4).
    { apply Hie. apply in_flat_map. exists w. split; [assumption |].
      rewrite Hl. left. reflexivity. }
    apply (solution_in v _ _ Hsol). in_section. }
  cbn [holdsb forallb implb cmp_holds] in Hc. rewrite eval_sum_of in Hc.
  apply Z.leb_le in Hc. exact Hc.
Qed.

(** X3.  Section 4.  In a solution a worker has at most [max_days_per_week]
    shifts in each week of the horizon, and so works on at most that
    many dates of the week. *)
Theorem weekly_shift_cap :
  forall (d : Data) (cs : list constraint) (v : valuation) (emp : string)
         (m w : Z),
    hard_constraints d = inr cs ->
    solution v cs ->
    In emp (emp_ids d) ->
    worker_loc d emp max_days_per_week = inr m ->
    In w (weeks d) ->
    let assigned := filter (fun s => v (X (shift_id s) emp))
                      (filter (fun r => week r =? w) (shifts d)) in
    Z.of_nat (List.length assigned) <= m
    /\ Z.of_nat (List.length (unique_Z (map shift_date assigned))) <= m.
Proof.
  intros d cs v emp m w Hcs Hsol Hemp Hm Hw assigned.
  pose proof (model_week_cap d cs v emp m w Hcs Hsol Hemp Hm Hw) as Hcap.
  fold assigned in Hcap. split; [exact Hcap |].
  pose proof (unique_Z_length (map shift_date assigned)) as Hu.
  rewrite length_map in Hu. lia.
Qed.

Lemma weekly_shift_cap_witness :
  let assigned := filter (fun s => Cases.mixed_solution (X (shift_id s) "1001"))
                    (filter (fun r => week r =? 1) (shifts Cases.mixed_data)) in
  Z.of_nat (List.length assigned) <= 5
  /\ Z.of_nat (List.length (unique_Z (map shift_date assigned))) <= 5.
Proof.
  apply (weekly_shift_cap Cases.mixed_data Cases.mixed_model Cases.mixed_solution
           "1001" 5 1).
  - vm_compute. reflexivity.
  - apply solutionb_spec. vm_compute. reflexivity.
  - in_list.
  - vm_compute. reflexivity.
  - in_list.
Defined.

Lemma dur_min_unique (d : Data) (s : Shift) :
  NoDup (map shift_id (shifts d)) -> In s (shifts d) ->
  dur_min d (shift_id s) = inr (duration_min s).
Proof.
  intros Hnd Hs. unfold dur_min.
  rewrite (filter_shift_id_unique _ s Hnd Hs). reflexivity.
Qed.

Lemma contract_terms (d : Data) (emp : string) (l : list Shift)
    (ts : list (Z * var)) :
  (forall s, In s l -> dur_min d (shift_id s) = inr (duration_min s)) ->
  for_each (fun s => m <- dur_min d s ;; ret [(m, X s emp)]) (map shift_id l) = inr ts ->
  ts = map (fun s => (duration_min s, X (shift_id s) emp)) l.
Proof.
  revert ts. induction l as [| a r IH]; intros ts Hd H.
  - injection H as <-. reflexivity.
  - simpl in H. rewrite (Hd a (or_introl eq_refl)) in H. simpl in H.
    apply bind_inr in H. destruct H as [ys [Hy H]]. injection H as <-.
    rewrite (IH ys (fun s Hs => Hd s (or_intror Hs)) Hy). reflexivity.
Qed.

Lemma weighted_sum_filter (v : valuation) (emp : string) (l : list Shift) :
  zsum (map (fun t : Z * var => fst t * value v (snd t))
          (map (fun s => (duration_min s, X (shift_id s) emp)) l))
  = zsum (map duration_min (filter (fun s => v (X (shift_id s) emp)) l)).
Proof.
  induction l as [| a r IH]; [reflexivity |].
  rewrite !map_cons, zsum_cons, IH. cbn [filter fst snd]. unfold value.
  destruct (v (X (shift_id a) emp)); rewrite ?map_cons, ?zsum_cons; cbn [Z.b2z]; lia.
Qed.

(** The contract constraint of a worker holds in a solution. *)
Lemma model_contract_constraint (d : Data) (cs : list constraint) (v : valuation)
    (emp : string) (cap : Z) :
  NoDup (map shift_id (shifts d)) ->
  hard_constraints d = inr cs -> solution v cs -> In emp (emp_ids d) ->
  worker_loc d emp contract_minutes = inr cap ->
  holdsb v (Add (mkLin (map (fun s => (duration_min s, X (shift_id s) emp))
                          (shifts d)) 0)
              Le (cap * Z.of_nat (List.length (weeks d))) []) = true.
Proof.
  intros Hnd Hcs Hsol Hemp Hcap.
  destruct (hard_constraints_sections d cs Hcs)
    as (c3 & c4 & c5 & c6 & c73 & c74 & c8 & c9
        & H3 & H4 & H5 & H6 & H73 & H74 & H8 & H9 & ->).
  destruct (for_each_inr_incl _ _ _ H5 emp Hemp) as [ce [He Hie]].
  cbv beta in He. rewrite Hcap in He. cbn [bind] in He.
  apply bind_inr in He. destruct He as [ts [Hts He]]. injection He as <-.
  apply contract_terms in Hts;
    [| intros s Hs; apply dur_min_unique; assumption ].
  subst ts.
  assert (Hm5 : In (Add (mkLin (map (fun s => (duration_min s, X (shift_id s) emp))
                                  (shifts d)) 0)
                      Le (cap * Z.of_nat (List.length (weeks d))) []) c5)
    by (apply Hie; left; reflexivity).
  apply (solution_in v _ _ Hsol). in_section.
Qed.

(** X4.  Section 5.  In a solution the minutes of a worker's shifts sum to at
    most the contract minutes times the number of weeks of the horizon. *)
Theorem contract_budget :
  forall (d : Data) (cs : list constraint) (v : valuation) (emp : string)
         (cap : Z),
    NoDup (map shift_id (shifts d)) ->
    hard_constraints d = inr cs ->
    solution v cs ->
    In emp (emp_ids d) ->
    worker_loc d emp contract_minutes = inr cap ->
    zsum (map duration_min (filter (fun s => v (X (shift_id s) emp)) (shifts d)))
    <= cap * Z.of_nat (List.length (weeks d)).
Proof.
  intros d cs v emp cap Hnd Hcs Hsol Hemp Hcap.
  pose proof (model_contract_constraint d cs v emp cap Hnd Hcs Hsol Hemp Hcap) as Hc.
  cbn [holdsb forallb implb cmp_holds] in Hc. apply Z.leb_le in Hc.
  unfold eval in Hc. cbn [terms offset] in Hc.
  rewrite weighted_sum_filter in Hc. lia.
Qed.

Lemma contract_budget_witness :
  zsum (map duration_min
          (filter (fun s => Cases.mixed_solution (X (shift_id s) "1001"))
             (shifts Cases.mixed_data)))
  <= 2400 * Z.of_nat (List.length (weeks Cases.mixed_data)).
Proof.
  apply (contract_budget Cases.mixed_data Cases.mixed_model Cases.mixed_solution
           "1001" 2400).
  - apply preprocessed_ids_distinct.
  - vm_compute. reflexivity.
  - apply solutionb_spec. vm_compute. reflexivity.
  - in_list.
  - vm_compute. reflexivity.
Defined.

Lemma in_night_shifts (d : Data) (s : Shift) :
  In s (shifts d) -> is_night s = true -> In (shift_id s) (night_shifts d).
Proof.
  intros Hs Hn. unfold night_shifts. apply in_map. apply filter_In. tauto.
Qed.

Lemma night_shifts_night (d : Data) (s : Shift) :
  NoDup (map shift_id (shifts d)) -> In s (shifts d) ->
  In (shift_id s) (night_shifts d) -> is_night s = true.
Proof.
  intros Hnd Hs Hin. unfold night_shifts in Hin. apply in_map_iff in Hin.
  destruct Hin as [s' [Hid Hs']]. apply filter_In in Hs'. destruct Hs' as [Hs' Hn].
  rewrite <- (shift_id_injective _ s' s Hnd Hs' Hs Hid). assumption.
Qed.

(** X9.  Section 7.4.  In a solution a worker of 55 or older who is not among
    the exempt takes no night shift. *)
Theorem no_nights_from_55 :
  forall (d : Data) (cs : list constraint) (v : valuation) (emp : string)
         (age : Z) (s : Shift),
    hard_constraints d = inr cs ->
    solution v cs ->
    In emp (emp_ids d) ->
    in_str emp (CAO_7_4_exempt d) = false ->
    worker_loc d emp leeftijd = inr age ->
    55 <= age ->
    In s (shifts d) -> is_night s = true ->
    v (X (shift_id s) emp) = false.
Proof.
  intros d cs v emp age s Hcs Hsol Hemp Hex Hage Hle Hs Hn.
  destruct (hard_constraints_sections d cs Hcs)
    as (c3 & c4 & c5 & c6 & c73 & c74 & c8 & c9
        & H3 & H4 & H5 & H6 & H73 & H74 & H8 & H9 & ->).
  destruct (for_each_inr_incl _ _ _ H74 emp Hemp) as [ce [He Hie]].
  cbv beta in He. rewrite Hex, Hage in He. cbn [bind] in He.
  apply Z.leb_le in Hle. rewrite Hle in He. injection He as <-.
  assert (Hm : In (fix_zero (X (shift_id s) emp)) c74).
  { apply Hie. apply in_map_iff. exists (shift_id s).
    split; [reflexivity | apply in_night_shifts; assumption]. }
  apply fix_zero_holds. apply (solution_in v _ _ Hsol). in_section.
Qed.

Lemma no_nights_from_55_witness :
  Cases.mixed_solution (X (shift_id (Cases.mixed_shift 3)) "1002") = false.
Proof.
  apply (no_nights_from_55 Cases.mixed_data Cases.mixed_model Cases.mixed_solution
           "1002" 55 (Cases.mixed_shift 3)).
  - vm_compute. reflexivity.
  - apply solutionb_spec. vm_compute. reflexivity.
  - in_list.
  - vm_compute. reflexivity.
  - vm_compute. reflexivity.
  - lia.
  - in_list.
  - reflexivity.
Defined.

(** X10.  Section 8.  In a solution the lowest qualification level of the
    worker assigned to a shift is at most the lowest level the shift
    asks for. *)
Theorem qualification_respected :
  forall (d : Data) (cs : list constraint) (v : valuation) (emp : string)
         (s : Shift) (req lvl : Z) (levels : list Z),
    hard_constraints d = inr cs ->
    solution v cs ->
    In emp (emp_ids d) ->
    In s (shifts d) ->
    py_min (qualification s) = inr req ->
    worker_loc d emp deskundigheid = inr levels ->
    py_min levels = inr lvl ->
    v (X (shift_id s) emp) = true ->
    lvl <= req.
Proof.
  intros d cs v emp s req lvl levels Hcs Hsol Hemp Hs Hreq Hlv Hmin Hv.
  destruct (hard_constraints_sections d cs Hcs)
    as (c3 & c4 & c5 & c6 & c73 & c74 & c8 & c9
        & H3 & H4 & H5 & H6 & H73 & H74 & H8 & H9 & ->).
  destruct (for_each_inr_incl _ _ _ H8 s Hs) as [ce [He Hie]].
  cbv beta in He. rewrite Hreq in He. cbn [bind] in He.
  destruct (for_each_inr_incl _ _ _ He emp Hemp) as [cw [Hw Hiw]].
  cbv beta in Hw. rewrite Hlv in Hw. cbn [bind] in Hw.
  rewrite Hmin in Hw. cbn [bind] in Hw.
  destruct (req <? lvl) eqn:E; [| apply Z.ltb_ge in E; assumption ].
  injection Hw as <-.
  assert (Hm : In (fix_zero (X (shift_id s) emp)) c8).
  { apply Hie. apply Hiw. left. reflexivity. }
  assert (Hz : v (X (shift_id s) emp) = false).
  { apply fix_zero_holds. apply (solution_in v _ _ Hsol). in_section. }
  congruence.
Qed.

Lemma qualification_respected_witness : 3 <= 3.
Proof.
  apply (qualification_respected Cases.mixed_data Cases.mixed_model
           Cases.mixed_solution "1001" (Cases.mixed_shift 9) 3 3 [3]).
  - vm_compute. reflexivity.
  - apply solutionb_spec. vm_compute. reflexivity.
  - in_list.
  - in_list.
  - vm_compute. reflexivity.
  - vm_compute. reflexivity.
  - vm_compute. reflexivity.
  - reflexivity.
Defined.

(** X11.  Section 9.  In a solution a worker whose [nachten] is 'Niet' has no
    night shift, and one whose [nachten] is 'uitsluitend' has night
    shifts only. *)
Theorem night_policy_respected :
  forall (d : Data) (cs : list constraint) (v : valuation) (emp : string)
         (policy : string) (s : Shift),
    NoDup (map shift_id (shifts d)) ->
    hard_constraints d = inr cs ->
    solution v cs ->
    In emp (emp_ids d) ->
    worker_loc d emp nachten = inr policy ->
    In s (shifts d) ->
    v (X (shift_id s) emp) = true ->
    (policy = "Niet" -> is_night s = false)
    /\ (policy = "uitsluitend" -> is_night s = true).
Proof.
  intros d cs v emp policy s Hnd Hcs Hsol Hemp Hpol Hs Hv.
  destruct (hard_constraints_sections d cs Hcs)
    as (c3 & c4 & c5 & c6 & c73 & c74 & c8 & c9
        & H3 & H4 & H5 & H6 & H73 & H74 & H8 & H9 & ->).
  destruct (for_each_inr_incl _ _ _ H9 emp Hemp) as [ce [He Hie]].
  cbv beta in He. rewrite Hpol in He. cbn [bind] in He.
  assert (Hfix : In (fix_zero (X (shift_id s) emp)) c9 -> False).
  { intros Hm.
    assert (Hz : v (X (shift_id s) emp) = false).
    { apply fix_zero_holds. apply (solution_in v _ _ Hsol). in_section. }
    congruence. }
  split; intros ->; cbn [String.eqb Ascii.eqb Bool.eqb] in He; injection He as <-.
  - destruct (is_night s) eqn:En; [| reflexivity ]. exfalso. apply Hfix.
    apply Hie. apply in_map_iff. exists (shift_id s).
    split; [reflexivity | apply in_night_shifts; assumption].
  - destruct (is_night s) eqn:En; [reflexivity |]. exfalso. apply Hfix.
    apply Hie. apply in_map_iff. exists (shift_id s). split; [reflexivity |].
    apply filter_In. split; [apply in_map; assumption |].
    apply negb_true_iff. destruct (in_nat (shift_id s) (night_shifts d)) eqn:Ein;
      [| reflexivity ].
    apply in_nat_spec in Ein.
    pose proof (night_shifts_night d s Hnd Hs Ein). congruence.
Qed.

Lemma night_policy_respected_witness :
  ("uitsluitend" = "Niet" -> is_night (Cases.mixed_shift 3) = false)
  /\ ("uitsluitend" = "uitsluitend" -> is_night (Cases.mixed_shift 3) = true).
Proof.
  apply (night_policy_respected Cases.mixed_data Cases.mixed_model
           Cases.mixed_solution "1004" "uitsluitend" (Cases.mixed_shift 3)).
  - apply preprocessed_ids_distinct.
  - vm_compute. reflexivity.
  - apply solutionb_spec. vm_compute. reflexivity.
  - in_list.
  - vm_compute. reflexivity.
  - in_list.
  - reflexivity.
Defined.

(* ===================================================================== *)
(** ** The rest rule on concrete rosters *)
(* ===================================================================== *)

Lemma rest_after_nights_in_horizon_witness :
  Scenario.tail_solution (X (shift_id (Cases.shift_at Scenario.tail_data 5)) "1001")
  = false.
Proof.
  apply (rest_after_nights_in_horizon Scenario.tail_data
           (Cases.model_of Scenario.tail_data) Scenario.tail_solution "1001"
           (Scenario.monday + 2)
           (Cases.shift_at Scenario.tail_data 2)
           (Cases.shift_at Scenario.tail_data 3)
           (Cases.shift_at Scenario.tail_data 4)).
  - vm_compute. reflexivity.
  - apply solutionb_spec. vm_compute. reflexivity.
  - in_list.
  - in_list.
  - reflexivity.
  - vm_compute. reflexivity.
  - reflexivity.
  - in_list.
  - reflexivity.
  - vm_compute. reflexivity.
  - reflexivity.
  - in_list.
  - reflexivity.
  - vm_compute. reflexivity.
  - reflexivity.
  - in_list.
  - intros s Hs _ Hd. vm_compute in Hs.
    repeat (destruct Hs as [<- | Hs]; [first [reflexivity | discriminate Hd] |]).
    contradiction.
  - in_list.
  - left. vm_compute. reflexivity.
Defined.

Lemma rest_after_prior_tail_witness :
  Scenario.all_uncovered (X (shift_id (Cases.shift_at Cases.rested_data 1)) "1001")
  = false.
Proof.
  apply (rest_after_prior_tail Cases.rested_data (Cases.model_of Cases.rested_data)
           Scenario.all_uncovered "1001" 2 (Cases.shift_at Cases.rested_data 1)).
  - vm_compute. reflexivity.
  - apply solutionb_spec. vm_compute. reflexivity.
  - in_list.
  - vm_compute. lia.
  - right. reflexivity.
  - in_list.
  - vm_compute. reflexivity.
Defined.

(** X23.  The worker at a position of the delivered table leaves
    preprocessing at the same position; when the worker's rows of the
    constant schedule match pairwise different shifts of the constant
    catalogue, the contract minutes returned are the delivered ones
    minus the sum, over those rows, of the duration of the matched
    shift. *)
Theorem constant_deduction_rowwise :
  forall (ws : list Worker) (template : list TemplateRow) (df_onb : list OnbRaw)
         (prev : list PrevRaw) (vast : list VastRow) (n : Z) (today : date)
         (i : nat) (w : Worker),
    let h := preprocess_prev prev today in
    let catalogue :=
      shifts_constant_of
        (all_shift_instances template (h_start_date h) (h_global_start_date h) n) in
    nth_error ws i = Some w ->
    NoDup (flat_map (fun r => match find_shift_id catalogue r with
                              | Some j => [j]
                              | None => []
                              end)
             (filter (fun r => String.eqb (v_medewerker_id r) (medewerker_id w)) vast)) ->
    nth_error (workers (preprocess_data ws template df_onb prev vast n today)) i
    = Some (set_contract_minutes
              (contract_minutes w - rowwise_deduction catalogue vast (medewerker_id w))
              w).
Proof.
  intros ws template df_onb prev vast n today i w h catalogue Hw Hnd.
  unfold preprocess_data. cbn [workers]. fold h. fold catalogue.
  rewrite subtract_constant_map.
  rewrite (map_nth_error _ _ _ Hw). f_equal. unfold deducted.
  rewrite hours_to_subtract_matched.
  rewrite (matched_deduction_rowwise catalogue vast (medewerker_id w));
    [reflexivity | | exact Hnd].
  unfold catalogue, shifts_constant_of. rewrite reset_index_ids. apply seq_NoDup.
Qed.

(** Worker 1001 has the kitchen shift of Monday and that of Tuesday in
    the constant schedule: two rows, two catalogue shifts of 480
    minutes, and 960 minutes less on the contract. *)
Lemma constant_deduction_rowwise_witness :
  nth_error [Scenario.worker_1001] 0 = Some Scenario.worker_1001
  /\ flat_map (fun r => match find_shift_id Cases.two_days_catalogue r with
                        | Some j => [j]
                        | None => []
                        end)
       (filter (fun r => String.eqb (v_medewerker_id r) "1001") Cases.two_days_vast)
     = [0; 1]%nat
  /\ rowwise_deduction Cases.two_days_catalogue Cases.two_days_vast "1001" = 960
  /\ nth_error (workers Cases.two_days_data) 0
     = Some (set_contract_minutes (2400 - 960) Scenario.worker_1001).
Proof.
  split; [reflexivity |].
  split; [vm_compute; reflexivity |].
  split; [vm_compute; reflexivity |].
  apply (constant_deduction_rowwise [Scenario.worker_1001]
           [Cases.kok_two_days; Scenario.night_row Scenario.every_day] [] []
           Cases.two_days_vast 1 Scenario.monday 0 Scenario.worker_1001).
  - reflexivity.
  - vm_compute. repeat constructor; simpl; intuition discriminate.
Defined.

(* ===================================================================== *)
(** ** Leaving every shift uncovered *)
(* ===================================================================== *)

Lemma uncovered_xs_zero (emp : string) (ids : list nat) :
  zsum (map (value Scenario.all_uncovered) (xs_of emp ids)) = 0.
Proof.
  induction ids as [| a r IH]; [reflexivity |].
  change (xs_of emp (a :: r)) with (X a emp :: xs_of emp r).
  rewrite map_cons, zsum_cons, IH. reflexivity.
Qed.

Lemma uncovered_fix_zero (s : nat) (emp : string) :
  holds Scenario.all_uncovered (fix_zero (X s emp)).
Proof. reflexivity. Qed.

Lemma uncovered_sum_le (emp : string) (ids : list nat) (k : Z) (lits : list lit) :
  0 <= k -> holds Scenario.all_uncovered (Add (sum_of (xs_of emp ids)) Le k lits).
Proof.
  intros Hk. unfold holds. cbn [holdsb cmp_holds]. rewrite eval_sum_of, uncovered_xs_zero.
  apply Z.leb_le in Hk. rewrite Hk. apply implb_true_r.
Qed.

Lemma Forall_flat_map {A B} (P : B -> Prop) (f : A -> list B) (l : list A) :
  (forall a, In a l -> Forall P (f a)) -> Forall P (flat_map f l).
Proof.
  intros H. apply Forall_forall. intros y Hy. apply in_flat_map in Hy.
  destruct Hy as [a [Ha Hy]]. pose proof (H a Ha) as HF.
  rewrite Forall_forall in HF. apply HF. assumption.
Qed.

Lemma Forall_for_each {A B} (P : B -> Prop) (body : A -> py (list B))
    (l : list A) (ys : list B) :
  for_each body l = inr ys ->
  (forall a xs, In a l -> body a = inr xs -> Forall P xs) ->
  Forall P ys.
Proof.
  intros H HP. apply Forall_forall. intros y Hy.
  destruct (for_each_inr_in body l ys H y Hy) as [a [xs [Ha [Hb Hin]]]].
  pose proof (HP a xs Ha Hb) as HF. rewrite Forall_forall in HF. apply HF. assumption.
Qed.

Lemma Forall_map_fix_zero (emp : string) (ids : list nat) :
  Forall (holds Scenario.all_uncovered) (map (fun s => fix_zero (X s emp)) ids).
Proof.
  apply Forall_forall. intros c Hc. apply in_map_iff in Hc.
  destruct Hc as [s [<- _]]. apply uncovered_fix_zero.
Qed.

Lemma worker_loc_in {A} (d : Data) (emp : string) (col : Worker -> A) (a : A) :
  worker_loc d emp col = inr a -> exists w, In w (workers d) /\ col w = a.
Proof.
  unfold worker_loc. intros H. apply bind_inr in H. destruct H as [w [Hw H]].
  injection H as <-. exists w. split; [| reflexivity ].
  destruct (filter (fun w0 => String.eqb (medewerker_id w0) emp) (workers d))
    as [| w0 r] eqn:E; [discriminate |].
  injection Hw as ->.
  assert (Hin : In w (filter (fun w0 => String.eqb (medewerker_id w0) emp) (workers d)))
    by (rewrite E; left; reflexivity).
  apply filter_In in Hin. tauto.
Qed.

Lemma uncovered_weighted_zero (ts : list (Z * var)) :
  (forall t, In t ts -> exists s emp, snd t = X s emp) ->
  zsum (map (fun t : Z * var => fst t * value Scenario.all_uncovered (snd t)) ts) = 0.
Proof.
  intros H. apply zsum_map_zero. intros t Ht.
  destruct (H t Ht) as [s [emp ->]]. unfold value. simpl. lia.
Qed.

Lemma filter_length_weaken {A} (f g : A -> bool) (l : list A) :
  (forall a, f a = true -> g a = true) ->
  (List.length (filter f l) <= List.length (filter g l))%nat.
Proof.
  intros H. induction l as [| a r IH]; simpl; [lia |].
  destruct (f a) eqn:E.
  - rewrite (H a E). simpl. lia.
  - destruct (g a); simpl; lia.
Qed.

(** X12.  The hard constraints never make the model infeasible: when no
    worker has a negative weekly or contract cap and the previous roster
    holds at most 35 night shifts, leaving every shift uncovered solves
    the model. *)
Theorem all_uncovered_is_solution :
  forall (d : Data) (cs : list constraint),
    hard_constraints d = inr cs ->
    (forall w, In w (workers d) ->
               0 <= max_days_per_week w /\ 0 <= contract_minutes w) ->
    (List.length (filter p_is_night (prev_assignments d)) <= 35)%nat ->
    solution Scenario.all_uncovered cs.
Proof.
  intros d cs Hcs Hcap Hprev.
  destruct (hard_constraints_sections d cs Hcs)
    as (c3 & c4 & c5 & c6 & c73 & c74 & c8 & c9
        & H3 & H4 & H5 & H6 & H73 & H74 & H8 & H9 & ->).
  unfold solution. repeat (apply Forall_app; split).
  - (* night indicators *)
    apply Forall_flat_map. intros emp _. apply Forall_flat_map. intros day _.
    cbv zeta. destruct (night_shifts_by_date d day) as [| a l].
    + repeat constructor.
    + constructor; [reflexivity |]. constructor; [| constructor ].
      unfold holds. cbn [holdsb cmp_holds]. rewrite eval_sum_of, uncovered_xs_zero.
      apply implb_true_r.
  - (* coverage *)
    apply Forall_forall. intros c Hc. apply in_map_iff in Hc. destruct Hc as [s [<- _]].
    unfold holds. cbn [holdsb forallb implb cmp_holds]. unfold eval. cbn [terms offset].
    rewrite map_app, zsum_app, uncovered_weighted_zero; [reflexivity |].
    intros t Ht. apply in_map_iff in Ht. destruct Ht as [emp [<- _]]. simpl. eauto.
  - (* one shift per day *)
    apply Forall_flat_map. intros emp _. apply Forall_flat_map. intros day _.
    destruct (shifts_by_date d day) as [| a l] eqn:E; constructor; [| constructor ].
    unfold holds. cbn [holdsb]. rewrite uncovered_xs_zero. reflexivity.
  - (* after a night *)
    apply (Forall_for_each _ _ _ _ H3). intros emp ce _ He.
    apply (Forall_for_each _ _ _ _ He). intros day cd _ Hd. cbv zeta in Hd.
    destruct (shifts_by_date d (day + 1)) as [| a l];
      [injection Hd as <-; constructor |].
    apply bind_inr in Hd. destruct Hd as [nn [_ Hd]].
    destruct (night_shifts_by_date d day) as [| n0 nr];
      [injection Hd as <-; constructor |].
    destruct nn as [| b r]; injection Hd as <-; constructor; [| constructor ].
    unfold holds. cbn [holdsb forallb implb cmp_holds]. rewrite eval_sum_of.
    change (X n0 emp :: xs_of emp nr ++ X b emp :: xs_of emp r)
      with (xs_of emp (n0 :: nr) ++ xs_of emp (b :: r)).
    rewrite map_app, zsum_app, !uncovered_xs_zero. apply Z.leb_le. lia.
  - (* days per week *)
    apply (Forall_for_each _ _ _ _ H4). intros emp ce _ He.
    apply bind_inr in He. destruct He as [m [Hm He]]. injection He as <-.
    destruct (worker_loc_in d emp _ m Hm) as [w [Hw <-]].
    apply Forall_flat_map. intros wk _.
    destruct (shifts_by_week d wk) as [| a l] eqn:E; constructor; [| constructor ].
    apply uncovered_sum_le. apply Hcap. assumption.
  - (* contract *)
    apply (Forall_for_each _ _ _ _ H5). intros emp ce _ He.
    apply bind_inr in He. destruct He as [cap [Hc He]].
    apply bind_inr in He. destruct He as [ts [Hts He]]. injection He as <-.
    destruct (worker_loc_in d emp _ cap Hc) as [w [Hw <-]].
    constructor; [| constructor ].
    unfold holds. cbn [holdsb forallb implb cmp_holds]. unfold eval. cbn [terms offset].
    rewrite uncovered_weighted_zero.
    + apply Z.leb_le. pose proof (proj2 (Hcap w Hw)). nia.
    + intros t Ht. destruct (for_each_inr_in _ _ _ Hts t Ht) as [s [xs [_ [Hb Hin]]]].
      apply bind_inr in Hb. destruct Hb as [m [_ Hb]]. injection Hb as <-.
      destruct Hin as [<- | []]. simpl. eauto.
  - (* unavailability *)
    apply (Forall_for_each _ _ _ _ H6). intros r ce _ He. unfold unavailability_row in He.
    destruct (negb (in_str (Medewerker_id r) (emp_ids d)));
      [injection He as <-; constructor |].
    destruct (String.eqb (lower (Beschikbaarheid r)) "beschikbaar");
      [injection He as <-; constructor |].
    apply (Forall_for_each _ _ _ _ He). intros s xs _ Hs.
    apply bind_inr in Hs. destruct Hs as [a [_ Hs]].
    apply bind_inr in Hs. destruct Hs as [b [_ Hs]]. injection Hs as <-.
    destruct (overlap a b _ _); repeat constructor.
  - (* consecutive nights *)
    apply Forall_flat_map. intros emp _. cbv zeta. apply Forall_flat_map. intros i _.
    destruct (firstn _ _) as [| w0 wr]; [constructor |].
    destruct (last (w0 :: wr) w0 - w0 =? max_consec_of emp); [| constructor ].
    destruct (filter _ (w0 :: wr)) as [| c0 cr]; constructor; [| constructor ].
    apply uncovered_sum_le. unfold max_consec_of.
    destruct (in_str emp ["602859-1"]); lia.
  - (* rest after nights *)
    apply Forall_flat_map. intros emp _. cbv zeta. apply Forall_app. split.
    + destruct (3 <=? _); [| constructor ].
      apply Forall_flat_map. intros k _.
      destruct (in_Z _ (dates_list d)); [apply Forall_map_fix_zero | constructor].
    + apply Forall_flat_map. intros [[d0 d1] d2] _.
      destruct (negb (in_Z (d2 + 1) (dates_list d))); [constructor |].
      apply Forall_forall. intros c Hc. apply in_map_iff in Hc.
      destruct Hc as [bs [<- _]]. reflexivity.
  - (* night cap *)
    apply (Forall_for_each _ _ _ _ H73). intros emp ce _ He.
    destruct (weeks d) as [| w0 wr]; [discriminate |]. injection He as <-.
    apply Forall_flat_map. intros sw _. cbv zeta.
    destruct (flat_map (night_shifts_by_week d) (range sw (sw + 13))) as [| a l];
      constructor; [| constructor ].
    unfold holds. cbn [holdsb forallb implb cmp_holds]. unfold eval. cbn [terms offset].
    change (terms (sum_of (xs_of emp (a :: l))))
      with (map (fun x => (1, x)) (xs_of emp (a :: l))).
    rewrite uncovered_weighted_zero.
    + apply Z.leb_le.
      match goal with
      | |- 0 + Z.of_nat (List.length (filter ?f (map p_shift_id ?l))) <= 35 =>
          pose proof (filter_length_le f (map p_shift_id l)) as H1;
          rewrite length_map in H1;
          pose proof (filter_length_weaken
                        (fun p => andb (opt_str_eqb (p_employee_id p) emp) (p_is_night p))
                        p_is_night (prev_assignments d)) as H2
      end.
      assert ((List.length
                 (filter (fun p => andb (opt_str_eqb (p_employee_id p) emp) (p_is_night p))
                    (prev_assignments d)) <= 35)%nat).
      { etransitivity; [apply H2 | exact Hprev].
        intros p Hp. apply andb_true_iff in Hp. tauto. }
      lia.
    + intros t Ht. destruct Ht as [<- | Ht]; [simpl; eauto |].
      apply in_map_iff in Ht. destruct Ht as [x [<- Hx]].
      unfold xs_of in Hx. apply in_map_iff in Hx. destruct Hx as [s [<- _]]. simpl. eauto.
  - (* age *)
    apply (Forall_for_each _ _ _ _ H74). intros emp ce _ He.
    destruct (in_str emp (CAO_7_4_exempt d)); [injection He as <-; constructor |].
    apply bind_inr in He. destruct He as [age [_ He]]. injection He as <-.
    destruct (55 <=? age); [apply Forall_map_fix_zero | constructor].
  - (* qualification *)
    apply (Forall_for_each _ _ _ _ H8). intros s ce _ He.
    apply bind_inr in He. destruct He as [req [_ He]].
    apply (Forall_for_each _ _ _ _ He). intros emp cw _ Hw.
    apply bind_inr in Hw. destruct Hw as [lv [_ Hw]].
    apply bind_inr in Hw. destruct Hw as [lvl [_ Hw]]. injection Hw as <-.
    destruct (req <? lvl); repeat constructor.
  - (* night policy *)
    apply (Forall_for_each _ _ _ _ H9). intros emp ce _ He.
    apply bind_inr in He. destruct He as [pol [_ He]]. injection He as <-.
    destruct (String.eqb pol "Niet"); [apply Forall_map_fix_zero |].
    destruct (String.eqb pol "uitsluitend"); [apply Forall_map_fix_zero | constructor].
Qed.

Lemma all_uncovered_is_solution_witness :
  solution Scenario.all_uncovered Cases.mixed_model.
Proof.
  apply (all_uncovered_is_solution Cases.mixed_data Cases.mixed_model).
  - vm_compute. reflexivity.
  - intros w Hw. vm_compute in Hw.
    repeat (destruct Hw as [<- | Hw]; [simpl; lia |]). contradiction.
  - vm_compute. lia.
Defined.

Lemma extract_rows_empty_pool (d : Data) (v : valuation) (l : list Shift)
    (rows : list AssignRow) :
  workers d = [] ->
  for_each (fun r => row <- extract_row d v r ;; ret [row]) l = inr rows ->
  map a_shift_id rows = map shift_id l
  /\ Forall (fun row => a_employee_id row = None /\ a_shift_filled row = false) rows.
Proof.
  intros Hw. revert rows. induction l as [| a r IH]; intros rows H.
  - injection H as <-. split; [reflexivity | constructor].
  - simpl in H. apply bind_inr in H. destruct H as [x [Hx H]].
    apply bind_inr in H. destruct H as [ys [Hy H]]. injection H as <-.
    apply bind_inr in Hx. destruct Hx as [row [Hrow Hx]]. injection Hx as <-.
    unfold extract_row, emp_ids in Hrow. rewrite Hw in Hrow. simpl in Hrow.
    injection Hrow as <-. destruct (IH ys Hy) as [I1 I2].
    split; [simpl; rewrite I1; reflexivity |].
    constructor; [split; reflexivity | assumption].
Qed.

Lemma filter_unfilled_all (rows : list AssignRow) :
  Forall (fun row => a_employee_id row = None /\ a_shift_filled row = false) rows ->
  filter (fun row => negb (a_shift_filled row)) rows = rows.
Proof.
  induction rows as [| row r IH]; intros Hall; [reflexivity |].
  inversion Hall as [| ? ? [_ Hf] Hr]; subst.
  simpl. rewrite Hf. simpl. rewrite (IH Hr). reflexivity.
Qed.

(** X15.  With an empty worker table a successful run returns one row per
    shift, none of them assigned, and lists every shift as uncovered,
    whatever the solver's values are. *)
Theorem empty_pool_all_uncovered :
  forall (d : Data) (st : status) (v : valuation) (res : Result),
    workers d = [] ->
    auto_rooster_standardized d st v = inr (Some res) ->
    map a_shift_id (assignments_df res) = map shift_id (shifts d)
    /\ (forall row, In row (assignments_df res) ->
                    a_employee_id row = None /\ a_shift_filled row = false)
    /\ uncovered_shifts res = map shift_id (shifts d).
Proof.
  intros d st v res Hw H.
  destruct (auto_rooster_success d st v res H) as [_ [rows [Hrows ->]]].
  cbn [assignments_df uncovered_shifts].
  destruct (extract_rows_empty_pool d v (shifts d) rows Hw Hrows) as [Hids Hall].
  split; [assumption |]. split.
  - rewrite Forall_forall in Hall. assumption.
  - unfold uncovered_of. rewrite <- Hids.
    rewrite (filter_unfilled_all rows Hall). reflexivity.
Qed.

Lemma empty_pool_all_uncovered_witness :
  map a_shift_id (assignments_df Cases.nobody_result)
  = map shift_id (shifts Cases.nobody_data)
  /\ (forall row, In row (assignments_df Cases.nobody_result) ->
                  a_employee_id row = None /\ a_shift_filled row = false)
  /\ uncovered_shifts Cases.nobody_result = map shift_id (shifts Cases.nobody_data).
Proof.
  apply (empty_pool_all_uncovered Cases.nobody_data OPTIMAL Scenario.all_uncovered
           Cases.nobody_result).
  - reflexivity.
  - vm_compute. reflexivity.
Defined.

(* ===================================================================== *)
(** ** The tail block of the previous roster *)
(* ===================================================================== *)

Lemma sorted_snoc (R : Z -> Z -> Prop) (l : list Z) (a : Z) :
  StronglySorted R l -> (forall x, In x l -> R x a) -> StronglySorted R (l ++ [a]).
Proof.
  induction l as [| b r IH]; intros Hs Ha; simpl.
  - constructor; constructor.
  - inversion Hs as [| ? ? Hr Hall]; subst. constructor.
    + apply IH; [assumption |]. intros x Hx. apply Ha. right. assumption.
    + apply Forall_app. split; [assumption |]. constructor; [| constructor ].
      apply Ha. left. reflexivity.
Qed.

Lemma sorted_rev (l : list Z) :
  StronglySorted Z.lt l -> StronglySorted (fun a b => b < a) (rev l).
Proof.
  induction l as [| a r IH]; intros Hs; simpl; [constructor |].
  inversion Hs as [| ? ? Hr Hall]; subst.
  apply sorted_snoc; [apply IH; assumption |].
  intros x Hx. apply in_rev in Hx. rewrite Forall_forall in Hall. apply Hall. assumption.
Qed.

(** The dates taken from a descending list are the [k] dates before
    [last], and the date before them is not in the list. *)
Lemma take_consecutive_desc_spec (r : list date) (last : date) :
  StronglySorted (fun a b => b < a) (last :: r) ->
  exists k : nat,
    take_consecutive_desc last r = map (fun i => last - Z.of_nat i) (seq 1 k)
    /\ (forall x, In x (take_consecutive_desc last r) -> In x r)
    /\ ~ In (last - Z.of_nat k - 1) r.
Proof.
  revert last. induction r as [| x r IH]; intros last Hs.
  - exists 0%nat. simpl. tauto.
  - inversion Hs as [| ? ? Hr Hall]; subst.
    inversion Hall as [| ? ? Hx Hall']; subst. simpl.
    destruct (last - x =? 1) eqn:E.
    + apply Z.eqb_eq in E. destruct (IH x Hr) as [k [Heq [Hin Hout]]].
      exists (S k). split; [| split ].
      * cbn [seq map]. f_equal; [lia |]. rewrite Heq, <- (seq_shift k 1), map_map.
        apply map_ext. intros i. lia.
      * intros y [<- | Hy]; [left; reflexivity | right; apply Hin; assumption].
      * intros [Hy | Hy]; [lia |]. apply Hout.
        replace (x - Z.of_nat k - 1) with (last - Z.of_nat (S k) - 1) by lia. assumption.
    + apply Z.eqb_neq in E. exists 0%nat. split; [reflexivity |].
      split; [intros y [] |]. simpl. intros [Hy | Hy]; [lia |].
      inversion Hr as [| ? ? _ Hlt]; subst. rewrite Forall_forall in Hlt.
      specialize (Hlt _ Hy). lia.
Qed.

Lemma rev_countdown_seq (k : nat) (last : date) :
  rev (map (fun i => last - Z.of_nat i) (seq 0 (S k)))
  = map (fun i => last - Z.of_nat k + Z.of_nat i) (seq 0 (S k)).
Proof.
  revert last. induction k as [| k IH]; intros last.
  - simpl. f_equal. lia.
  - change (seq 0 (S (S k))) with (0%nat :: seq 1 (S k)) at 1.
    rewrite <- (seq_shift (S k) 0), map_cons, map_map. cbn [rev].
    rewrite (seq_S (S k) 0), map_app. cbn [map].
    rewrite (map_ext (fun x => last - Z.of_nat (S x))
               (fun i => (last - 1) - Z.of_nat i)) by (intros i; lia).
    rewrite IH. f_equal; [| f_equal; lia ].
    apply map_ext. intros i. lia.
Qed.

Lemma rev_countdown (last : date) (k : nat) :
  rev (last :: map (fun i => last - Z.of_nat i) (seq 1 k))
  = range (last - Z.of_nat k) (last + 1).
Proof.
  unfold range. replace (Z.to_nat (last + 1 - (last - Z.of_nat k))) with (S k) by lia.
  rewrite <- rev_countdown_seq. f_equal. cbn [seq map]. f_equal. lia.
Qed.

Lemma in_range (a b x : Z) : In x (range a b) <-> a <= x < b.
Proof.
  unfold range. rewrite in_map_iff. split.
  - intros [i [<- Hi]]. apply in_seq in Hi. lia.
  - intros H. exists (Z.to_nat (x - a)). split; [lia |]. apply in_seq. lia.
Qed.

(** X14.  The block returned for a worker is the final run of consecutive
    dates among the dates of the worker's previous (night) shifts: it
    ends at the latest of them, holds every date in between, and the
    date before its first is not among them; it is empty only when the
    worker has no such shift. *)
Theorem last_block_is_final_run :
  forall (prev : list Prev) (emp : string) (night : bool),
    let df := filter (fun p => opt_str_eqb (p_employee_id p) emp) prev in
    let days := map p_shift_date (if night then filter p_is_night df else df) in
    let block := get_last_consecutive_block_dates prev emp night in
    (days = [] /\ block = [])
    \/ exists first last : date,
         block = range first (last + 1)
         /\ first <= last
         /\ (forall x, In x days -> x <= last)
         /\ (forall x, first <= x <= last -> In x days)
         /\ ~ In (first - 1) days.
Proof.
  intros prev emp night df days block.
  unfold block, get_last_consecutive_block_dates. fold df. fold days.
  pose proof (usort_Z_sorted days) as Hsorted.
  pose proof (fun x => in_usort_Z x days) as Hmem.
  apply sorted_rev in Hsorted.
  destruct (rev (usort Z.compare days)) as [| last r] eqn:E.
  - left. split; [| reflexivity ].
    destruct days as [| a l]; [reflexivity |]. exfalso.
    assert (Ha : In a (rev (usort Z.compare (a :: l))))
      by (apply -> in_rev; apply Hmem; left; reflexivity).
    rewrite E in Ha. contradiction.
  - right.
    assert (Hrev : forall x, In x days <-> In x (last :: r)).
    { intros x. rewrite <- E, <- in_rev. symmetry. apply Hmem. }
    destruct (take_consecutive_desc_spec r last Hsorted) as [k [Heq [Hin Hout]]].
    exists (last - Z.of_nat k), last. rewrite Heq, rev_countdown.
    inversion Hsorted as [| ? ? Hr Hall]; subst. rewrite Forall_forall in Hall.
    split; [reflexivity |]. split; [lia |]. split; [| split ].
    + intros x Hx. apply Hrev in Hx. destruct Hx as [<- | Hx]; [lia |].
      specialize (Hall x Hx). lia.
    + intros x Hx. apply Hrev.
      destruct (Z.eq_dec x last) as [-> | Hne]; [left; reflexivity | right].
      apply Hin. rewrite Heq. apply in_map_iff. exists (Z.to_nat (last - x)).
      split; [lia |]. apply in_seq. lia.
    + intros Hx. apply Hrev in Hx. destruct Hx as [Hx | Hx]; [lia |].
      apply Hout. assumption.
Qed.

(* ===================================================================== *)
(** ** The shift table that preprocessing builds *)
(* ===================================================================== *)

Lemma in_requirement_row (template : list TemplateRow) (rq : Requirement) :
  In rq (shift_requirements template) ->
  0 <= rq_day_of_week rq <= 6
  /\ exists row, In row template
                 /\ rq_shift_name rq = t_Shifts row
                 /\ rq_start_time rq = t_Begintijd row
                 /\ rq_end_time rq = t_Eindtijd row
                 /\ rq_duration rq = Duur (t_Begintijd row) (t_Eindtijd row).
Proof.
  unfold shift_requirements. intros H. apply in_flat_map in H.
  destruct H as [row [Hrow H]]. apply filter_In in Hrow. destruct Hrow as [Hrow _].
  apply in_flat_map in H. destruct H as [cell [Hcell H]].
  destruct (convert_day_value (snd cell)); [| contradiction ].
  destruct H as [<- | []]. cbn [rq_day_of_week rq_shift_name rq_start_time
                                  rq_end_time rq_duration].
  split.
  - destruct cell as [i c]. apply in_combine_l in Hcell. simpl in Hcell. simpl.
    intuition lia.
  - exists row. repeat split; assumption || reflexivity.
Qed.

(** Every planned shift is an instance of a requirement in a week of the
    horizon, with a new id. *)
Lemma in_shifts_instance (template : list TemplateRow) (start_date gsd : date)
    (n : Z) (s : Shift) :
  In s (shifts_of (all_shift_instances template start_date gsd n)) ->
  exists (i : nat) (wk : Z) (rq : Requirement),
    0 <= wk < n
    /\ In rq (shift_requirements template)
    /\ is_constant_name (rq_shift_name rq) = false
    /\ s = set_shift_id i (shift_instance start_date gsd wk rq).
Proof.
  unfold shifts_of, all_shift_instances. intros H.
  apply in_reset_index in H. destruct H as [i [s0 [H0 ->]]].
  apply filter_In in H0. destruct H0 as [H0 Hname].
  apply in_reset_index in H0. destruct H0 as [j [s1 [H1 ->]]].
  apply in_flat_map in H1. destruct H1 as [wk [Hwk H1]].
  apply in_map_iff in H1. destruct H1 as [rq [<- Hrq]].
  exists i, wk, rq. split; [apply in_range in Hwk; lia |].
  split; [assumption |]. split.
  - apply negb_true_iff in Hname. exact Hname.
  - reflexivity.
Qed.

Lemma planned_shift_fields (template : list TemplateRow) (start_date gsd : date)
    (n : Z) (s : Shift) :
  In s (shifts_of (all_shift_instances template start_date gsd n)) ->
  1 <= week s <= n
  /\ 0 <= day_of_week s <= 6
  /\ absolute_day s = 7 * (week s - 1) + day_of_week s
  /\ shift_date s = start_date + absolute_day s
  /\ global_week s = (shift_date s - gsd) / 7 + 1
  /\ is_constant_name (shift_name s) = false.
Proof.
  intros Hs. apply in_shifts_instance in Hs.
  destruct Hs as (i & wk & rq & Hwk & Hrq & Hname & ->).
  destruct (in_requirement_row template rq Hrq) as [Hday _].
  cbn [set_shift_id shift_instance week day_of_week absolute_day shift_date
       global_week shift_name].
  repeat split; try lia. assumption.
Qed.

(** X17.  The calendar of the planned shifts: the week runs from 1 to
    [num_weeks], the day of the week from 0 to 6, the absolute day
    counts the days from the start date, on which date the shift falls,
    and no planned shift is named KOK or FM. *)
Theorem planned_shift_calendar :
  forall (ws : list Worker) (template : list TemplateRow) (df_onb : list OnbRaw)
         (prev : list PrevRaw) (vast : list VastRow) (n : Z) (today : date),
    let h := preprocess_prev prev today in
    Forall (fun s =>
              1 <= week s <= n
              /\ 0 <= day_of_week s <= 6
              /\ absolute_day s = 7 * (week s - 1) + day_of_week s
              /\ shift_date s = h_start_date h + absolute_day s
              /\ global_week s = (shift_date s - h_global_start_date h) / 7 + 1
              /\ shift_name s <> "KOK" /\ shift_name s <> "FM")
           (shifts (preprocess_data ws template df_onb prev vast n today)).
Proof.
  intros ws template df_onb prev vast n today h. apply Forall_forall. intros s Hs.
  unfold preprocess_data in Hs. cbn [shifts] in Hs. fold h in Hs.
  apply planned_shift_fields in Hs.
  destruct Hs as (Hw & Hd & Ha & Hdate & Hg & Hname).
  repeat split; try lia; try assumption.
  - intros E. rewrite E in Hname. discriminate.
  - intros E. rewrite E in Hname. discriminate.
Qed.

Lemma weekday_shifted (start_date : date) (wk dow : Z) :
  0 <= dow <= 6 ->
  weekday (start_date + (7 * wk + dow)) = (weekday start_date + dow) mod 7
  /\ (weekday (start_date + (7 * wk + dow)) = dow <-> weekday start_date = 0).
Proof.
  intros Hd. unfold weekday.
  assert (E : (start_date + (7 * wk + dow)) mod 7 = (start_date mod 7 + dow) mod 7).
  { replace (start_date + (7 * wk + dow)) with (start_date + dow + wk * 7) by lia.
    rewrite Z.mod_add by lia. rewrite Zplus_mod_idemp_l. reflexivity. }
  split; [exact E |]. rewrite E.
  pose proof (Z.mod_pos_bound start_date 7 ltac:(lia)) as Hb.
  split.
  - intros H.
    destruct (Z_lt_dec (start_date mod 7 + dow) 7) as [Hlt | Hge].
    + rewrite Z.mod_small in H by lia. lia.
    + replace (start_date mod 7 + dow)
        with (start_date mod 7 + dow - 7 + 1 * 7) in H by lia.
      rewrite Z.mod_add in H by lia. rewrite Z.mod_small in H by lia. lia.
  - intros ->. rewrite Z.add_0_l. apply Z.mod_small. lia.
Qed.

(** X18.  The calendar weekday of a planned shift is its template weekday
    moved by the weekday of the start date, so the two agree exactly
    when the start date is a Monday. *)
Theorem planned_shift_weekday :
  forall (ws : list Worker) (template : list TemplateRow) (df_onb : list OnbRaw)
         (prev : list PrevRaw) (vast : list VastRow) (n : Z) (today : date),
    let start_date := h_start_date (preprocess_prev prev today) in
    Forall (fun s =>
              weekday (shift_date s) = (weekday start_date + day_of_week s) mod 7
              /\ (weekday (shift_date s) = day_of_week s <-> weekday start_date = 0))
           (shifts (preprocess_data ws template df_onb prev vast n today)).
Proof.
  intros ws template df_onb prev vast n today start_date.
  apply Forall_forall. intros s Hs.
  unfold preprocess_data in Hs. cbn [shifts] in Hs. fold start_date in Hs.
  apply planned_shift_fields in Hs.
  destruct Hs as (Hw & Hd & Ha & Hdate & _).
  rewrite Hdate, Ha. apply weekday_shifted. assumption.
Qed.

(** The floating-point route of lines 49-55 and 168 (seconds to hours,
    24 more when negative, times 60, rounded) gives the exact minutes
    for every difference of two clock times on whole minutes.  There are
    2879 such differences; each is computed. *)
Lemma minutes_of_whole_minutes (k : Z) :
  -1440 < k < 1440 ->
  minutes_of_hours (hours_of_seconds (60 * k)) = k mod 1440.
Proof.
  intros Hk.
  assert (H : forallb (fun j => minutes_of_hours (hours_of_seconds (60 * j))
                                =? j mod 1440)
                (range (-1439) 1440) = true) by (vm_compute; reflexivity).
  rewrite forallb_forall in H. apply Z.eqb_eq. apply H. apply in_range. lia.
Qed.

(** With seconds on the clock the route is not exact: a shift of one
    hour, one minute and thirty seconds is 1.025 hours, whose product
    with 60 lies just below 61.5, and counts for 61 minutes. *)
Example minutes_of_hours_seconds : minutes_of_hours (hours_of_seconds 3690) = 61.
Proof. vm_compute. reflexivity. Qed.

(** The minutes of a clock time since midnight. *)
Lemma seconds_whole_minutes (t : time) :
  second t = 0 -> seconds_of t = 60 * (hour t * 60 + minute t).
Proof. unfold seconds_of. intros ->. lia. Qed.

(** X19.  For template times on whole minutes the duration of a planned shift
    is the difference of end and start in minutes, taken modulo a day:
    it lies from 0 to 1439, and a shift that ends when it starts has
    duration 0. *)
Theorem planned_shift_duration :
  forall (ws : list Worker) (template : list TemplateRow) (df_onb : list OnbRaw)
         (prev : list PrevRaw) (vast : list VastRow) (n : Z) (today : date),
    Forall (fun row => valid_time (t_Begintijd row) /\ valid_time (t_Eindtijd row)
                       /\ second (t_Begintijd row) = 0
                       /\ second (t_Eindtijd row) = 0)
           template ->
    Forall (fun s =>
              duration_min s
              = ((hour (end_time s) * 60 + minute (end_time s))
                 - (hour (start_time s) * 60 + minute (start_time s))) mod 1440
              /\ 0 <= duration_min s < 1440)
           (shifts (preprocess_data ws template df_onb prev vast n today)).
Proof.
  intros ws template df_onb prev vast n today Htimes.
  rewrite Forall_forall in *. intros s Hs.
  unfold preprocess_data in Hs. cbn [shifts] in Hs.
  apply in_shifts_instance in Hs.
  destruct Hs as (i & wk & rq & Hwk & Hrq & Hname & ->).
  destruct (in_requirement_row template rq Hrq)
    as [_ [row (Hrow & _ & Hb & He & Hdur)]].
  destruct (Htimes row Hrow) as (Vb & Ve & Sb & Se).
  cbn [set_shift_id shift_instance duration_min end_time start_time].
  rewrite Hdur, Hb, He. unfold Duur, seconds_between.
  rewrite (seconds_whole_minutes _ Sb), (seconds_whole_minutes _ Se).
  unfold valid_time in Vb, Ve.
  set (mb := hour (t_Begintijd row) * 60 + minute (t_Begintijd row)) in *.
  set (me := hour (t_Eindtijd row) * 60 + minute (t_Eindtijd row)) in *.
  assert (Hmb : 0 <= mb < 1440) by (unfold mb; lia).
  assert (Hme : 0 <= me < 1440) by (unfold me; lia).
  replace (60 * me - 60 * mb) with (60 * (me - mb)) by lia.
  rewrite minutes_of_whole_minutes by lia.
  split; [reflexivity | apply Z.mod_pos_bound; lia].
Qed.

Lemma planned_shift_duration_witness :
  Forall (fun s =>
            duration_min s
            = ((hour (end_time s) * 60 + minute (end_time s))
               - (hour (start_time s) * 60 + minute (start_time s))) mod 1440
            /\ 0 <= duration_min s < 1440)
         (shifts Cases.mixed_data).
Proof.
  apply (planned_shift_duration
           [Scenario.worker_1001; Scenario.worker_55; Cases.worker_1003; Cases.worker_1004]
           [Scenario.night_row Scenario.every_day; Scenario.day_row Scenario.every_day]
           [] [] [] 1 Scenario.monday).
  repeat constructor; simpl; lia.
Defined.

Lemma fold_max_init (l : list Z) (a : Z) : a <= fold_left Z.max l a.
Proof.
  revert a. induction l as [| b r IH]; intros a; simpl; [lia |].
  specialize (IH (Z.max a b)). lia.
Qed.

Lemma fold_min_init (l : list Z) (a : Z) : fold_left Z.min l a <= a.
Proof.
  revert a. induction l as [| b r IH]; intros a; simpl; [lia |].
  specialize (IH (Z.min a b)). lia.
Qed.

Lemma zmax_list_ge (l : list Z) (a x : Z) : In x (a :: l) -> x <= zmax_list a l.
Proof.
  unfold zmax_list. revert a. induction l as [| b r IH]; intros a H.
  - destruct H as [-> | []]. simpl. lia.
  - simpl. pose proof (fold_max_init r (Z.max a b)).
    destruct H as [-> | [-> | H]]; [lia | lia |].
    apply IH. right. assumption.
Qed.

Lemma zmin_list_le (l : list Z) (a x : Z) : In x (a :: l) -> zmin_list a l <= x.
Proof.
  unfold zmin_list. revert a. induction l as [| b r IH]; intros a H.
  - destruct H as [-> | []]. simpl. lia.
  - simpl. pose proof (fold_min_init r (Z.min a b)).
    destruct H as [-> | [-> | H]]; [lia | lia |].
    apply IH. right. assumption.
Qed.

(** A row of the canonical previous table comes from a row of the sheet. *)
Lemma in_h_prev (raw : list PrevRaw) (today : date) (p : Prev) :
  In p (h_prev (preprocess_prev raw today)) ->
  exists r0 rest i r,
    raw = r0 :: rest /\ In r raw
    /\ p = canonical_prev
             (zmin_list (raw_Datum_dienst r0) (map raw_Datum_dienst rest))
             (h_global_start_date (preprocess_prev raw today)) (i, r).
Proof.
  destruct raw as [| r0 rest]; [intros [] |].
  cbn [preprocess_prev h_prev h_global_start_date]. intros H.
  apply in_sort_values in H. apply in_map_iff in H.
  destruct H as [[i r] [<- Hin]]. apply in_combine_r in Hin.
  exists r0, rest, i, r. repeat split. assumption.
Qed.

Lemma planned_not_before_start (template : list TemplateRow) (start_date gsd : date)
    (n : Z) (s : Shift) :
  In s (shifts_of (all_shift_instances template start_date gsd n)) ->
  start_date <= shift_date s.
Proof.
  intros Hs. apply planned_shift_fields in Hs.
  destruct Hs as (Hw & Hd & Ha & Hdate & _). lia.
Qed.

Lemma pseudo_history_empty (template : list TemplateRow) (start_date gsd : date)
    (n : Z) :
  pseudo_history (shifts_of (all_shift_instances template start_date gsd n)) start_date
  = [].
Proof.
  unfold pseudo_history.
  destruct (filter (fun s => start_date - 28 <=? shift_date s)
              (filter (fun s => shift_date s <? start_date)
                 (shifts_of (all_shift_instances template start_date gsd n))))
    as [| s r] eqn:E; [reflexivity |].
  assert (Hin : In s (s :: r)) by (left; reflexivity).
  rewrite <- E in Hin. apply filter_In in Hin. destruct Hin as [Hin _].
  apply filter_In in Hin. destruct Hin as [Hin Hlt].
  apply planned_not_before_start in Hin. apply Z.ltb_lt in Hlt. lia.
Qed.

(** X20.  Every previous assignment lies before every planned shift: the
    horizon starts the day after the last date of the history. *)
Theorem history_precedes_horizon :
  forall (ws : list Worker) (template : list TemplateRow) (df_onb : list OnbRaw)
         (prev : list PrevRaw) (vast : list VastRow) (n : Z) (today : date)
         (p : Prev) (s : Shift),
    let d := preprocess_data ws template df_onb prev vast n today in
    In p (prev_assignments d) ->
    In s (shifts d) ->
    p_shift_date p < h_start_date (preprocess_prev prev today)
    /\ h_start_date (preprocess_prev prev today) <= shift_date s.
Proof.
  intros ws template df_onb prev vast n today p s d Hp Hs.
  unfold d, preprocess_data in Hp, Hs. cbn [prev_assignments shifts] in Hp, Hs.
  split; [| apply (planned_not_before_start _ _ _ _ _ Hs) ].
  destruct (h_prev (preprocess_prev prev today)) as [| q r] eqn:E.
  - rewrite pseudo_history_empty in Hp. contradiction.
  - rewrite <- E in Hp. destruct (in_h_prev prev today p Hp)
      as (r0 & rest & i & row & -> & Hrow & ->).
    cbn [preprocess_prev h_start_date canonical_prev p_shift_date snd].
    pose proof (zmax_list_ge (map raw_Datum_dienst rest) (raw_Datum_dienst r0)
                  (raw_Datum_dienst row)) as Hmax.
    assert (Hin : In (raw_Datum_dienst row)
                    (raw_Datum_dienst r0 :: map raw_Datum_dienst rest)).
    { destruct Hrow as [<- | Hrow]; [left; reflexivity | right].
      apply in_map. assumption. }
    specialize (Hmax Hin). lia.
Qed.

Lemma history_precedes_horizon_witness :
  p_shift_date (hd (shift_as_prev (Cases.shift_at Scenario.tail_data 0))
                  (prev_assignments Scenario.tail_data))
  < h_start_date
      (preprocess_prev
         [mkPrevRaw "1001" (Scenario.monday - 1) "N" (mkTime 23 0 0) (mkTime 7 0 0)]
         Scenario.monday)
  /\ h_start_date
       (preprocess_prev
          [mkPrevRaw "1001" (Scenario.monday - 1) "N" (mkTime 23 0 0) (mkTime 7 0 0)]
          Scenario.monday)
     <= shift_date (Cases.shift_at Scenario.tail_data 0).
Proof.
  apply (history_precedes_horizon [Scenario.worker_1001]
           [Scenario.night_row Scenario.every_day] []
           [mkPrevRaw "1001" (Scenario.monday - 1) "N" (mkTime 23 0 0) (mkTime 7 0 0)]
           [] 1 Scenario.monday).
  - in_list.
  - in_list.
Defined.

(** X21.  Without history, and with at least one planned shift, the horizon
    starts on the first Monday that is not before today, every planned
    shift falls on its template weekday, and the table of previous
    assignments is empty: no planned shift lies before the start date. *)
Theorem no_history_start :
  forall (ws : list Worker) (template : list TemplateRow) (df_onb : list OnbRaw)
         (vast : list VastRow) (n : Z) (today : date),
    let start_date := h_start_date (preprocess_prev [] today) in
    let d := preprocess_data ws template df_onb [] vast n today in
    shifts d <> [] ->
    weekday start_date = 0
    /\ today <= start_date < today + 7
    /\ Forall (fun s => weekday (shift_date s) = day_of_week s) (shifts d)
    /\ prev_assignments d = [].
Proof.
  intros ws template df_onb vast n today start_date d _.
  assert (Hmonday : weekday start_date = 0 /\ today <= start_date < today + 7).
  { unfold start_date. cbn [preprocess_prev h_start_date]. unfold weekday.
    pose proof (Z.mod_pos_bound today 7 ltac:(lia)) as Hb.
    pose proof (Z.mod_pos_bound (7 - today mod 7) 7 ltac:(lia)) as Hc.
    split; [| lia ].
    rewrite Zplus_mod, Zmod_mod, <- Zplus_mod.
    destruct (Z.eq_dec (today mod 7) 0) as [E | E].
    - rewrite E. replace (today + (7 - 0)) with (today + 1 * 7) by lia.
      rewrite Z.mod_add by lia. assumption.
    - pose proof (Z.div_mod today 7 ltac:(lia)) as Hdm.
      replace (today + (7 - today mod 7)) with ((today / 7 + 1) * 7) by lia.
      apply Z.mod_mul. lia. }
  destruct Hmonday as [Hmon Hrange].
  split; [assumption |]. split; [assumption |]. split.
  - apply Forall_forall. intros s Hs.
    unfold d, preprocess_data in Hs. cbn [shifts] in Hs. fold start_date in Hs.
    apply planned_shift_fields in Hs. destruct Hs as (Hw & Hd & Ha & Hdate & _).
    rewrite Hdate, Ha. apply weekday_shifted; assumption.
  - unfold d, preprocess_data. cbn [prev_assignments preprocess_prev h_prev].
    apply pseudo_history_empty.
Qed.

Lemma no_history_start_witness :
  weekday (h_start_date (preprocess_prev [] (Scenario.monday - 3))) = 0
  /\ Scenario.monday - 3 <= h_start_date (preprocess_prev [] (Scenario.monday - 3))
                         < Scenario.monday - 3 + 7
  /\ Forall (fun s => weekday (shift_date s) = day_of_week s)
            (shifts (preprocess_data [Scenario.worker_1001]
                       [Scenario.night_row Scenario.every_day] [] [] [] 1
                       (Scenario.monday - 3)))
  /\ prev_assignments (preprocess_data [Scenario.worker_1001]
                         [Scenario.night_row Scenario.every_day] [] [] [] 1
                         (Scenario.monday - 3)) = [].
Proof.
  apply (no_history_start [Scenario.worker_1001]
           [Scenario.night_row Scenario.every_day] [] [] 1 (Scenario.monday - 3)).
  vm_compute. discriminate.
Defined.

Lemma insert_by_date_sorted (p : Prev) (l : list Prev) :
  StronglySorted (fun a b => p_shift_date a <= p_shift_date b) l ->
  StronglySorted (fun a b => p_shift_date a <= p_shift_date b) (insert_by_date p l).
Proof.
  induction l as [| q r IH]; intros Hs; simpl.
  - constructor; constructor.
  - inversion Hs as [| ? ? Hr Hall]; subst.
    destruct (p_shift_date p <=? p_shift_date q) eqn:E.
    + apply Z.leb_le in E. constructor; [assumption |].
      constructor; [assumption |].
      rewrite Forall_forall in *. intros x Hx. specialize (Hall x Hx). lia.
    + apply Z.leb_gt in E. constructor; [apply IH; assumption |].
      rewrite Forall_forall in *. intros x Hx. apply in_insert_by_date in Hx.
      destruct Hx as [-> | Hx]; [lia | apply Hall; assumption].
Qed.

Lemma sort_values_sorted (l : list Prev) :
  StronglySorted (fun a b => p_shift_date a <= p_shift_date b)
    (sort_values_shift_date l).
Proof.
  induction l as [| a r IH]; simpl; [constructor |].
  apply insert_by_date_sorted. assumption.
Qed.

Lemma insert_by_date_in (p q : Prev) (l : list Prev) :
  q = p \/ In q l -> In q (insert_by_date p l).
Proof.
  induction l as [| a r IH]; intros H; simpl.
  - destruct H as [-> | []]. left. reflexivity.
  - destruct (p_shift_date p <=? p_shift_date a).
    + destruct H as [-> | H]; [left; reflexivity | right; assumption].
    + destruct H as [-> | [-> | H]].
      * right. apply IH. left. reflexivity.
      * left. reflexivity.
      * right. apply IH. right. assumption.
Qed.

(** Sorting keeps every row. *)
Lemma sort_values_keeps (q : Prev) (l : list Prev) :
  In q l -> In q (sort_values_shift_date l).
Proof.
  induction l as [| a r IH]; intros H; [contradiction |]. simpl.
  apply insert_by_date_in. destruct H as [-> | H];
    [left; reflexivity | right; apply IH; assumption].
Qed.

Lemma insert_by_date_length (p : Prev) (l : list Prev) :
  List.length (insert_by_date p l) = S (List.length l).
Proof.
  induction l as [| a r IH]; [reflexivity |]. simpl.
  destruct (p_shift_date p <=? p_shift_date a); simpl; [reflexivity |].
  rewrite IH. reflexivity.
Qed.

Lemma sort_values_length (l : list Prev) :
  List.length (sort_values_shift_date l) = List.length l.
Proof.
  induction l as [| a r IH]; [reflexivity |]. simpl.
  rewrite insert_by_date_length, IH. reflexivity.
Qed.

(** The least date of a non-empty column is one of its dates. *)
Lemma zmin_list_in (l : list Z) (a : Z) : In (zmin_list a l) (a :: l).
Proof.
  unfold zmin_list. revert a. induction l as [| b r IH]; intros a.
  - left. reflexivity.
  - cbn [fold_left]. destruct (IH (Z.min a b)) as [E | H].
    + rewrite <- E. destruct (Z.min_spec a b) as [[_ ->] | [_ ->]];
        [left | right; left]; reflexivity.
    + right. right. assumption.
Qed.

(** Every row of the sheet gets a position. *)
Lemma in_combine_seq (l : list PrevRaw) (n : nat) (row : PrevRaw) :
  In row l -> exists i, In (i, row) (combine (seq n (List.length l)) l).
Proof.
  revert n. induction l as [| a r IH]; intros n H; [contradiction |].
  cbn [List.length seq combine]. destruct H as [-> | H].
  - exists n. left. reflexivity.
  - destruct (IH (S n) H) as [i Hi]. exists i. right. assumption.
Qed.

(** The first row of the canonical table carries the least date of the
    sheet. *)
Lemma h_prev_head_earliest (r0 : PrevRaw) (rest : list PrevRaw) (today : date)
    (p0 : Prev) (tl : list Prev) :
  h_prev (preprocess_prev (r0 :: rest) today) = p0 :: tl ->
  p_shift_date p0 = zmin_list (raw_Datum_dienst r0) (map raw_Datum_dienst rest).
Proof.
  intros E.
  set (first_day := zmin_list (raw_Datum_dienst r0) (map raw_Datum_dienst rest)).
  assert (Hge : first_day <= p_shift_date p0).
  { assert (Hp : In p0 (h_prev (preprocess_prev (r0 :: rest) today)))
      by (rewrite E; left; reflexivity).
    destruct (in_h_prev _ _ _ Hp) as (r0' & rest' & i & row & Eraw & Hrow & ->).
    cbn [canonical_prev p_shift_date snd]. apply zmin_list_le.
    change (raw_Datum_dienst r0 :: map raw_Datum_dienst rest)
      with (map raw_Datum_dienst (r0 :: rest)).
    apply in_map. assumption. }
  assert (Hle : p_shift_date p0 <= first_day).
  { pose proof (zmin_list_in (map raw_Datum_dienst rest) (raw_Datum_dienst r0)) as Hin.
    change (raw_Datum_dienst r0 :: map raw_Datum_dienst rest)
      with (map raw_Datum_dienst (r0 :: rest)) in Hin.
    apply in_map_iff in Hin. destruct Hin as [row [Erow Hrow]].
    destruct (in_combine_seq (r0 :: rest) 0 row Hrow) as [i Hi].
    set (gsd := first_day - weekday first_day).
    assert (Hq : In (canonical_prev first_day gsd (i, row))
                    (h_prev (preprocess_prev (r0 :: rest) today))).
    { cbn [preprocess_prev h_prev]. apply sort_values_keeps. apply in_map.
      exact Hi. }
    assert (Hqd : p_shift_date (canonical_prev first_day gsd (i, row)) = first_day)
      by exact Erow.
    pose proof (sort_values_sorted
                  (map (canonical_prev first_day gsd)
                     (combine (seq 0 (List.length (r0 :: rest))) (r0 :: rest)))) as Hs.
    change (sort_values_shift_date _)
      with (h_prev (preprocess_prev (r0 :: rest) today)) in Hs.
    revert Hq Hqd. generalize (canonical_prev first_day gsd (i, row)).
    intros q Hq Hqd. rewrite E in Hs, Hq.
    inversion Hs as [| ? ? _ Hall]; subst.
    destruct Hq as [Hq | Hq].
    - rewrite Hq. lia.
    - rewrite Forall_forall in Hall. specialize (Hall _ Hq). lia. }
  lia.
Qed.

(** X22.  The canonical table of previous assignments holds one row for
    every row of the sheet and is sorted by date, so that its first row
    carries the earliest date.  The global start date is the Monday on
    or before that earliest date.  Every row counts its absolute day
    from the earliest date and its week in whole weeks of absolute days;
    its weekday is that of its date; its global week counts whole weeks
    from the global start date; none of the three is negative. *)
Theorem prior_table_canonical :
  forall (raw : list PrevRaw) (today : date),
    let h := preprocess_prev raw today in
    StronglySorted (fun a b => p_shift_date a <= p_shift_date b) (h_prev h)
    /\ List.length (h_prev h) = List.length raw
    /\ forall (p0 : Prev) (tl : list Prev),
         h_prev h = p0 :: tl ->
         let earliest := p_shift_date p0 in
         weekday (h_global_start_date h) = 0
         /\ h_global_start_date h <= earliest < h_global_start_date h + 7
         /\ Forall (fun p =>
                      earliest <= p_shift_date p
                      /\ p_absolute_day p = p_shift_date p - earliest
                      /\ 0 <= p_absolute_day p
                      /\ p_week p = p_absolute_day p / 7
                      /\ 0 <= p_week p
                      /\ p_day_of_week p = weekday (p_shift_date p)
                      /\ p_global_week p
                         = (p_shift_date p - h_global_start_date h) / 7
                      /\ 0 <= p_global_week p)
                   (h_prev h).
Proof.
  intros raw today h. split; [| split].
  - unfold h. destruct raw as [| r0 rest]; [constructor |].
    cbn [preprocess_prev h_prev]. apply sort_values_sorted.
  - unfold h. destruct raw as [| r0 rest]; [reflexivity |].
    cbn [preprocess_prev h_prev].
    rewrite sort_values_length, length_map, length_combine, length_seq.
    apply Nat.min_id.
  - intros p0 tl E earliest.
    destruct raw as [| r0 rest]; [discriminate E |].
    pose proof (h_prev_head_earliest r0 rest today p0 tl E) as Hhead.
    fold earliest in Hhead.
    assert (Hg : h_global_start_date h = earliest - weekday earliest).
    { unfold h. cbn [preprocess_prev h_global_start_date]. rewrite <- Hhead.
      reflexivity. }
    pose proof (Z.mod_pos_bound earliest 7 ltac:(lia)) as Hb.
    pose proof (Z.div_mod earliest 7 ltac:(lia)) as Hdm.
    rewrite Hg. unfold weekday in *.
    split; [| split; [lia |]].
    + replace (earliest - earliest mod 7) with ((earliest / 7) * 7) by lia.
      apply Z.mod_mul. lia.
    + apply Forall_forall. intros p Hp.
      destruct (in_h_prev (r0 :: rest) today p Hp)
        as (r0' & rest' & i & row & Eraw & Hrow & ->).
      injection Eraw as <- <-. fold h. rewrite Hg, <- Hhead.
      cbn [canonical_prev p_absolute_day p_week p_day_of_week p_shift_date
           p_global_week snd fst].
      assert (Hmin : earliest <= raw_Datum_dienst row).
      { rewrite Hhead. apply zmin_list_le.
        change (raw_Datum_dienst r0 :: map raw_Datum_dienst rest)
          with (map raw_Datum_dienst (r0 :: rest)).
        apply in_map. assumption. }
      unfold weekday.
      repeat split; try lia; apply Z.div_pos; lia.
Qed.

(** A sheet of three rows that is not in the order of the dates. *)
Lemma prior_table_canonical_witness :
  exists (p0 : Prev) (tl : list Prev),
    h_prev (preprocess_prev Cases.history_raw Scenario.monday) = p0 :: tl
    /\ map p_shift_id (p0 :: tl) = [1; 0; 2]%nat
    /\ p_shift_date p0 = Scenario.monday - 11
    /\ h_global_start_date (preprocess_prev Cases.history_raw Scenario.monday)
       = Scenario.monday - 14
    /\ map p_absolute_day (p0 :: tl) = [0; 6; 10]
    /\ Forall (fun p => p_absolute_day p = p_shift_date p - p_shift_date p0)
              (p0 :: tl).
Proof.
  eexists. eexists.
  split; [vm_compute; reflexivity |].
  split; [reflexivity |].
  split; [reflexivity |].
  split; [reflexivity |].
  split; [reflexivity |].
  destruct (prior_table_canonical Cases.history_raw Scenario.monday)
    as [_ [_ H]].
  destruct (H _ _ eq_refl) as [_ [_ Hall]].
  revert Hall. apply Forall_impl. intros p Hp. apply Hp.
Defined.

(* ===================================================================== *)
(** ** The validator on the roster of a solution *)
(* ===================================================================== *)

Lemma flat_map_nil {A B} (f : A -> list B) (l : list A) :
  (forall a, In a l -> f a = []) -> flat_map f l = [].
Proof.
  induction l as [| a r IH]; intros H; [reflexivity |].
  simpl. rewrite (H a (or_introl eq_refl)). apply IH.
  intros b Hb. apply H. right. assumption.
Qed.

Lemma filter_le_one {A} (f : A -> nat) (p : A -> bool) (l : list A) :
  NoDup (map f l) ->
  (forall a b, In a l -> In b l -> p a = true -> p b = true -> f a = f b) ->
  (List.length (filter p l) <= 1)%nat.
Proof.
  induction l as [| a r IH]; intros Hnd Hp; [simpl; lia |].
  inversion Hnd as [| ? ? Hnotin Hnd']; subst. simpl.
  destruct (p a) eqn:Ea.
  - assert (Hnil : filter p r = []).
    { destruct (filter p r) as [| b t] eqn:E; [reflexivity |]. exfalso.
      assert (Hb : In b (filter p r)) by (rewrite E; left; reflexivity).
      apply filter_In in Hb. destruct Hb as [Hb Epb].
      apply Hnotin. rewrite (Hp a b (or_introl eq_refl) (or_intror Hb) Ea Epb).
      apply in_map. assumption. }
    rewrite Hnil. simpl. lia.
  - apply IH; [assumption |]. intros x y Hx Hy. apply Hp; right; assumption.
Qed.

(** Dropping the unassigned rows keeps the shift ids distinct. *)
Lemma assigned_ids_distinct (rows : list AssignRow) :
  NoDup (map a_shift_id rows) -> NoDup (map a_shift_id (dropna_employee_id rows)).
Proof.
  unfold dropna_employee_id. induction rows as [| row rest IH]; intros Hnd;
    [constructor |].
  inversion Hnd as [| ? ? Hnotin Hrest]; subst. cbn [filter].
  destruct (a_employee_id row); [| apply IH; assumption ].
  cbn [map]. constructor; [| apply IH; assumption ].
  intros Hin. apply Hnotin. apply in_map_iff in Hin. destruct Hin as [x [Hx Hin]].
  apply filter_In in Hin. rewrite <- Hx. apply in_map. tauto.
Qed.

Lemma extract_row_fields (d : Data) (v : valuation) (s : Shift) (row : AssignRow) :
  extract_row d v s = inr row ->
  a_shift_id row = shift_id s /\ a_shift_date row = shift_date s
  /\ a_start_time row = start_time s /\ a_end_time row = end_time s
  /\ a_week row = week s /\ a_is_night row = is_night s
  /\ a_duration_min row = duration_min s.
Proof.
  unfold extract_row. destruct (find _ _) as [emp |]; intros H.
  - apply bind_inr in H. destruct H as [naam [_ H]].
    apply bind_inr in H. destruct H as [desk [_ H]].
    injection H as <-. repeat split.
  - injection H as <-. repeat split.
Qed.

Lemma extracted_rows (d : Data) (v : valuation) (rows : list AssignRow) :
  extract_assignments d v = inr rows ->
  Forall2 (fun s row => extract_row d v s = inr row) (shifts d) rows.
Proof. unfold extract_assignments. apply for_each_rows. Qed.

Lemma extracted_ids (d : Data) (v : valuation) (sh : list Shift)
    (rows : list AssignRow) :
  Forall2 (fun s row => extract_row d v s = inr row) sh rows ->
  map a_shift_id rows = map shift_id sh.
Proof.
  induction 1 as [| s row sh rows H _ IH]; [reflexivity |].
  simpl. rewrite IH, (extract_row_id d v s row H). reflexivity.
Qed.

Lemma extracted_row_origin (d : Data) (v : valuation) (sh : list Shift)
    (rows : list AssignRow) (row : AssignRow) :
  Forall2 (fun s row => extract_row d v s = inr row) sh rows ->
  In row rows -> exists s, In s sh /\ extract_row d v s = inr row.
Proof.
  induction 1 as [| s r sh rows H _ IH]; intros Hin; [contradiction |].
  destruct Hin as [<- | Hin].
  - exists s. split; [left; reflexivity | assumption].
  - destruct (IH Hin) as [s' [Hs' He]]. exists s'. split; [right |]; assumption.
Qed.

(** A row that names a worker comes from a shift the solution gives to
    that worker. *)
Lemma assigned_row_origin (d : Data) (v : valuation) (rows : list AssignRow)
    (row : AssignRow) :
  extract_assignments d v = inr rows ->
  In row (dropna_employee_id rows) ->
  exists s, In s (shifts d) /\ extract_row d v s = inr row
            /\ a_employee_id row = Some (emp_of row)
            /\ In (emp_of row) (emp_ids d)
            /\ v (X (shift_id s) (emp_of row)) = true.
Proof.
  intros Hrows Hin. unfold dropna_employee_id in Hin. apply filter_In in Hin.
  destruct Hin as [Hin Hsome].
  destruct (extracted_row_origin d v _ _ row (extracted_rows d v rows Hrows) Hin)
    as [s [Hs He]].
  exists s. split; [assumption |]. split; [assumption |].
  destruct (extract_row_cases d v s row He) as [[emp (E & _ & Hemp & Hv)] | [E _]].
  - unfold emp_of. rewrite E. repeat split; assumption.
  - rewrite E in Hsome. discriminate.
Qed.

Lemma for_each_nil {A B} (body : A -> py (list B)) (l : list A) :
  (forall a, In a l -> body a = inr []) -> for_each body l = inr [].
Proof.
  induction l as [| a r IH]; intros H; [reflexivity |].
  simpl. rewrite (H a (or_introl eq_refl)). simpl.
  rewrite IH; [reflexivity |]. intros b Hb. apply H. right. assumption.
Qed.

Section USortIn.
Variable A : Type.
Variable cmp : A -> A -> comparison.

Lemma in_uinsert_sub (x y : A) (l : list A) :
  In y (uinsert cmp x l) -> y = x \/ In y l.
Proof.
  induction l as [| a r IH]; simpl.
  - intros [<- | []]. left. reflexivity.
  - destruct (cmp x a); simpl.
    + intros H. right. assumption.
    + intros [<- | H]; [left; reflexivity | right; assumption].
    + intros [<- | H]; [right; left; reflexivity |].
      destruct (IH H) as [-> | Hr]; [left; reflexivity | right; right; assumption].
Qed.

Lemma in_usort_sub (y : A) (l : list A) : In y (usort cmp l) -> In y l.
Proof.
  induction l as [| a r IH]; simpl; [tauto |].
  intros H. apply in_uinsert_sub in H. destruct H as [-> | H]; [left; reflexivity |].
  right. apply IH. assumption.
Qed.

End USortIn.

(** The rows of a worker in a week are at most as many as the shifts of
    the week that the solution gives to the worker. *)
Lemma count_rows_le (d : Data) (v : valuation) (emp : string) (wk : Z)
    (sh : list Shift) (rows : list AssignRow) :
  Forall2 (fun s row => extract_row d v s = inr row) sh rows ->
  (List.length (filter (fun r => (a_week r =? wk)%Z)
                  (filter (fun r => String.eqb (emp_of r) emp)
                     (dropna_employee_id rows)))
   <= List.length (filter (fun s => v (X (shift_id s) emp))
                     (filter (fun r => (week r =? wk)%Z) sh)))%nat.
Proof.
  induction 1 as [| s row sh rows H _ IH]; [simpl; lia |].
  destruct (extract_row_fields d v s row H) as (_ & _ & _ & _ & Hw & _).
  unfold dropna_employee_id in *. cbn [filter].
  destruct (extract_row_cases d v s row H) as [[e (E & _ & _ & Hv)] | [E _]].
  - rewrite E. cbn [filter]. unfold emp_of at 1. rewrite E.
    destruct (String.eqb_spec e emp) as [-> | Hne].
    + cbn [filter]. rewrite Hw. destruct (week s =? wk).
      * cbn [filter]. rewrite Hv. simpl. lia.
      * exact IH.
    + etransitivity; [exact IH |]. destruct (week s =? wk); [| lia ].
      cbn [filter]. destruct (v (X (shift_id s) emp)); simpl; lia.
  - rewrite E. etransitivity; [exact IH |]. destruct (week s =? wk); [| lia ].
    cbn [filter]. destruct (v (X (shift_id s) emp)); simpl; lia.
Qed.

(** X27.  The roster extracted from a solution of the model passes the
    validator's checks of coverage, of one shift per worker and date, of
    the work days per week, and of unavailability. *)
Theorem validator_accepts_solution :
  forall (d : Data) (cs : list constraint) (v : valuation) (rows : list AssignRow),
    NoDup (map shift_id (shifts d)) ->
    hard_constraints d = inr cs ->
    solution v cs ->
    extract_assignments d v = inr rows ->
    check_coverage (dropna_employee_id rows) = []
    /\ check_one_shift_per_day (dropna_employee_id rows) = []
    /\ check_max_days d (dropna_employee_id rows) = inr []
    /\ check_unavailability d (dropna_employee_id rows) = [].
Proof.
  intros d cs v rows Hnd Hcs Hsol Hrows.
  assert (Hids : NoDup (map a_shift_id (dropna_employee_id rows))).
  { apply assigned_ids_distinct.
    rewrite (extracted_ids d v _ _ (extracted_rows d v rows Hrows)). assumption. }
  split; [| split; [| split ] ].
  - (* coverage *)
    apply flat_map_nil. intros sid _. cbv zeta.
    pose proof (filter_le_one a_shift_id (fun r => Nat.eqb (a_shift_id r) sid)
                  (dropna_employee_id rows) Hids) as Hle.
    destruct (Nat.ltb_spec 1 (List.length (filter (fun r => Nat.eqb (a_shift_id r) sid)
                                             (dropna_employee_id rows))))
      as [Hlt | _]; [| reflexivity ].
    exfalso. apply (Nat.lt_irrefl 1). eapply Nat.lt_le_trans; [exact Hlt |].
    apply Hle. intros a b _ _ Ha Hb.
    apply Nat.eqb_eq in Ha. apply Nat.eqb_eq in Hb. congruence.
  - (* one shift per worker and date *)
    apply flat_map_nil. intros [emp day] _. cbv zeta. cbn [fst snd].
    pose proof (filter_le_one a_shift_id
                  (fun r => andb (String.eqb (emp_of r) emp) (a_shift_date r =? day))
                  (dropna_employee_id rows) Hids) as Hle.
    match goal with
    | |- (if Nat.ltb 1 ?n then _ else _) = _ =>
        destruct (Nat.ltb_spec 1 n) as [Hlt | _]; [| reflexivity ]
    end.
    exfalso. apply (Nat.lt_irrefl 1). eapply Nat.lt_le_trans; [exact Hlt |].
    apply Hle. intros a b Ha Hb Pa Pb.
    apply andb_true_iff in Pa. destruct Pa as [Ea Da].
    apply andb_true_iff in Pb. destruct Pb as [Eb Db].
    apply String.eqb_eq in Ea. apply String.eqb_eq in Eb.
    apply Z.eqb_eq in Da. apply Z.eqb_eq in Db.
    destruct (assigned_row_origin d v rows a Hrows Ha)
      as (sa & Hsa & Hxa & _ & Hempa & Hva).
    destruct (assigned_row_origin d v rows b Hrows Hb)
      as (sb & Hsb & Hxb & _ & _ & Hvb).
    destruct (extract_row_fields d v sa a Hxa) as (Ia & Dta & _).
    destruct (extract_row_fields d v sb b Hxb) as (Ib & Dtb & _).
    rewrite Ea in Hempa, Hva. rewrite Eb in Hvb. rewrite Ia, Ib.
    destruct (Nat.eq_dec (shift_id sa) (shift_id sb)) as [E | Hne]; [assumption |].
    exfalso.
    pose proof (model_at_most_one d cs v emp day Hcs Hsol Hempa) as Hone.
    assert (Hf : v (X (shift_id sb) emp) = false).
    { apply (zsum_values_two v _ (X (shift_id sa) emp) (X (shift_id sb) emp) Hone).
      - apply in_xs_of. rewrite <- Da, Dta. apply shifts_by_date_in. assumption.
      - apply in_xs_of. rewrite <- Db, Dtb. apply shifts_by_date_in. assumption.
      - intros E. injection E as E. contradiction.
      - assumption. }
    congruence.
  - (* work days per week *)
    apply for_each_nil. intros [emp g] Hg. cbn [fst snd].
    unfold by_employee in Hg. apply in_map_iff in Hg.
    destruct Hg as [emp' [Eg Hemp']]. injection Eg as -> <-.
    apply in_usort_sub in Hemp'. apply in_map_iff in Hemp'.
    destruct Hemp' as [row [Erow Hrow]].
    destruct (assigned_row_origin d v rows row Hrows Hrow)
      as (_ & _ & _ & _ & Hemp & _).
    rewrite Erow in Hemp.
    destruct (worker_loc_found d emp max_days_per_week Hemp) as [m Hm].
    rewrite Hm. cbn [bind]. unfold ret. f_equal.
    apply flat_map_nil. intros wk Hwk. cbv zeta.
    apply in_usort_sub in Hwk. apply in_map_iff in Hwk.
    destruct Hwk as [r [Ewk Hr]]. apply filter_In in Hr. destruct Hr as [Hr _].
    destruct (assigned_row_origin d v rows r Hrows Hr) as (s & Hs & Hx & _).
    destruct (extract_row_fields d v s r Hx) as (_ & _ & _ & _ & Hw & _).
    assert (Hweek : In wk (weeks d)).
    { unfold weeks. apply in_usort_Z. rewrite <- Ewk, Hw. apply in_map. assumption. }
    pose proof (model_week_cap d cs v emp m wk Hcs Hsol Hemp Hm Hweek) as Hcap.
    pose proof (count_rows_le d v emp wk _ _ (extracted_rows d v rows Hrows)) as Hcnt.
    match goal with
    | |- (if m <? Z.of_nat (List.length (unique_Z ?l)) then _ else _) = _ =>
        pose proof (unique_Z_length l) as Hu; rewrite length_map in Hu;
        destruct (Z.ltb_spec m (Z.of_nat (List.length (unique_Z l)))) as [Hlt | _];
        [| reflexivity ]
    end.
    lia.
  - (* unavailability: line 104 skips every row of the table *)
    apply flat_map_nil. intros r _. unfold check_unavailability_row.
    destruct (negb _); [reflexivity |].
    destruct (String.eqb _ _); [reflexivity |].
    apply flat_map_nil. intros sr _. reflexivity.
Qed.

Lemma validator_accepts_solution_witness :
  check_coverage (dropna_employee_id Cases.mixed_rows) = []
  /\ check_one_shift_per_day (dropna_employee_id Cases.mixed_rows) = []
  /\ check_max_days Cases.mixed_data (dropna_employee_id Cases.mixed_rows) = inr []
  /\ check_unavailability Cases.mixed_data (dropna_employee_id Cases.mixed_rows) = [].
Proof.
  apply (validator_accepts_solution Cases.mixed_data Cases.mixed_model
           Cases.mixed_solution Cases.mixed_rows).
  - apply preprocessed_ids_distinct.
  - vm_compute. reflexivity.
  - apply solutionb_spec. vm_compute. reflexivity.
  - vm_compute. reflexivity.
Defined.

(** In a solution a shift is given to at most one worker of the pool. *)
Lemma one_worker_per_shift (d : Data) (cs : list constraint) (v : valuation)
    (s : Shift) (e1 e2 : string) :
  hard_constraints d = inr cs -> solution v cs -> In s (shifts d) ->
  In e1 (emp_ids d) -> In e2 (emp_ids d) ->
  v (X (shift_id s) e1) = true -> v (X (shift_id s) e2) = true -> e1 = e2.
Proof.
  intros Hcs Hsol Hs H1 H2 V1 V2.
  destruct (string_dec e1 e2) as [E | Hne]; [assumption | exfalso].
  pose proof (coverage_sum d v cs s Hcs Hsol Hs) as Hsum.
  pose proof (zsum_map_ge_two _ (fun emp => value v (X (shift_id s) emp))
                (fun emp => proj1 (value_range v (X (shift_id s) emp)))
                (emp_ids d) e1 e2 H1 H2 Hne) as Hge.
  cbv beta in Hge. apply value_true in V1. apply value_true in V2.
  pose proof (value_range v (U (shift_id s))). lia.
Qed.

(** The minutes of the rows of a worker are the minutes of the shifts
    the solution gives to the worker. *)
Lemma sum_rows_eq (d : Data) (v : valuation) (emp : string)
    (sh : list Shift) (rows : list AssignRow) :
  In emp (emp_ids d) ->
  (forall s e, In s sh -> In e (emp_ids d) ->
               v (X (shift_id s) e) = true -> v (X (shift_id s) emp) = true ->
               e = emp) ->
  Forall2 (fun s row => extract_row d v s = inr row) sh rows ->
  zsum (map a_duration_min
          (filter (fun r => String.eqb (emp_of r) emp) (dropna_employee_id rows)))
  = zsum (map duration_min (filter (fun s => v (X (shift_id s) emp)) sh)).
Proof.
  intros Hemp Huniq H. induction H as [| s row sh rows H _ IH]; [reflexivity |].
  assert (IH' := IH (fun s0 e Hs0 => Huniq s0 e (or_intror Hs0))). clear IH.
  destruct (extract_row_fields d v s row H) as (_ & _ & _ & _ & _ & _ & Hdur).
  unfold dropna_employee_id in *. cbn [filter].
  destruct (extract_row_cases d v s row H) as [[e (E & _ & He & Hv)] | [E (_ & Hnone)]].
  - rewrite E. cbn [filter]. unfold emp_of at 1. rewrite E.
    destruct (String.eqb_spec e emp) as [-> | Hne].
    + rewrite Hv. rewrite !map_cons, !zsum_cons, IH', Hdur. reflexivity.
    + destruct (v (X (shift_id s) emp)) eqn:Ev; [| exact IH' ].
      exfalso. apply Hne. apply (Huniq s e (or_introl eq_refl) He Hv Ev).
  - rewrite E. rewrite (Hnone emp Hemp). exact IH'.
Qed.

(** X28.  When every week of the horizon has at least one assigned shift, the
    roster extracted from a solution passes the validator's check of the
    contract hours. *)
Theorem validator_contract_agrees :
  forall (d : Data) (cs : list constraint) (v : valuation) (rows : list AssignRow),
    NoDup (map shift_id (shifts d)) ->
    hard_constraints d = inr cs ->
    solution v cs ->
    extract_assignments d v = inr rows ->
    List.length (unique_Z (map a_week (dropna_employee_id rows)))
    = List.length (weeks d) ->
    check_contract d (dropna_employee_id rows) = inr [].
Proof.
  intros d cs v rows Hnd Hcs Hsol Hrows Hweeks.
  unfold check_contract. apply for_each_nil. intros [emp g] Hg. cbn [fst snd].
  unfold by_employee in Hg. apply in_map_iff in Hg.
  destruct Hg as [emp' [Eg Hemp']]. injection Eg as -> <-.
  apply in_usort_sub in Hemp'. apply in_map_iff in Hemp'.
  destruct Hemp' as [row [Erow Hrow]].
  destruct (assigned_row_origin d v rows row Hrows Hrow)
    as (_ & _ & _ & _ & Hemp & _).
  rewrite Erow in Hemp.
  destruct (worker_loc_found d emp contract_minutes Hemp) as [cap Hcap].
  rewrite Hcap. cbn [bind]. unfold ret. f_equal.
  rewrite (sum_rows_eq d v emp (shifts d) rows Hemp).
  - pose proof (model_contract_constraint d cs v emp cap Hnd Hcs Hsol Hemp Hcap) as Hb.
    cbn [holdsb forallb implb cmp_holds] in Hb. apply Z.leb_le in Hb.
    unfold eval in Hb. cbn [terms offset] in Hb.
    rewrite weighted_sum_filter in Hb.
    rewrite Hweeks.
    destruct (Z.ltb_spec (cap * Z.of_nat (List.length (weeks d)))
                (zsum (map duration_min
                         (filter (fun s => v (X (shift_id s) emp)) (shifts d)))))
      as [Hlt | _]; [lia | reflexivity].
  - intros s e Hs He V1 V2.
    apply (one_worker_per_shift d cs v s e emp Hcs Hsol Hs He Hemp V1 V2).
  - apply extracted_rows. assumption.
Qed.

Lemma validator_contract_agrees_witness :
  check_contract Cases.mixed_data (dropna_employee_id Cases.mixed_rows) = inr [].
Proof.
  apply (validator_contract_agrees Cases.mixed_data Cases.mixed_model
           Cases.mixed_solution Cases.mixed_rows).
  - apply preprocessed_ids_distinct.
  - vm_compute. reflexivity.
  - apply solutionb_spec. vm_compute. reflexivity.
  - vm_compute. reflexivity.
  - vm_compute. reflexivity.
Defined.

(* ===================================================================== *)
(** ** The answers of the request handler *)
(* ===================================================================== *)

Lemma in_by_employee (rows : list AssignRow) (g : string * list AssignRow) :
  In g (by_employee rows) -> exists r, In r rows /\ emp_of r = fst g.
Proof.
  unfold by_employee. intros H. apply in_map_iff in H.
  destruct H as [emp [<- Hemp]]. apply in_usort_sub in Hemp.
  apply in_map_iff in Hemp. destruct Hemp as [r [E Hr]]. exists r. tauto.
Qed.

(** The validator raises nothing on a table whose workers are all in the
    worker table, when the shift table is not empty. *)
Lemma validation_total (d : Data) (rows : list AssignRow) :
  (forall r, In r rows -> In (emp_of r) (emp_ids d)) ->
  shifts d <> [] ->
  exists errs, validation_errors d rows = inr errs.
Proof.
  intros Hpool Hsh. unfold validation_errors.
  assert (Hg : forall g, In g (by_employee rows) -> In (fst g) (emp_ids d)).
  { intros g Hin. destruct (in_by_employee rows g Hin) as [r [Hr <-]].
    apply Hpool. assumption. }
  assert (H0 : exists ex, COA_7_1_exempt d = inr ex).
  { apply for_each_total. intros w Hw. cbv zeta.
    destruct (worker_loc_found d (medewerker_id w) voorkeur_nacht) as [a Ha].
    - unfold emp_ids. apply in_map. assumption.
    - rewrite Ha. eexists. reflexivity. }
  assert (H4 : exists e4, check_max_days d rows = inr e4).
  { apply for_each_total. intros g Hin.
    destruct (worker_loc_found d (fst g) max_days_per_week (Hg g Hin)) as [a Ha].
    rewrite Ha. eexists. reflexivity. }
  assert (H5 : exists e5, check_contract d rows = inr e5).
  { apply for_each_total. intros g Hin.
    destruct (worker_loc_found d (fst g) contract_minutes (Hg g Hin)) as [a Ha].
    rewrite Ha. eexists. reflexivity. }
  assert (H73 : exists e73, check_night_cap d rows = inr e73).
  { apply for_each_total. intros g Hin. cbv zeta.
    destruct (shifts d) as [| s0 sr]; [contradiction |]. eexists. reflexivity. }
  assert (H74 : exists e74, check_age d rows = inr e74).
  { apply for_each_total. intros g Hin.
    destruct (in_str (fst g) (CAO_7_4_exempt_validator d)); [eexists; reflexivity |].
    destruct (worker_loc_found d (fst g) leeftijd (Hg g Hin)) as [a Ha].
    rewrite Ha. eexists. reflexivity. }
  destruct H0 as [ex ->]. destruct H4 as [e4 ->]. destruct H5 as [e5 ->].
  destruct H73 as [e73 ->]. destruct H74 as [e74 ->]. eexists. reflexivity.
Qed.

Lemma auto_rooster_shifts (d : Data) (st : status) (v : valuation) (res : Result) :
  auto_rooster_standardized d st v = inr (Some res) -> shifts d <> [].
Proof.
  unfold auto_rooster_standardized. intros H E.
  unfold weeks in H. rewrite E in H. discriminate.
Qed.

(** X29.  The handler answers 200 with the statistics exactly when the solver
    returns a result: the validator raises nothing on the roster of the
    solver and its value never makes the handler answer 400.  In every
    other case the handler answers 500. *)
Theorem handler_status_codes :
  forall (d : Data) (st : status) (v : valuation),
    let answer :=
      generate_schedule (fun data => auto_rooster_standardized data st v) d in
    (exists res,
        auto_rooster_standardized d st v = inr (Some res)
        /\ (exists errs,
               validation_errors d (dropna_employee_id (assignments_df res))
               = inr errs)
        /\ answer = mkResponse (BodySuccess (stats_of d (assignments_df res))) 200)
    \/ ((auto_rooster_standardized d st v = inr None
         \/ exists e, auto_rooster_standardized d st v = inl e)
        /\ exists msg, answer = mkResponse (BodyError msg) 500).
Proof.
  intros d st v answer. unfold answer, generate_schedule, schedule_body.
  destruct (auto_rooster_standardized d st v) as [e | [res |]] eqn:E.
  - right. split; [right; eexists; reflexivity |]. eexists. reflexivity.
  - left. exists res. split; [reflexivity |].
    destruct (auto_rooster_success d st v res E) as [_ [rows [Hrows ->]]].
    cbn [assignments_df].
    assert (Htot : exists errs,
               validation_errors d (dropna_employee_id rows) = inr errs).
    { apply validation_total; [| apply (auto_rooster_shifts d st v _ E) ].
      intros r Hr. destruct (assigned_row_origin d v rows r Hrows Hr)
        as (_ & _ & _ & _ & Hemp & _). assumption. }
    split; [assumption |]. destruct Htot as [errs Herrs].
    unfold validate_auto_rooster. cbn [bind subscript_assignments_df ret assignments_df].
    rewrite Herrs. reflexivity.
  - right. split; [left; reflexivity |]. eexists. reflexivity.
Qed.

(** X16.  With an empty shift table the solver raises at its first print
    statement, whatever the other tables hold, and the handler answers
    500 with the text of that exception. *)
Theorem empty_shift_table_fails :
  forall (d : Data) (st : status) (v : valuation),
    shifts d = [] ->
    auto_rooster_standardized d st v = inl (IndexError "list index out of range")
    /\ generate_schedule (fun data => auto_rooster_standardized data st v) d
       = mkResponse (BodyError "list index out of range") 500.
Proof.
  intros d st v Hsh.
  assert (H : auto_rooster_standardized d st v
              = inl (IndexError "list index out of range")).
  { unfold auto_rooster_standardized, weeks. rewrite Hsh. reflexivity. }
  split; [exact H |].
  unfold generate_schedule, schedule_body. rewrite H. reflexivity.
Qed.

Lemma empty_shift_table_fails_witness :
  auto_rooster_standardized Cases.kitchen_only_data OPTIMAL Scenario.all_uncovered
  = inl (IndexError "list index out of range")
  /\ generate_schedule
       (fun data => auto_rooster_standardized data OPTIMAL Scenario.all_uncovered)
       Cases.kitchen_only_data
     = mkResponse (BodyError "list index out of range") 500.
Proof.
  apply (empty_shift_table_fails Cases.kitchen_only_data OPTIMAL Scenario.all_uncovered).
  reflexivity.
Defined.

(* ===================================================================== *)
(** ** Upload names *)
(* ===================================================================== *)

Lemma rsplit1_some (c : ascii) (s h t : string) :
  rsplit1 c s = Some (h, t) ->
  s = (h ++ String c t)%string /\ contains_char c t = false.
Proof.
  revert h t. induction s as [| a r IH]; intros h t H; [discriminate |].
  simpl in H. destruct (rsplit1 c r) as [[h0 t0] |] eqn:E.
  - injection H as <- <-. destruct (IH h0 t0 eq_refl) as [-> Hc].
    split; [reflexivity | assumption].
  - destruct (Ascii.eqb_spec a c) as [-> | Hne]; [| discriminate ].
    injection H as <- <-. split; [reflexivity |].
    clear IH. induction r as [| b r IHr]; [reflexivity |].
    simpl in E. destruct (rsplit1 c r) as [[h1 t1] |]; [discriminate |].
    destruct (Ascii.eqb b c) eqn:Eb; [discriminate |].
    simpl. rewrite Eb. apply IHr. reflexivity.
Qed.

Lemma rsplit1_none (c : ascii) (s : string) :
  rsplit1 c s = None -> contains_char c s = false.
Proof.
  induction s as [| a r IH]; intros H; [reflexivity |].
  simpl in H. destruct (rsplit1 c r) as [[h t] |]; [discriminate |].
  destruct (Ascii.eqb a c) eqn:E; [discriminate |].
  simpl. rewrite E. apply IH. reflexivity.
Qed.

Lemma rsplit1_app (c : ascii) (h t : string) :
  contains_char c t = false -> rsplit1 c (h ++ String c t) = Some (h, t).
Proof.
  intros Ht.
  assert (Hnone : rsplit1 c t = None).
  { destruct (rsplit1 c t) as [[h0 t0] |] eqn:E; [| reflexivity ].
    apply rsplit1_some in E. destruct E as [-> _].
    exfalso. clear -Ht. induction h0 as [| a r IH]; simpl in Ht.
    - rewrite Ascii.eqb_refl in Ht. discriminate.
    - apply orb_false_iff in Ht. tauto. }
  induction h as [| a r IH]; simpl.
  - rewrite Hnone, Ascii.eqb_refl. reflexivity.
  - rewrite IH. reflexivity.
Qed.

Lemma contains_char_app (c : ascii) (h t : string) :
  contains_char c (h ++ String c t) = true.
Proof.
  induction h as [| a r IH]; simpl.
  - rewrite Ascii.eqb_refl. reflexivity.
  - rewrite IH. apply orb_true_r.
Qed.

Lemma contains_char_lower (c : ascii) (s : string) :
  contains_char c s = true -> contains_char (lower_ascii c) (lower s) = true.
Proof.
  induction s as [| a r IH]; simpl; [discriminate |].
  intros H. apply orb_true_iff in H. destruct H as [H | H].
  - apply Ascii.eqb_eq in H. subst a. rewrite Ascii.eqb_refl. reflexivity.
  - rewrite (IH H). apply orb_true_r.
Qed.

(** X30.  A name is accepted exactly when it ends in a dot followed by csv or
    xlsx, in any mix of upper and lower case. *)
Theorem allowed_file_spec :
  forall filename : string,
    allowed_file filename = true
    <-> exists stem ext,
          filename = (stem ++ String "." ext)%string
          /\ (lower ext = "csv" \/ lower ext = "xlsx").
Proof.
  intros filename. unfold allowed_file, ALLOWED_EXT. split.
  - intros H. apply andb_true_iff in H. destruct H as [_ H].
    destruct (rsplit1 "." filename) as [[stem ext] |] eqn:E; [| discriminate ].
    apply rsplit1_some in E. destruct E as [-> _].
    exists stem, ext. split; [reflexivity |].
    apply in_str_spec in H. simpl in H. intuition congruence.
  - intros (stem & ext & -> & Hext).
    assert (Hdot : contains_char "." ext = false).
    { destruct (contains_char "." ext) eqn:E; [| reflexivity ].
      apply contains_char_lower in E. change (lower_ascii ".") with "."%char in E.
      destruct Hext as [Hx | Hx]; rewrite Hx in E; discriminate. }
    rewrite contains_char_app, (rsplit1_app _ _ _ Hdot). cbn [andb].
    apply in_str_spec. simpl. destruct Hext as [<- | <-]; tauto.
Qed.

(* ===================================================================== *)
(** ** The worker table *)
(* ===================================================================== *)

Lemma digits_from_value (fuel : nat) (x : Z) (acc : list Z) :
  fold_left (fun a dgt => 10 * a + dgt) (digits_from fuel x acc) 0
  = fold_left (fun a dgt => 10 * a + dgt) acc x.
Proof.
  revert x acc. induction fuel as [| f IH]; intros x acc; [reflexivity |].
  cbn [digits_from]. destruct (x <? 10); [reflexivity |].
  rewrite IH. cbn [fold_left]. f_equal. pose proof (Z.div_mod x 10 ltac:(lia)). lia.
Qed.

Lemma digits_from_range (fuel : nat) (x : Z) (acc : list Z) :
  0 <= x -> (Z.to_nat x <= fuel)%nat ->
  Forall (fun dgt => 0 <= dgt <= 9) acc ->
  Forall (fun dgt => 0 <= dgt <= 9) (digits_from fuel x acc).
Proof.
  revert x acc. induction fuel as [| f IH]; intros x acc Hx Hf Hacc.
  - simpl. constructor; [lia | assumption].
  - simpl. destruct (Z.ltb_spec x 10) as [Hlt | Hge].
    + constructor; [lia | assumption].
    + pose proof (Z.mod_pos_bound x 10 ltac:(lia)).
      assert (0 <= x / 10 < x) by (split; [apply Z.div_pos; lia | apply Z.div_lt; lia]).
      apply IH; [lia | lia |]. constructor; [lia | assumption].
Qed.

Lemma digits_from_nonempty (fuel : nat) (x : Z) (acc : list Z) :
  digits_from fuel x acc <> [].
Proof.
  revert x acc. induction fuel as [| f IH]; intros x acc; simpl; [discriminate |].
  destruct (x <? 10); [discriminate | apply IH].
Qed.

(** X24.  A cell below 10 gives the list of that one number; a cell from 10 on
    gives its decimal digits, from which the cell is read back. *)
Theorem deskundigheid_list_digits :
  forall x : Z,
    (x < 10 -> deskundigheid_list x = [x])
    /\ (10 <= x ->
        Forall (fun dgt => 0 <= dgt <= 9) (deskundigheid_list x)
        /\ (2 <= List.length (deskundigheid_list x))%nat
        /\ fold_left (fun a dgt => 10 * a + dgt) (deskundigheid_list x) 0 = x).
Proof.
  intros x. unfold deskundigheid_list. split.
  - intros H. apply Z.ltb_lt in H. rewrite H. reflexivity.
  - intros H. destruct (Z.ltb_spec x 10) as [Hlt | _]; [lia |].
    split; [apply digits_from_range; [lia | lia | constructor] |].
    split; [| apply digits_from_value ].
    destruct (Z.to_nat x) as [| f] eqn:E; [lia |]. simpl.
    destruct (Z.ltb_spec x 10) as [Hlt | _]; [lia |].
    assert (Hlen : forall fuel y acc,
               (List.length acc < List.length (digits_from fuel y acc))%nat).
    { clear. induction fuel as [| f IH]; intros y acc; simpl; [lia |].
      destruct (y <? 10); simpl; [lia |].
      specialize (IH (y / 10) (y mod 10 :: acc)). simpl in IH. lia. }
    specialize (Hlen f (x / 10) [x mod 10]). simpl in Hlen. lia.
Qed.

Lemma deskundigheid_list_nonempty (x : Z) : deskundigheid_list x <> [].
Proof.
  unfold deskundigheid_list. destruct (x <? 10); [discriminate |].
  apply digits_from_nonempty.
Qed.

(** X25.  No list of the pool holds a 5 or a 6, a list that holds a 7 also
    holds a 3, and none is empty, so that its minimum exists; everybody
    in the pool is a row of the sheet whose wish is not 'niet
    plannen'. *)
Theorem qualified_pool_invariants :
  forall rows : list (string * string * Z),
    Forall (fun p : string * list Z =>
              ~ In 5 (snd p) /\ ~ In 6 (snd p)
              /\ (In 7 (snd p) -> In 3 (snd p))
              /\ (exists m, py_min (snd p) = inr m)
              /\ exists wensen desk,
                   In (fst p, wensen, desk) rows /\ wensen <> "niet plannen")
           (qualified_pool rows).
Proof.
  intros rows. apply Forall_forall. intros [mid l] Hin.
  unfold qualified_pool in Hin. apply in_map_iff in Hin.
  destruct Hin as [[mid0 l0] [E Hin]]. cbn [fst snd] in E. injection E as -> <-.
  apply filter_In in Hin. destruct Hin as [Hin Hno]. cbn [snd] in Hno.
  apply in_map_iff in Hin. destruct Hin as [[[mid1 wensen] desk] [E Hin]].
  injection E as -> <-. apply filter_In in Hin. destruct Hin as [Hin Hw].
  apply negb_true_iff in Hno. unfold has_5_or_6 in Hno.
  apply orb_false_iff in Hno. destruct Hno as [H5 H6].
  assert (N5 : ~ In 5 (deskundigheid_list desk))
    by (intros H; apply in_Z_spec in H; congruence).
  assert (N6 : ~ In 6 (deskundigheid_list desk))
    by (intros H; apply in_Z_spec in H; congruence).
  cbn [fst snd]. unfold ensure_3.
  destruct (in_Z 7 (deskundigheid_list desk)) eqn:E7;
    destruct (in_Z 3 (deskundigheid_list desk)) eqn:E3; cbn [andb negb].
  - repeat split; try assumption.
    + intros _. apply in_Z_spec. assumption.
    + pose proof (deskundigheid_list_nonempty desk).
      destruct (deskundigheid_list desk); [contradiction | eexists; reflexivity].
    + exists wensen, desk. split; [assumption |].
      apply negb_true_iff in Hw. apply String.eqb_neq. assumption.
  - repeat split.
    + intros H. apply in_app_or in H. destruct H as [H | [H | []]]; [tauto | lia].
    + intros H. apply in_app_or in H. destruct H as [H | [H | []]]; [tauto | lia].
    + intros _. apply in_or_app. right. left. reflexivity.
    + pose proof (deskundigheid_list_nonempty desk).
      destruct (deskundigheid_list desk); [contradiction | eexists; reflexivity].
    + exists wensen, desk. split; [assumption |].
      apply negb_true_iff in Hw. apply String.eqb_neq. assumption.
  - repeat split; try assumption.
    + intros _. apply in_Z_spec. assumption.
    + pose proof (deskundigheid_list_nonempty desk).
      destruct (deskundigheid_list desk); [contradiction | eexists; reflexivity].
    + exists wensen, desk. split; [assumption |].
      apply negb_true_iff in Hw. apply String.eqb_neq. assumption.
  - repeat split; try assumption.
    + intros H. apply in_Z_spec in H. congruence.
    + pose proof (deskundigheid_list_nonempty desk).
      destruct (deskundigheid_list desk); [contradiction | eexists; reflexivity].
    + exists wensen, desk. split; [assumption |].
      apply negb_true_iff in Hw. apply String.eqb_neq. assumption.
Qed.

(** X26.  The computed age is [k] exactly from the [k]-th anniversary of the
    date of birth up to the day before the next one. *)
Theorem leeftijd_between_birthdays :
  forall (current_date geboortedatum : ymd) (k : Z),
    leeftijd_on current_date geboortedatum = k
    <-> ymd_le (add_years geboortedatum k) current_date
        /\ ymd_lt current_date (add_years geboortedatum (k + 1)).
Proof.
  intros [cy cm cd] [gy gm gd] k.
  unfold leeftijd_on, month_day_ltb, ymd_le, ymd_lt, add_years.
  cbn [year month day].
  destruct (Z.ltb_spec cm gm); destruct (Z.eqb_spec cm gm);
    destruct (Z.ltb_spec cd gd); cbn [orb andb]; lia.
Qed.

(* ===================================================================== *)
(** ** Personal wishes *)
(* ===================================================================== *)

Lemma forbid_blocks (d : Data) (v : valuation) (emp : string)
    (forbidden : Shift -> bool) (s : Shift) :
  Forall (holds v) (forbid d emp forbidden) ->
  In emp (emp_ids d) -> In s (shifts d) ->
  v (X (shift_id s) emp) = true -> forbidden s = false.
Proof.
  intros Hall Hemp Hs Hv. unfold forbid in Hall.
  rewrite (proj2 (in_str_spec _ _) Hemp) in Hall.
  destruct (forbidden s) eqn:E; [| reflexivity ].
  rewrite Forall_forall in Hall.
  assert (Hz : v (X (shift_id s) emp) = false).
  { apply fix_zero_holds. apply Hall. apply in_map_iff. exists s.
    split; [reflexivity |]. apply filter_In. tauto. }
  congruence.
Qed.

(** X13.  A solution of the personal rules gives worker 2097 night shifts
    only, worker 2653 shifts of Saturday and Sunday only, worker 3888
    Friday shifts with an 'A' in the name and weekend shifts only,
    worker 601011 no shift of Monday, Tuesday or Wednesday, and worker
    602056 at most three shifts a week, all with an 'A' or an 'N' in the
    name.  The day is the weekday column of the template. *)
Theorem personal_rules_respected :
  forall (d : Data) (cs : list constraint) (v : valuation) (s : Shift),
    NoDup (map shift_id (shifts d)) ->
    personal_rules d = inr cs ->
    solution v cs ->
    In s (shifts d) ->
    (In "2097" (emp_ids d) -> v (X (shift_id s) "2097") = true -> is_night s = true)
    /\ (In "2653" (emp_ids d) -> v (X (shift_id s) "2653") = true ->
        day_of_week s = 5 \/ day_of_week s = 6)
    /\ (In "3888" (emp_ids d) -> v (X (shift_id s) "3888") = true ->
        (day_of_week s = 4 /\ contains_char "A" (shift_name s) = true)
        \/ day_of_week s = 5 \/ day_of_week s = 6)
    /\ (In "601011" (emp_ids d) -> v (X (shift_id s) "601011") = true ->
        day_of_week s <> 0 /\ day_of_week s <> 1 /\ day_of_week s <> 2)
    /\ (In "602056" (emp_ids d) -> v (X (shift_id s) "602056") = true ->
        contains_char "A" (shift_name s) = true
        \/ contains_char "N" (shift_name s) = true)
    /\ (In "602056" (emp_ids d) ->
        Z.of_nat (List.length (filter (fun r => v (X (shift_id r) "602056"))
                                 (filter (fun r => week r =? week s) (shifts d))))
        <= 3).
Proof.
  intros d cs v s Hnd Hcs Hsol Hs.
  unfold personal_rules in Hcs. apply bind_inr in Hcs.
  destruct Hcs as [r8 [H8 Hcs]]. injection Hcs as <-.
  unfold solution in Hsol.
  apply Forall_app in Hsol. destruct Hsol as [S1 Hsol].
  apply Forall_app in Hsol. destruct Hsol as [S2 Hsol].
  apply Forall_app in Hsol. destruct Hsol as [S3 Hsol].
  apply Forall_app in Hsol. destruct Hsol as [S4 S8].
  assert (Hinw : In (shift_id s) (shifts_by_week d (week s))).
  { unfold shifts_by_week. apply in_map. apply filter_In. split; [assumption |].
    apply Z.eqb_refl. }
  assert (Hweek : In (week s) (weeks d)).
  { unfold weeks. apply in_usort_Z. apply in_map. assumption. }
  split; [| split; [| split; [| split; [| split ] ] ] ].
  - intros Hemp Hv.
    pose proof (forbid_blocks d v _ _ s S1 Hemp Hs Hv) as Hf. cbv beta in Hf.
    apply negb_false_iff in Hf. apply in_nat_spec in Hf.
    apply (night_shifts_night d s Hnd Hs Hf).
  - intros Hemp Hv.
    pose proof (forbid_blocks d v _ _ s S2 Hemp Hs Hv) as Hf. cbv beta in Hf.
    apply negb_false_iff in Hf. apply in_Z_spec in Hf. simpl in Hf. intuition lia.
  - intros Hemp Hv.
    pose proof (forbid_blocks d v _ _ s S3 Hemp Hs Hv) as Hf. cbv beta in Hf.
    apply negb_false_iff in Hf. apply orb_true_iff in Hf. destruct Hf as [Hf | Hf].
    + apply andb_true_iff in Hf. destruct Hf as [Hd Ha]. apply Z.eqb_eq in Hd.
      left. split; assumption.
    + apply in_Z_spec in Hf. simpl in Hf. right. intuition lia.
  - intros Hemp Hv.
    pose proof (forbid_blocks d v _ _ s S4 Hemp Hs Hv) as Hf. cbv beta in Hf.
    assert (Hn : ~ In (day_of_week s) [0; 1; 2])
      by (intros Hin; apply in_Z_spec in Hin; congruence).
    simpl in Hn. lia.
  - intros Hemp Hv. unfold rule_602056 in H8.
    rewrite (proj2 (in_str_spec _ _) Hemp) in H8.
    destruct (for_each_inr_incl _ _ _ H8 (week s) Hweek) as [cw [Hw Hiw]].
    destruct (shifts_by_week d (week s)) as [| a l] eqn:E; [contradiction |].
    apply bind_inr in Hw. destruct Hw as [fixes [Hfix Hw]]. injection Hw as <-.
    destruct (for_each_inr_incl _ _ _ Hfix (shift_id s) Hinw) as [xs [Hx Hix]].
    rewrite (shift_loc_unique d s shift_name Hnd Hs) in Hx. cbn [bind] in Hx.
    destruct (contains_char "A" (shift_name s)) eqn:EA; [left; reflexivity |].
    destruct (contains_char "N" (shift_name s)) eqn:EN; [right; reflexivity |].
    exfalso. cbn [negb andb] in Hx. injection Hx as <-.
    assert (Hz : v (X (shift_id s) "602056") = false).
    { apply fix_zero_holds. rewrite Forall_forall in S8. apply S8.
      apply Hiw. right. apply Hix. left. reflexivity. }
    congruence.
  - intros Hemp. unfold rule_602056 in H8.
    rewrite (proj2 (in_str_spec _ _) Hemp) in H8.
    destruct (for_each_inr_incl _ _ _ H8 (week s) Hweek) as [cw [Hw Hiw]].
    rewrite <- zsum_values_count.
    change (map shift_id (filter (fun r => week r =? week s) (shifts d)))
      with (shifts_by_week d (week s)).
    destruct (shifts_by_week d (week s)) as [| a l] eqn:E; [contradiction |].
    apply bind_inr in Hw. destruct Hw as [fixes [Hfix Hw]]. injection Hw as <-.
    assert (Hc : holdsb v (Add (sum_of (xs_of "602056" (a :: l))) Le 3 []) = true).
    { rewrite Forall_forall in S8. apply S8. apply Hiw. left. reflexivity. }
    cbn [holdsb forallb implb cmp_holds] in Hc. rewrite eval_sum_of in Hc.
    apply Z.leb_le in Hc. exact Hc.
Qed.

Lemma personal_rules_respected_witness :
  (In "2097" (emp_ids Wishes.wishes_data) ->
   Wishes.wishes_solution (X (shift_id (Cases.shift_at Wishes.wishes_data 5)) "2097") = true ->
   is_night (Cases.shift_at Wishes.wishes_data 5) = true)
  /\ (In "2653" (emp_ids Wishes.wishes_data) ->
      Wishes.wishes_solution (X (shift_id (Cases.shift_at Wishes.wishes_data 5)) "2653") = true ->
      day_of_week (Cases.shift_at Wishes.wishes_data 5) = 5
      \/ day_of_week (Cases.shift_at Wishes.wishes_data 5) = 6)
  /\ (In "3888" (emp_ids Wishes.wishes_data) ->
      Wishes.wishes_solution (X (shift_id (Cases.shift_at Wishes.wishes_data 5)) "3888") = true ->
      (day_of_week (Cases.shift_at Wishes.wishes_data 5) = 4
       /\ contains_char "A" (shift_name (Cases.shift_at Wishes.wishes_data 5)) = true)
      \/ day_of_week (Cases.shift_at Wishes.wishes_data 5) = 5
      \/ day_of_week (Cases.shift_at Wishes.wishes_data 5) = 6)
  /\ (In "601011" (emp_ids Wishes.wishes_data) ->
      Wishes.wishes_solution (X (shift_id (Cases.shift_at Wishes.wishes_data 5)) "601011") = true ->
      day_of_week (Cases.shift_at Wishes.wishes_data 5) <> 0
      /\ day_of_week (Cases.shift_at Wishes.wishes_data 5) <> 1
      /\ day_of_week (Cases.shift_at Wishes.wishes_data 5) <> 2)
  /\ (In "602056" (emp_ids Wishes.wishes_data) ->
      Wishes.wishes_solution (X (shift_id (Cases.shift_at Wishes.wishes_data 5)) "602056") = true ->
      contains_char "A" (shift_name (Cases.shift_at Wishes.wishes_data 5)) = true
      \/ contains_char "N" (shift_name (Cases.shift_at Wishes.wishes_data 5)) = true)
  /\ (In "602056" (emp_ids Wishes.wishes_data) ->
      Z.of_nat
        (List.length
           (filter (fun r => Wishes.wishes_solution (X (shift_id r) "602056"))
              (filter (fun r => week r =? week (Cases.shift_at Wishes.wishes_data 5))
                 (shifts Wishes.wishes_data))))
      <= 3).
Proof.
  apply (personal_rules_respected Wishes.wishes_data
           (Wishes.wishes_model) Wishes.wishes_solution
           (Cases.shift_at Wishes.wishes_data 5)).
  - apply preprocessed_ids_distinct.
  - vm_compute. reflexivity.
  - apply solutionb_spec. vm_compute. reflexivity.
  - in_list.
Defined.

(* ===================================================================== *)
(** ** The night indicator and the night cap *)
(* ===================================================================== *)

(** X5.  In a solution the night indicator of a worker and a date of the
    horizon is 1 exactly when the worker has a night shift of that
    date. *)
Theorem night_indicator_iff :
  forall (d : Data) (cs : list constraint) (v : valuation) (emp : string)
         (day : date),
    hard_constraints d = inr cs ->
    solution v cs ->
    In emp (emp_ids d) ->
    In day (dates_list d) ->
    (v (N_emp_date emp day) = true
     <-> exists s, In s (shifts d) /\ is_night s = true /\ shift_date s = day
                   /\ v (X (shift_id s) emp) = true).
Proof.
  intros d cs v emp day Hcs Hsol Hemp Hday. split.
  - intros HN.
    destruct (existsb (fun s => andb (andb (is_night s) (shift_date s =? day))
                                     (v (X (shift_id s) emp))) (shifts d)) eqn:E.
    + apply existsb_exists in E. destruct E as [s [Hs Hp]].
      apply andb_true_iff in Hp. destruct Hp as [Hp Hv].
      apply andb_true_iff in Hp. destruct Hp as [Hn Hd]. apply Z.eqb_eq in Hd.
      exists s. tauto.
    + exfalso.
      assert (HF : v (N_emp_date emp day) = false).
      { apply (night_indicator_false d cs v emp day Hcs Hsol Hemp Hday).
        intros s Hs Hn Hd.
        destruct (v (X (shift_id s) emp)) eqn:Ev; [| reflexivity ].
        assert (Hex : existsb (fun s => andb (andb (is_night s) (shift_date s =? day))
                                             (v (X (shift_id s) emp))) (shifts d) = true).
        { apply existsb_exists. exists s. split; [assumption |].
          rewrite Hn, Ev, Hd, Z.eqb_refl. reflexivity. }
        congruence. }
      congruence.
  - intros [s (Hs & Hn & <- & Hv)].
    apply (night_indicator_true d cs v emp s Hcs Hsol Hemp Hs Hn Hv).
Qed.

Lemma night_indicator_iff_witness :
  Cases.mixed_solution (N_emp_date "1001" Scenario.monday) = true
  <-> exists s, In s (shifts Cases.mixed_data) /\ is_night s = true
                /\ shift_date s = Scenario.monday
                /\ Cases.mixed_solution (X (shift_id s) "1001") = true.
Proof.
  apply (night_indicator_iff Cases.mixed_data Cases.mixed_model Cases.mixed_solution
           "1001" Scenario.monday).
  - vm_compute. reflexivity.
  - apply solutionb_spec. vm_compute. reflexivity.
  - in_list.
  - in_list.
Defined.

Lemma in_Z_cons (x w : Z) (ws : list Z) :
  in_Z x (w :: ws) = orb (x =? w) (in_Z x ws).
Proof. reflexivity. Qed.

Lemma count_split_week (v : valuation) (emp : string) (w : Z) (ws : list Z)
    (l : list Shift) :
  ~ In w ws ->
  (List.length (filter (fun s => v (X (shift_id s) emp))
                  (filter (fun r => andb (week r =? w)%Z (is_night r)) l))
   + List.length (filter (fun s => v (X (shift_id s) emp))
                    (filter (fun r => andb (in_Z (week r) ws) (is_night r)) l))
   = List.length (filter (fun s => v (X (shift_id s) emp))
                    (filter (fun r => andb (in_Z (week r) (w :: ws)) (is_night r)) l)))%nat.
Proof.
  intros Hnot. induction l as [| a l IH]; [reflexivity |].
  cbn [filter]. rewrite (in_Z_cons (week a) w ws).
  destruct (Z.eqb_spec (week a) w) as [Ew | Hne]; cbn [orb andb].
  - assert (Hr : in_Z (week a) ws = false).
    { destruct (in_Z (week a) ws) eqn:Ein; [| reflexivity ].
      apply in_Z_spec in Ein. rewrite Ew in Ein. contradiction. }
    rewrite Hr. cbn [andb]. destruct (is_night a); cbn [filter]; [| exact IH ].
    destruct (v (X (shift_id a) emp)); cbn [List.length]; lia.
  - destruct (andb (in_Z (week a) ws) (is_night a)); cbn [filter]; [| exact IH ].
    destruct (v (X (shift_id a) emp)); cbn [List.length]; lia.
Qed.

(** The assigned shifts among the night shifts of a list of weeks. *)
Lemma zsum_values_weeks (d : Data) (v : valuation) (emp : string) (ws : list Z) :
  NoDup ws ->
  zsum (map (value v) (xs_of emp (flat_map (night_shifts_by_week d) ws)))
  = Z.of_nat (List.length
                (filter (fun s => v (X (shift_id s) emp))
                   (filter (fun r => andb (in_Z (week r) ws) (is_night r))
                      (shifts d)))).
Proof.
  induction ws as [| w r IH]; intros Hnd.
  - simpl. induction (shifts d) as [| a l IHl]; [reflexivity | exact IHl].
  - inversion Hnd as [| ? ? Hnot Hnd']; subst.
    cbn [flat_map]. unfold xs_of in *. rewrite map_app, map_app, zsum_app.
    rewrite (IH Hnd'). fold (xs_of emp (night_shifts_by_week d w)).
    unfold night_shifts_by_week. rewrite zsum_values_count.
    rewrite <- Nat2Z.inj_add. f_equal. apply count_split_week. assumption.
Qed.

Lemma range_NoDup (a b : Z) : NoDup (range a b).
Proof.
  unfold range. generalize (seq_NoDup (Z.to_nat (b - a)) 0).
  induction (seq 0 (Z.to_nat (b - a))) as [| i l IH]; intros Hnd; [constructor |].
  inversion Hnd as [| ? ? Hnot Hnd']; subst. simpl. constructor; [| apply IH; assumption ].
  intros Hin. apply in_map_iff in Hin. destruct Hin as [j [E Hj]].
  assert (j = i) by lia. subst j. contradiction.
Qed.

(** X8.  Section 7.3.  For every window of thirteen weeks that lies inside
    the horizon, a solution gives a worker at most 35 of the night
    shifts of the window. *)
Theorem night_cap_full_window :
  forall (d : Data) (cs : list constraint) (v : valuation) (emp : string)
         (w0 : Z) (wr : list Z) (start_week : Z),
    hard_constraints d = inr cs ->
    solution v cs ->
    In emp (emp_ids d) ->
    weeks d = w0 :: wr ->
    zmin_list w0 wr <= start_week <= zmax_list w0 wr - 12 ->
    Z.of_nat (List.length
                (filter (fun s => v (X (shift_id s) emp))
                   (filter (fun r => andb (in_Z (week r)
                                             (range start_week (start_week + 13)))
                                          (is_night r))
                      (shifts d))))
    <= 35.
Proof.
  intros d cs v emp w0 wr start_week Hcs Hsol Hemp Hweeks Hstart.
  destruct (hard_constraints_sections d cs Hcs)
    as (c3 & c4 & c5 & c6 & c73 & c74 & c8 & c9
        & H3 & H4 & H5 & H6 & H73 & H74 & H8 & H9 & ->).
  destruct (for_each_inr_incl _ _ _ H73 emp Hemp) as [ce [He Hie]].
  cbv beta zeta in He. rewrite Hweeks in He. injection He as <-.
  rewrite <- (zsum_values_weeks d v emp _ (range_NoDup _ _)).
  destruct (flat_map (night_shifts_by_week d) (range start_week (start_week + 13)))
    as [| a l] eqn:E; [simpl; lia |].
  match type of Hie with
  | incl (flat_map ?f ?l) _ =>
      assert (Hin : incl (f start_week) c73)
  end.
  { intros c Hc. apply Hie. apply in_flat_map. exists start_week.
    split; [apply in_range; lia | exact Hc]. }
  cbv beta zeta in Hin. rewrite E in Hin.
  match type of Hin with
  | incl [?c] _ => assert (Hc : holdsb v c = true)
  end.
  { match type of Hin with
    | incl [?c] _ => assert (Hm : In c c73) by (apply Hin; left; reflexivity)
    end.
    apply (solution_in v _ _ Hsol). in_section. }
  cbn [holdsb forallb implb cmp_holds] in Hc. apply Z.leb_le in Hc.
  cbn [terms sum_of] in Hc.
  change ((1, X a emp) :: map (fun x : var => (1, x)) (xs_of emp l))
    with (map (fun x : var => (1, x)) (xs_of emp (a :: l))) in Hc.
  rewrite eval_weighted_ones in Hc. lia.
Qed.

Lemma night_cap_full_window_witness :
  Z.of_nat (List.length
              (filter (fun s => Cases.thirteen_weeks_solution (X (shift_id s) "1001"))
                 (filter (fun r => andb (in_Z (week r) (range 1 (1 + 13))) (is_night r))
                    (shifts Cases.thirteen_weeks_data))))
  <= 35.
Proof.
  apply (night_cap_full_window Cases.thirteen_weeks_data
           (Cases.model_of Cases.thirteen_weeks_data) Cases.thirteen_weeks_solution
           "1001" 1 [2; 3; 4; 5; 6; 7; 8; 9; 10; 11; 12; 13] 1).
  - vm_compute. reflexivity.
  - apply solutionb_spec. vm_compute. reflexivity.
  - in_list.
  - vm_compute. reflexivity.
  - vm_compute. split; discriminate.
Defined.
